(** * MnC-Alloc: room booking, conflict detection and recurrence expansion

    A shallow embedding of the booking route handlers of the application:

    - [AdminBookings]: [POST], [PATCH] and [DELETE] of the admin bookings
      route ([/api/admin/bookings]);
    - [UserBookings]: [POST] of the user bookings route ([/api/bookings]).

    The MongoDB [bookings] collection is a list of documents in insertion
    order ([findOne] returns the first match).  A JavaScript [Date] is its
    timestamp in milliseconds; the server's local time zone is taken to be a
    fixed offset, folded into the timestamp, so local midnight is a multiple
    of one day. *)

From Stdlib Require Import ZArith List Bool Lia String.
From Stdlib Require Import Sorted Permutation.
Import ListNotations.
Local Open Scope Z_scope.

(** ** JavaScript dates and the date-fns helpers the handlers call *)

Module JsDate.

Definition Date := Z.

Definition MS_PER_MINUTE : Z := 60000.
Definition MS_PER_HOUR : Z := 3600000.
Definition MS_PER_DAY : Z := 86400000.

(** [d.setHours(0, 0, 0, 0)] *)
Definition startOfDay (d : Date) : Date := d - d mod MS_PER_DAY.

(** [d.getHours()] *)
Definition getHours (d : Date) : Z := (d mod MS_PER_DAY) / MS_PER_HOUR.

(** [d.getMinutes()] *)
Definition getMinutes (d : Date) : Z := (d mod MS_PER_HOUR) / MS_PER_MINUTE.

(** [d.setHours(h, m, 0, 0)], as the timestamp it returns *)
Definition setHours (d : Date) (h m : Z) : Date :=
  startOfDay d + h * MS_PER_HOUR + m * MS_PER_MINUTE.

(** [d.getDay()]: 0 is Sunday; the epoch day was a Thursday *)
Definition getDay (d : Date) : Z := (d / MS_PER_DAY + 4) mod 7.

(** date-fns [addDays], [addWeeks], [isBefore] *)
Definition addDays (d : Date) (n : Z) : Date := d + n * MS_PER_DAY.
Definition addWeeks (d : Date) (n : Z) : Date := addDays d (7 * n).
Definition isBefore (a b : Date) : bool := a <? b.

(** The calendar day a timestamp falls on, counted from the epoch, and its
    clock: the milliseconds since the midnight of that day. *)
Definition dayNumber (d : Date) : Z := d / MS_PER_DAY.
Definition timeOfDay (d : Date) : Z := d mod MS_PER_DAY.

(** Midnight of day [n], and a clock time on it. *)
Definition midnight (n : Z) : Date := n * MS_PER_DAY.
Definition at_ (n h m : Z) : Date := midnight n + h * MS_PER_HOUR + m * MS_PER_MINUTE.

End JsDate.
Import JsDate.

Ltac unfold_date :=
  unfold setHours, startOfDay, getHours, getMinutes, getDay, addDays, addWeeks,
         dayNumber, timeOfDay, midnight, at_, MS_PER_DAY, MS_PER_HOUR,
         MS_PER_MINUTE in *.

Ltac date_arith := unfold_date; Z.to_euclidean_division_equations; lia.


(** ** Documents, collections and responses *)

Inductive Status := pending | approved | rejected.

Definition isRejected (s : Status) : bool :=
  match s with rejected => true | _ => false end.

Inductive Role := admin | professor.

Definition isAdminRole (r : Role) : bool :=
  match r with admin => true | professor => false end.

Record SessionUser := { id : nat; role : Role }.

(** [getServerSession] returns the caller's session or [null]. *)
Definition Session := option SessionUser.

(** A document of the [bookings] collection.  [description], [createdAt],
    [createdBy] and [updatedAt] are payload that no handler reads back and
    are left out; [_id] is 0 until the document is inserted. *)
Record Booking := mkBooking {
  _id : nat;
  room : nat;
  user : nat;
  title : string;
  date : Date;
  startTime : Date;
  endTime : Date;
  status : Status;
  groupId : option nat
}.

Definition with_id (b : Booking) (i : nat) : Booking :=
  mkBooking i (room b) (user b) (title b) (date b) (startTime b) (endTime b)
            (status b) (groupId b).

Definition with_date (b : Booking) (d : Date) : Booking :=
  mkBooking (_id b) (room b) (user b) (title b) d (startTime b) (endTime b)
            (status b) (groupId b).

Definition with_status (b : Booking) (s : Status) : Booking :=
  mkBooking (_id b) (room b) (user b) (title b) (date b) (startTime b) (endTime b)
            s (groupId b).

(** The database: the [bookings] collection, the ids of the [rooms]
    collection and the ids of the users whose role is admin.  The
    [notifications] collection is only ever written and is left out. *)
Record Db := mkDb {
  bookings : list Booking;
  rooms : list nat;
  adminUsers : list nat
}.

Definition set_bookings (db : Db) (bs : list Booking) : Db :=
  mkDb bs (rooms db) (adminUsers db).

(** A fresh [ObjectId]: larger than every id in the collection. *)
Definition nextId (bs : list Booking) : nat :=
  S (fold_right Nat.max 0%nat (map _id bs)).

Fixpoint assignIds (n : nat) (docs : list Booking) : list Booking :=
  match docs with
  | [] => []
  | b :: rest => with_id b n :: assignIds (S n) rest
  end.

(** [insertMany]: the documents get fresh ids and go to the end. *)
Definition insertMany (bs docs : list Booking) : list Booking :=
  bs ++ assignIds (nextId bs) docs.

(** [findOne({ _id })] *)
Definition findById (bs : list Booking) (i : nat) : option Booking :=
  find (fun b => Nat.eqb (_id b) i) bs.

(** [updateOne({ _id }, { $set: { status } })]: the first match is updated. *)
Fixpoint updateStatus (bs : list Booking) (i : nat) (s : Status) : list Booking :=
  match bs with
  | [] => []
  | b :: rest =>
      if Nat.eqb (_id b) i then with_status b s :: rest
      else b :: updateStatus rest i s
  end.

(** [deleteOne({ _id })]: the first match is removed. *)
Fixpoint deleteById (bs : list Booking) (i : nat) : list Booking :=
  match bs with
  | [] => []
  | b :: rest =>
      if Nat.eqb (_id b) i then rest else b :: deleteById rest i
  end.

(** The pieces of a template-literal message: literal text, the day name of
    a weekly schedule entry, [format(d, 'MMM d, yyyy')] and
    [format(d, 'h:mm a')]. *)
Inductive Part :=
| Lit (s : string)
| DayName (s : string)
| FmtDate (d : Date)
| FmtTime (d : Date).

Definition Msg := list Part.

(** [NextResponse.json]: a message with its HTTP status, or the success
    body with the documents that were created. *)
Inductive Response :=
| Json (httpStatus : Z) (message : Msg)
| Success (httpStatus : Z) (created : list Booking).

(** Early returns: a handler runs until a guard answers. *)
Definition Handler (A : Type) : Type := Response + A.

Definition bind {A B} (m : Handler A) (k : A -> Handler B) : Handler B :=
  match m with
  | inl r => inl r
  | inr a => k a
  end.

Notation "x <- m ;; k" := (bind m (fun x => k))
  (at level 61, m at next level, right associativity).

(** [if (c) return r;] *)
Definition returnIf (c : bool) (r : Response) : Handler unit :=
  if c then inl r else inr tt.

(** ** The conflict query

    Both routes define the same [checkConflicts] closure.  It builds the
    proposed interval from the hours and minutes of [start] and [end] on
    the day of [date], resets the [date] object it was given to midnight
    (the caller sees that), and asks for the first booking of the room on
    that date that is not rejected and satisfies one of two clauses. *)

Definition conflictClauses (startDateTime endDateTime : Date) (b : Booking) : bool :=
  ((startTime b <? endDateTime) && (endTime b >? startDateTime))
  || ((startTime b >=? startDateTime) && (endTime b <=? endDateTime)).

Definition conflictQuery (roomId : nat) (day startDateTime endDateTime : Date)
    (b : Booking) : bool :=
  Nat.eqb (room b) roomId
  && (date b =? day)
  && negb (isRejected (status b))
  && conflictClauses startDateTime endDateTime b.

Definition checkConflicts (bs : list Booking) (roomId : nat)
    (date start end_ : Date) : option Booking * Date :=
  let startDateTime := setHours date (getHours start) (getMinutes start) in
  let endDateTime := setHours date (getHours end_) (getMinutes end_) in
  let date' := startOfDay date in
  (find (conflictQuery roomId date' startDateTime endDateTime) bs, date').

(** ** Loops over days

    The admin route repeats [while (isBefore(currentDate, endRepeatDate))];
    the loop body may move [currentDate] within its day (the weekly branch
    calls [currentDate.setHours]) before [addDays(currentDate, 1)].  The
    user route repeats [while (currentDate <= endDate)] with a step of one
    day or one week.  Both are given the number of iterations as fuel;
    [beforeFuel] and [leFuel] are enough for the loop to leave by its own
    test ([whileBefore_fuel], [whileLe_fuel]). *)

Fixpoint whileBefore {A} (fuel : nat) (body : Date -> list A * Date)
    (currentDate endRepeatDate : Date) : list A :=
  match fuel with
  | O => []
  | S fuel' =>
      if isBefore currentDate endRepeatDate then
        let '(out, currentDate') := body currentDate in
        out ++ whileBefore fuel' body (addDays currentDate' 1) endRepeatDate
      else []
  end.

Definition beforeFuel (currentDate endRepeatDate : Date) : nat :=
  Z.to_nat (dayNumber endRepeatDate - dayNumber currentDate + 1).

Fixpoint whileLe (fuel : nat) (step : Z) (currentDate endDate : Date) : list Date :=
  match fuel with
  | O => []
  | S fuel' =>
      if currentDate <=? endDate then
        currentDate :: whileLe fuel' step (addDays currentDate step) endDate
      else []
  end.

Definition leFuel (step : Z) (currentDate endDate : Date) : nat :=
  Z.to_nat ((endDate - currentDate) / (step * MS_PER_DAY) + 1).

(** ** The admin route: [/api/admin/bookings] *)

Module AdminBookings.

Module DaySchedule.
(** A nonempty time string parses to a date; [None] is a missing or
    empty one. *)
Record t := mk {
  startTime : option Date;
  endTime : option Date;
  enabled : bool
}.
End DaySchedule.

(** [WeeklySchedule]: an object from day names to day schedules, in key
    order. *)
Definition WeeklySchedule := list (string * DaySchedule.t).

Fixpoint lookup (key : string) (ws : WeeklySchedule) : option DaySchedule.t :=
  match ws with
  | [] => None
  | (k, v) :: rest => if String.eqb k key then Some v else lookup key rest
  end.

Inductive RepeatType := none | daily | weekly.

Module BookingRequest.
(** The request body.  [None] is a missing or empty field; [status] and
    [repeatType] carry their defaults ['approved'] and ['none'].  Time
    strings are ISO strings of one format, so their string order is the
    order of the dates they parse to. *)
Record t := mk {
  room : option nat;
  title : string;
  date : option Date;
  startTime : option Date;
  endTime : option Date;
  status : Status;
  repeatType : RepeatType;
  repeatEndDate : option Date;
  weeklySchedule : option WeeklySchedule
}.
End BookingRequest.

Definition unauthorized : Response := Json 401 [Lit "Unauthorized"].
Definition missingFields : Response := Json 400 [Lit "Missing required fields"].
Definition endAfterStart : Response := Json 400 [Lit "End time must be after start time"].

(** [endHour <= startHour]; a comparison with [NaN] is false. *)
Definition hourNotAfter (start end_ : option Date) : bool :=
  match start, end_ with
  | Some s, Some e => getHours e <=? getHours s
  | _, _ => false
  end.

(** The loop over [Object.entries(weeklySchedule)], with [hasEnabledDay]. *)
Fixpoint validateWeekly (entries : WeeklySchedule) (hasEnabledDay : bool)
    : Handler bool :=
  match entries with
  | [] => inr hasEnabledDay
  | (day, schedule) :: rest =>
      if DaySchedule.enabled schedule then
        if hourNotAfter (DaySchedule.startTime schedule) (DaySchedule.endTime schedule)
        then inl (Json 400 [Lit "End time must be after start time for "; DayName day])
        else validateWeekly rest true
      else validateWeekly rest hasEnabledDay
  end.

(** "Validate times based on repeat type" *)
Definition validateTimes (body : BookingRequest.t) : Handler unit :=
  match BookingRequest.repeatType body with
  | weekly =>
      match BookingRequest.weeklySchedule body with
      | None => inl (Json 400 [Lit "Weekly schedule is required for weekly bookings"])
      | Some ws =>
          hasEnabledDay <- validateWeekly ws false ;;
          returnIf (negb hasEnabledDay)
            (Json 400 [Lit "Please enable at least one day in the weekly schedule"])
      end
  | _ =>
      match BookingRequest.startTime body, BookingRequest.endTime body with
      | Some s, Some e => returnIf (e <=? s) endAfterStart
      | _, _ =>
          inl (Json 400 [Lit "Start time and end time are required for non-weekly bookings"])
      end
  end.

(** "Validate times": the second check, on the hours alone. *)
Definition validateHours (body : BookingRequest.t) : Handler unit :=
  match BookingRequest.startTime body, BookingRequest.endTime body with
  | Some s, Some e => returnIf (getHours e <=? getHours s) endAfterStart
  | _, _ => inr tt
  end.

Definition dayNames : list string :=
  ["sunday"; "monday"; "tuesday"; "wednesday"; "thursday"; "friday"; "saturday"]%string.

(** One round of the daily loop: [currentDate] is left as it is. *)
Definition dailyBody (baseBooking : Booking) (startTimeObj endTimeObj : Date)
    (currentDate : Date) : list Booking * Date :=
  let dayBookingDate := startOfDay currentDate in
  ([mkBooking 0 (room baseBooking) (user baseBooking) (title baseBooking)
      dayBookingDate
      (setHours dayBookingDate (getHours startTimeObj) (getMinutes startTimeObj))
      (setHours dayBookingDate (getHours endTimeObj) (getMinutes endTimeObj))
      (status baseBooking) None],
   currentDate).

(** One round of the weekly loop: the three [currentDate.setHours] calls
    leave [currentDate] at the end time of the booking it pushed. *)
Definition weeklyBody (baseBooking : Booking) (ws : WeeklySchedule)
    (currentDate : Date) : list Booking * Date :=
  let dayOfWeek := getDay currentDate in
  let dayName := nth (Z.to_nat dayOfWeek) dayNames EmptyString in
  match lookup dayName ws with
  | Some daySchedule =>
      match DaySchedule.enabled daySchedule,
            DaySchedule.startTime daySchedule, DaySchedule.endTime daySchedule with
      | true, Some startTimeDate, Some endTimeDate =>
          let d0 := startOfDay currentDate in
          let d1 := setHours d0 (getHours startTimeDate) (getMinutes startTimeDate) in
          let d2 := setHours d1 (getHours endTimeDate) (getMinutes endTimeDate) in
          ([mkBooking 0 (room baseBooking) (user baseBooking) (title baseBooking)
              d0 d1 d2 (status baseBooking) None],
           d2)
      | _, _, _ => ([], currentDate)
      end
  | None => ([], currentDate)
  end.

(** "Handle repeating bookings" *)
Definition repeatedBookings (body : BookingRequest.t) (baseBooking : Booking)
    (date : Date) : Handler (list Booking) :=
  match BookingRequest.repeatType body, BookingRequest.repeatEndDate body with
  | none, _ => inr []
  | _, None => inr []
  | daily, Some endRepeatDate =>
      match BookingRequest.startTime body, BookingRequest.endTime body with
      | Some startTimeObj, Some endTimeObj =>
          _ <- returnIf (getHours endTimeObj <=? getHours startTimeObj)
                 (Json 400 [Lit "End time must be after start time for daily bookings"]) ;;
          let currentDate := addDays date 1 in
          inr (whileBefore (beforeFuel currentDate endRepeatDate)
                 (dailyBody baseBooking startTimeObj endTimeObj)
                 currentDate endRepeatDate)
      | _, _ => inr []
      end
  | weekly, Some endRepeatDate =>
      match BookingRequest.weeklySchedule body with
      | Some ws =>
          inr (whileBefore (beforeFuel date endRepeatDate)
                 (weeklyBody baseBooking ws) date endRepeatDate)
      | None => inr []
      end
  end.

(** [POST] up to the conflict check: the guards and [bookingsToCreate].
    The first booking keeps [baseBooking.date], the very object that
    [checkConflicts] later resets to midnight; its two times come from
    successive [bookingDateObj.setHours] calls on one object. *)
Definition bookingsToCreate (db : Db) (session : Session) (body : BookingRequest.t)
    : Handler (nat * list Booking) :=
  match session with
  | None => inl unauthorized
  | Some sessionUser =>
      _ <- returnIf (negb (isAdminRole (role sessionUser))) unauthorized ;;
      match BookingRequest.room body, BookingRequest.date body with
      | Some roomId, Some date =>
          _ <- returnIf (String.eqb (BookingRequest.title body) EmptyString) missingFields ;;
          _ <- validateTimes body ;;
          _ <- returnIf (negb (existsb (Nat.eqb roomId) (rooms db)))
                 (Json 404 [Lit "Room not found"]) ;;
          _ <- validateHours body ;;
          let baseBooking :=
            mkBooking 0 roomId (id sessionUser) (BookingRequest.title body) date 0 0
                      (BookingRequest.status body) None in
          let initial :=
            match BookingRequest.startTime body, BookingRequest.endTime body with
            | Some startDate, Some endDate =>
                [mkBooking 0 roomId (id sessionUser) (BookingRequest.title body) date
                   (setHours date (getHours startDate) (getMinutes startDate))
                   (setHours (setHours date (getHours startDate) (getMinutes startDate))
                             (getHours endDate) (getMinutes endDate))
                   (BookingRequest.status body) None]
            | _, _ => []
            end in
          repeated <- repeatedBookings body baseBooking date ;;
          inr (roomId, initial ++ repeated)
      | _, _ => inl missingFields
      end
  end.

(** "Check for conflicts with all bookings": the first conflict ends the
    loop; a booking that passed has had its [date] reset to midnight. *)
Fixpoint checkAll (bs : list Booking) (roomId : nat) (toCreate : list Booking)
    : Booking + list Booking :=
  match toCreate with
  | [] => inr []
  | booking :: rest =>
      match checkConflicts bs roomId (date booking) (startTime booking) (endTime booking) with
      | (Some conflict, _) => inl conflict
      | (None, date') =>
          match checkAll bs roomId rest with
          | inl conflict => inl conflict
          | inr rest' => inr (with_date booking date' :: rest')
          end
      end
  end.

Definition conflictResponse (conflict : Booking) : Response :=
  Json 409 [Lit "Booking conflict on "; FmtDate (date conflict);
            Lit " between "; FmtTime (startTime conflict);
            Lit " and "; FmtTime (endTime conflict)].

(** The driver refuses an empty batch; the [catch] answers 500. *)
Definition emptyBatch : Response :=
  Json 500 [Lit "Invalid BulkOperation, Batch cannot be empty"].

Definition POST (db : Db) (session : Session) (body : BookingRequest.t)
    : Db * Response :=
  match bookingsToCreate db session body with
  | inl response => (db, response)
  | inr (roomId, toCreate) =>
      match checkAll (bookings db) roomId toCreate with
      | inl conflict => (db, conflictResponse conflict)
      | inr [] => (db, emptyBatch)
      | inr docs =>
          let inserted := assignIds (nextId (bookings db)) docs in
          (set_bookings db (bookings db ++ inserted), Success 200 inserted)
      end
  end.

(** [PATCH]: [status] is [None] when the body has none.  The update
    always counts as a modification, since it also sets [updatedAt]. *)
Definition PATCH (db : Db) (session : Session) (id_ : option nat)
    (status_ : option Status) : Db * Response :=
  match session with
  | None => (db, unauthorized)
  | Some sessionUser =>
      if negb (isAdminRole (role sessionUser)) then (db, unauthorized) else
      match id_, status_ with
      | Some i, Some s =>
          match findById (bookings db) i with
          | None => (db, Json 404 [Lit "Booking not found"])
          | Some _ =>
              (set_bookings db (updateStatus (bookings db) i s),
               Json 200 [Lit "Booking status updated successfully"])
          end
      | _, _ => (db, missingFields)
      end
  end.

Definition DELETE (db : Db) (session : Session) (id_ : option nat) : Db * Response :=
  match session with
  | None => (db, unauthorized)
  | Some sessionUser =>
      if negb (isAdminRole (role sessionUser)) then (db, unauthorized) else
      match id_ with
      | None => (db, Json 400 [Lit "Missing booking ID"])
      | Some i =>
          match findById (bookings db) i with
          | None => (db, Json 404 [Lit "Booking not found"])
          | Some _ =>
              (set_bookings db (deleteById (bookings db) i),
               Json 200 [Lit "Booking deleted successfully"])
          end
      end
  end.

End AdminBookings.

(** ** The user route: [/api/bookings] *)

Module UserBookings.

Inductive RepeatType := none | daily | weekly.

Module BookingData.
(** The request body; [None] is a missing or empty field, and
    [repeatType] carries its default ['none']. *)
Record t := mk {
  room : option nat;
  title : string;
  startTime : option Date;
  endTime : option Date;
  date : option Date;
  repeatType : RepeatType;
  repeatEndDate : option Date
}.
End BookingData.

Definition unauthorized : Response := Json 401 [Lit "Unauthorized"].
Definition missingFields : Response := Json 400 [Lit "Missing required fields"].
Definition outsideHoursResponse : Response :=
  Json 400 [Lit "Bookings must be between 8:00 AM and 9:00 PM"].
Definition endAfterStart : Response := Json 400 [Lit "End time must be after start time"].

(** "Check time constraints (8:00 AM - 9:00 PM)" *)
Definition outsideHours (startTime endTime : Date) : bool :=
  let startHour := getHours startTime in
  let endHour := getHours endTime in
  let endMinute := getMinutes endTime in
  (startHour <? 8) || ((endHour >? 21) || ((endHour =? 21) && (endMinute >? 0))).

(** Modelled from the spec: [Booking.create] of the mongoose model
    [models/booking], which is not among the sources.  Following the
    storage collaborator of the spec ([insertReservations]), it inserts the
    document under a fresh id and returns it. *)
Definition create (bs : list Booking) (doc : Booking) : list Booking * Booking :=
  let booking := with_id doc (nextId bs) in
  (bs ++ [booking], booking).

(** The first loop of a repeating request: the dates are checked in
    order, and the first conflict is returned. *)
Fixpoint checkDates (bs : list Booking) (roomId : nat) (dates : list Date)
    (startTime endTime : Date) : option Booking :=
  match dates with
  | [] => None
  | currentDate :: rest =>
      match fst (checkConflicts bs roomId currentDate startTime endTime) with
      | Some conflict => Some conflict
      | None => checkDates bs roomId rest startTime endTime
      end
  end.

(** The second loop: one [Booking.create] per date, with
    [{ ...baseBookingData, date: new Date(currentDate) }]. *)
Fixpoint createAll (bs : list Booking) (baseBookingData : Booking) (dates : list Date)
    : list Booking * list Booking :=
  match dates with
  | [] => (bs, [])
  | currentDate :: rest =>
      let '(bs', booking) := create bs (with_date baseBookingData currentDate) in
      let '(bs'', created) := createAll bs' baseBookingData rest in
      (bs'', booking :: created)
  end.

Definition conflictOn (conflict : Booking) : Response :=
  Json 409 [Lit "Booking conflict on "; FmtDate (date conflict);
            Lit ". Please check existing bookings."].

(** "Create notification for admin if booking is pending", then the
    answer.  With an admin to notify, building the text of a repeating
    request without [repeatEndDate] throws in [format], and
    [bookings[0]._id] throws when nothing was created; the [catch] answers
    500 with the error's message. *)
Definition notifyAndRespond (db : Db) (status_ : Status) (repeatType : RepeatType)
    (repeatEndDate : option Date) (created : list Booking) : Db * Response :=
  match status_, adminUsers db with
  | pending, _ :: _ =>
      match repeatType, repeatEndDate, created with
      | (daily | weekly), None, _ => (db, Json 500 [Lit "Invalid time value"])
      | _, _, [] =>
          (db, Json 500 [Lit "Cannot read properties of undefined (reading '_id')"])
      | _, _, _ => (db, Success 201 created)
      end
  | _, _ => (db, Success 201 created)
  end.

(** The dates a repeating request visits: [step] is 1 for [addDays] and 7
    for [addWeeks]. *)
Definition occurrences (step : Z) (startDate endDate : Date) : list Date :=
  whileLe (leFuel step startDate endDate) step startDate endDate.

Definition repeating (db : Db) (roomId : nat) (baseBookingData : Booking)
    (repeatType : RepeatType) (step : Z) (startDate endDate : Date) : Db * Response :=
  let dates := occurrences step startDate endDate in
  match checkDates (bookings db) roomId dates
          (startTime baseBookingData) (endTime baseBookingData) with
  | Some conflict => (db, conflictOn conflict)
  | None =>
      let '(bs', created) := createAll (bookings db) baseBookingData dates in
      notifyAndRespond (set_bookings db bs') (status baseBookingData) repeatType
        (Some endDate) created
  end.

(** [POST] up to the choice of status: the guards, in order. *)
Definition guards (session : Session) (bookingData : BookingData.t)
    : Handler (SessionUser * nat * Date * Date * Date) :=
  match session with
  | None => inl unauthorized
  | Some sessionUser =>
      match BookingData.room bookingData, BookingData.startTime bookingData,
            BookingData.endTime bookingData, BookingData.date bookingData with
      | Some roomId, Some startTime, Some endTime, Some date =>
          _ <- returnIf (String.eqb (BookingData.title bookingData) EmptyString)
                 missingFields ;;
          _ <- returnIf (outsideHours startTime endTime) outsideHoursResponse ;;
          _ <- returnIf (endTime <=? startTime) endAfterStart ;;
          inr (sessionUser, roomId, startTime, endTime, date)
      | _, _, _, _ => inl missingFields
      end
  end.

Definition slotTaken : Response :=
  Json 409 [Lit "This time slot conflicts with an existing booking"].

Definition POST (db : Db) (session : Session) (bookingData : BookingData.t)
    : Db * Response :=
  match guards session bookingData with
  | inl response => (db, response)
  | inr (sessionUser, roomId, startTime, endTime, date) =>
      let status_ := if isAdminRole (role sessionUser) then approved else pending in
      let repeatType := BookingData.repeatType bookingData in
      let groupId_ :=
        match repeatType with
        | none => None
        | _ => Some (nextId (bookings db))
        end in
      let baseBookingData :=
        mkBooking 0 roomId (id sessionUser) (BookingData.title bookingData)
                  date startTime endTime status_ groupId_ in
      match repeatType, BookingData.repeatEndDate bookingData with
      | none, repeatEndDate =>
          match fst (checkConflicts (bookings db) roomId date startTime endTime) with
          | Some _ => (db, slotTaken)
          | None =>
              let '(bs', booking) := create (bookings db) baseBookingData in
              notifyAndRespond (set_bookings db bs') status_ repeatType
                repeatEndDate [booking]
          end
      | daily, Some endDate =>
          repeating db roomId baseBookingData repeatType 1 date endDate
      | weekly, Some endDate =>
          repeating db roomId baseBookingData repeatType 7 date endDate
      | _, None => notifyAndRespond db status_ repeatType None []
      end
  end.

(** The dates on which a request asks for the room, in the order the
    handler checks them. *)
Definition requestedDates (bookingData : BookingData.t) (date : Date) : list Date :=
  match BookingData.repeatType bookingData, BookingData.repeatEndDate bookingData with
  | none, _ => [date]
  | daily, Some endDate => occurrences 1 date endDate
  | weekly, Some endDate => occurrences 7 date endDate
  | _, None => []
  end.

End UserBookings.

(** ** The reservation store as a transition system *)

Inductive Operation :=
| AdminPost (session : Session) (body : AdminBookings.BookingRequest.t)
| AdminPatch (session : Session) (id_ : option nat) (status_ : option Status)
| AdminDelete (session : Session) (id_ : option nat)
| UserPost (session : Session) (bookingData : UserBookings.BookingData.t).

Definition run (db : Db) (op : Operation) : Db * Response :=
  match op with
  | AdminPost session body => AdminBookings.POST db session body
  | AdminPatch session id_ status_ => AdminBookings.PATCH db session id_ status_
  | AdminDelete session id_ => AdminBookings.DELETE db session id_
  | UserPost session bookingData => UserBookings.POST db session bookingData
  end.

(** A database is reachable when a sequence of requests leads to it from
    one with no bookings. *)
Inductive reachable : Db -> Prop :=
| reachable_init : forall rooms_ admins, reachable (mkDb [] rooms_ admins)
| reachable_run : forall db op, reachable db -> reachable (fst (run db op)).

Definition runAll (db : Db) (ops : list Operation) : Db :=
  fold_left (fun db op => fst (run db op)) ops db.

(** ** The invariant

    A booking is read the way the application reads it back (the weekly
    view's [getBookingForSlot] tests [isSameDay] on [date] and compares the
    hour with [getHours] of [startTime] and of [endTime]; [checkConflicts]
    takes the hours and minutes of the requested times and puts them on the
    requested date): it is on the calendar day of its [date], from the
    clock of its [startTime] to the clock of its [endTime], whatever days
    those two timestamps are stored on. *)

(** The claim's single overlap test, on the ends of two intervals. *)
Definition halfOpenOverlap (aStart aEnd bStart bEnd : Date) : bool :=
  (aStart <? bEnd) && (bStart <? aEnd).

(** Half-open overlap of the clock windows of two bookings. *)
Definition overlap (a b : Booking) : bool :=
  halfOpenOverlap (timeOfDay (startTime a)) (timeOfDay (endTime a))
                  (timeOfDay (startTime b)) (timeOfDay (endTime b)).

(** Two bookings of one room and one calendar day, neither rejected,
    whose clock windows overlap. *)
Definition clash (a b : Booking) : bool :=
  Nat.eqb (room a) (room b)
  && (dayNumber (date a) =? dayNumber (date b))
  && negb (isRejected (status a))
  && negb (isRejected (status b))
  && overlap a b.

Definition NoDoubleBooking (bs : list Booking) : Prop :=
  ForallOrdPairs (fun a b => clash a b = false) bs.

(** The same overlap test on the times as they are stored, which is what
    the conflict query compares. *)
Definition storedOverlap (a b : Booking) : bool :=
  halfOpenOverlap (startTime a) (endTime a) (startTime b) (endTime b).

(** A booking stored on its own day: its [date] is the midnight of a day
    and its two times lie on that day.  The admin route stores every
    booking so ([bookingsToCreate_onItsDay]); the user route stores the
    [date] it was sent and, for each date of a repeating request, the
    times of the request. *)
Definition onItsDay (b : Booking) : Prop :=
  date b = startOfDay (date b)
  /\ dayNumber (startTime b) = dayNumber (date b)
  /\ dayNumber (endTime b) = dayNumber (date b).

Definition resetDate (b : Booking) : Booking := with_date b (startOfDay (date b)).

(** The interval [checkConflicts] builds for a booking is the booking's
    own when its times lie on its date at whole minutes. *)
Definition aligned (b : Booking) : Prop :=
  setHours (date b) (getHours (startTime b)) (getMinutes (startTime b)) = startTime b
  /\ setHours (date b) (getHours (endTime b)) (getMinutes (endTime b)) = endTime b.

(** The query [checkConflicts] runs for a booking of [bookingsToCreate]. *)
Definition queryFor (roomId : nat) (o : Booking) : Booking -> bool :=
  conflictQuery roomId (startOfDay (date o))
    (setHours (date o) (getHours (startTime o)) (getMinutes (startTime o)))
    (setHours (date o) (getHours (endTime o)) (getMinutes (endTime o))).

(** ** Notions the properties are stated with *)

(** An existing booking blocks a proposed one: it is in the same room, on
    the same calendar day, not rejected, and the two clock windows
    overlap. *)
Definition blocks (existing proposed : Booking) : Prop :=
  room existing = room proposed
  /\ dayNumber (date existing) = dayNumber (date proposed)
  /\ status existing <> rejected
  /\ overlap existing proposed = true.

(** What the conflict query asks of an existing booking for a proposed
    one whose times lie on its date: the room, a [date] equal to the
    midnight of the proposed day, a status other than rejected, and one of
    the two clauses on the stored times. *)
Definition matches (existing proposed : Booking) : Prop :=
  room existing = room proposed
  /\ date existing = startOfDay (date proposed)
  /\ status existing <> rejected
  /\ conflictClauses (startTime proposed) (endTime proposed) existing = true.

(** What a user request asks for on [currentDate]: the room and the
    interval that [checkConflicts] builds there. *)
Definition userOccurrence (roomId : nat) (currentDate startTime endTime : Date)
    : Booking :=
  mkBooking 0 roomId 0 EmptyString currentDate
    (setHours currentDate (getHours startTime) (getMinutes startTime))
    (setHours currentDate (getHours endTime) (getMinutes endTime))
    pending None.

(** A status update that rejects, or that is applied to a booking that is
    not rejected. *)
Definition harmless (b : Booking) (s : Status) : Prop :=
  isRejected s = true \/ isRejected (status b) = false.

(** The bookings of a list fall on strictly later and later days, from day
    [lo] on. *)
Fixpoint daysFrom (lo : Z) (l : list Booking) : Prop :=
  match l with
  | [] => True
  | b :: rest => lo <= dayNumber (date b) /\ daysFrom (dayNumber (date b) + 1) rest
  end.

(** A loop body that pushes at most one booking, on the day of
    [currentDate], and leaves [currentDate] on its day. *)
Definition oneADay (body : Date -> list Booking * Date) : Prop :=
  forall cur,
    dayNumber (snd (body cur)) = dayNumber cur
    /\ (fst (body cur) = []
        \/ exists b, fst (body cur) = [b] /\ dayNumber (date b) = dayNumber cur).

(** An admin request that is not a weekly schedule carrying a start and an
    end time of its own. *)
Definition oneBookingPerDay (body : AdminBookings.BookingRequest.t) : Prop :=
  AdminBookings.BookingRequest.repeatType body <> AdminBookings.weekly
  \/ AdminBookings.BookingRequest.startTime body = None
  \/ AdminBookings.BookingRequest.endTime body = None.

Definition isSuccess (r : Response) : bool :=
  match r with
  | Success _ _ => true
  | Json _ _ => false
  end.

(** What [bookings[0]._id] throws when nothing was created. *)
Definition nothingCreated : Response :=
  Json 500 [Lit "Cannot read properties of undefined (reading '_id')"].

(** A response names the date, or the time range, of a booking when its
    message has the date formatted, or both of its times formatted. *)
Definition namesDate (r : Response) (b : Booking) : Prop :=
  match r with
  | Json _ msg => In (FmtDate (date b)) msg
  | Success _ _ => False
  end.

Definition namesTimeRange (r : Response) (b : Booking) : Prop :=
  match r with
  | Json _ msg => In (FmtTime (startTime b)) msg /\ In (FmtTime (endTime b)) msg
  | Success _ _ => False
  end.

(** The clock of a date, in minutes after midnight, as [getHours] and
    [getMinutes] read it. *)
Definition clockMinutes (d : Date) : Z := getHours d * 60 + getMinutes d.

(** A booking between 8:00 AM and 9:00 PM: it ends on the day it starts,
    starts at 08:00 or later and ends at 21:00 or earlier. *)
Definition withinHours (b : Booking) : Prop :=
  dayNumber (endTime b) = dayNumber (startTime b)
  /\ 8 * MS_PER_HOUR <= timeOfDay (startTime b)
  /\ timeOfDay (endTime b) <= 21 * MS_PER_HOUR.

(** The two comparisons the hours guard of the user route makes, on the
    hours and minutes it reads. *)
Definition passesHoursGuard (b : Booking) : Prop :=
  8 <= getHours (startTime b) /\ clockMinutes (endTime b) <= 21 * 60.

(** ** Concrete requests

    Day 19723 of the epoch is Monday 2024-01-01; room 7 exists and user 1
    is the administrator. *)

Module Scenario.

Definition jan (n : Z) : Z := 19722 + n.

Definition adminSession : Session := Some {| id := 1; role := admin |}.
Definition professorSession : Session := Some {| id := 2; role := professor |}.

Definition emptyDb : Db := mkDb [] [7%nat] [1%nat].

(** Room 7 is taken on 2024-01-03 from 09:00 to 10:00. *)
Definition taken : Booking :=
  mkBooking 1 7 2 "Seminar" (midnight (jan 3)) (at_ (jan 3) 9 0) (at_ (jan 3) 10 0)
            approved None.

Definition busyDb : Db := mkDb [taken] [7%nat] [1%nat].

(** Admin route: 09:00-10:00 on [date], repeated as [repeatType] until
    [repeatEndDate]. *)
Definition adminRequest (date : Z) (startH startM endH endM : Z)
    (repeatType : AdminBookings.RepeatType) (repeatEndDate : option Date)
    : AdminBookings.BookingRequest.t :=
  AdminBookings.BookingRequest.mk (Some 7%nat) "Lecture" (Some (midnight date))
    (Some (at_ date startH startM)) (Some (at_ date endH endM)) approved
    repeatType repeatEndDate None.

(** Admin route: a weekly schedule from [date] until [repeatEndDate]. *)
Definition weeklyRequest (date : Z) (ws : AdminBookings.WeeklySchedule)
    (repeatEndDate : Z) : AdminBookings.BookingRequest.t :=
  AdminBookings.BookingRequest.mk (Some 7%nat) "Lecture" (Some (midnight date))
    None None approved AdminBookings.weekly (Some (midnight repeatEndDate)) (Some ws).

(** User route: the same shape of request. *)
Definition userRequest (date : Z) (startH startM endH endM : Z)
    (repeatType : UserBookings.RepeatType) (repeatEndDate : option Date)
    : UserBookings.BookingData.t :=
  UserBookings.BookingData.mk (Some 7%nat) "Lecture"
    (Some (at_ date startH startM)) (Some (at_ date endH endM))
    (Some (midnight date)) repeatType repeatEndDate.

(** A history that ends in a double booking: the admin books room 7 on
    2024-01-01 from 09:00 to 10:00, rejects that booking, books the same
    slot again, and then sets the first booking back to approved. *)
Definition single : AdminBookings.BookingRequest.t :=
  adminRequest (jan 1) 9 0 10 0 AdminBookings.none None.

Definition history : list Operation :=
  [AdminPost adminSession single;
   AdminPatch adminSession (Some 1%nat) (Some rejected);
   AdminPost adminSession single].

Definition rebooked : Db := runAll emptyDb history.

Definition reapprove : Operation :=
  AdminPatch adminSession (Some 1%nat) (Some approved).

(** The store a daily request of the user route leaves: room 7 from
    2024-01-01 until 2024-01-05 at 09:00-10:00, sent by the administrator
    and so approved.  Each of the five bookings has its own [date] and the
    start and end time of the request, which lie on 2024-01-01. *)
Definition userDaily : Operation :=
  UserPost adminSession
    (userRequest (jan 1) 9 0 10 0 UserBookings.daily (Some (midnight (jan 5)))).

Definition userBooked : Db := runAll emptyDb [userDaily].

Definition thirdOfSeries : Booking :=
  mkBooking 3 7 1 "Lecture" (midnight (jan 3)) (at_ (jan 1) 9 0) (at_ (jan 1) 10 0)
            approved (Some 1%nat).

(** Room 7 on 2024-01-03 from 09:00 to 10:00, asked for on each route. *)
Definition sameSlotAdmin : AdminBookings.BookingRequest.t :=
  adminRequest (jan 3) 9 0 10 0 AdminBookings.none None.

Definition sameSlotUser : UserBookings.BookingData.t :=
  userRequest (jan 3) 9 0 10 0 UserBookings.none None.

Definition sameSlotAdminBooking : Booking :=
  mkBooking 6 7 1 "Lecture" (midnight (jan 3)) (at_ (jan 3) 9 0) (at_ (jan 3) 10 0)
            approved None.

Definition sameSlotUserBooking : Booking :=
  mkBooking 6 7 2 "Lecture" (midnight (jan 3)) (at_ (jan 3) 9 0) (at_ (jan 3) 10 0)
            pending None.

(** A request of the user route whose [date] is sent as a time of day
    other than midnight: room 7 on 2024-01-01 from 09:00 to 10:00, with
    the date at noon. *)
Definition noonRequest : UserBookings.BookingData.t :=
  UserBookings.BookingData.mk (Some 7%nat) "Lecture"
    (Some (at_ (jan 1) 9 0)) (Some (at_ (jan 1) 10 0))
    (Some (at_ (jan 1) 12 0)) UserBookings.none None.

Definition noonBooking (i : nat) : Booking :=
  mkBooking i 7 2 "Lecture" (at_ (jan 1) 12 0) (at_ (jan 1) 9 0) (at_ (jan 1) 10 0)
            pending None.

(** Requests of the user route for room 7 on 2024-01-01: from 22:00 until
    07:00 of the next day, and from 20:00 until 21:00:59.999. *)
Definition overnight : UserBookings.BookingData.t :=
  UserBookings.BookingData.mk (Some 7%nat) "Lecture"
    (Some (at_ (jan 1) 22 0)) (Some (at_ (jan 2) 7 0))
    (Some (midnight (jan 1))) UserBookings.none None.

Definition lateEnd : UserBookings.BookingData.t :=
  UserBookings.BookingData.mk (Some 7%nat) "Lecture"
    (Some (at_ (jan 1) 20 0)) (Some (at_ (jan 1) 21 0 + 59999))
    (Some (midnight (jan 1))) UserBookings.none None.

Definition overnightBooking : Booking :=
  mkBooking 1 7 2 "Lecture" (midnight (jan 1)) (at_ (jan 1) 22 0) (at_ (jan 2) 7 0)
            pending None.

Definition lateEndBooking : Booking :=
  mkBooking 1 7 2 "Lecture" (midnight (jan 1)) (at_ (jan 1) 20 0)
            (at_ (jan 1) 21 0 + 59999) pending None.

(** A daily request of the user route for room 8, which has no booking. *)
Definition otherRoomDaily : UserBookings.BookingData.t :=
  UserBookings.BookingData.mk (Some 8%nat) "Lecture"
    (Some (at_ (jan 1) 9 0)) (Some (at_ (jan 1) 10 0))
    (Some (midnight (jan 1))) UserBookings.daily (Some (midnight (jan 5))).

(** The days on which the bookings of a database fall. *)
Definition bookedDays (db : Db) : list Z :=
  map (fun b => dayNumber (date b)) (bookings db).

(** Monday only, 09:00 to 10:00. *)
Definition mondays : AdminBookings.WeeklySchedule :=
  [("monday"%string,
    AdminBookings.DaySchedule.mk (Some (at_ 0 9 0)) (Some (at_ 0 10 0)) true)].

(** Monday 09:00 to 09:30. *)
Definition shortMondays : AdminBookings.WeeklySchedule :=
  [("monday"%string,
    AdminBookings.DaySchedule.mk (Some (at_ 0 9 0)) (Some (at_ 0 9 30)) true)].

(** A weekly schedule sent together with a start and an end time. *)
Definition weeklyWithOwnTimes : AdminBookings.BookingRequest.t :=
  AdminBookings.BookingRequest.mk (Some 7%nat) "Lecture" (Some (midnight (jan 1)))
    (Some (at_ (jan 1) 9 0)) (Some (at_ (jan 1) 10 0)) approved
    AdminBookings.weekly (Some (midnight (jan 2))) (Some mondays).

End Scenario.

(** ** The other routes

    The routes below answer with something other than created bookings:
    a refusal with its HTTP status and message, or the value of the
    successful answer. *)

Inductive Reply (A : Type) :=
| Refuse (httpStatus : Z) (message : Msg)
| Answer (value : A).

Arguments Refuse {A} httpStatus message.
Arguments Answer {A} value.

(** [find(...).sort(...)]: the documents in ascending order of the sort
    key; documents with equal keys keep their collection order. *)
Fixpoint insertBy (le : Booking -> Booking -> bool) (b : Booking) (l : list Booking)
    : list Booking :=
  match l with
  | [] => [b]
  | x :: rest => if le b x then b :: l else x :: insertBy le b rest
  end.

Definition sortBy (le : Booking -> Booking -> bool) (l : list Booking) : list Booking :=
  fold_right (insertBy le) [] l.

(** [sort({ startTime: 1 })] and [sort({ date: 1, startTime: 1 })] *)
Definition byStartTime (a b : Booking) : bool := startTime a <=? startTime b.

Definition byDateThenStartTime (a b : Booking) : bool :=
  (date a <? date b) || ((date a =? date b) && (startTime a <=? startTime b)).

(** [d.setHours(23, 59, 59, 999)] *)
Definition endOfDay (d : Date) : Date := startOfDay d + MS_PER_DAY - 1.

(** *** The availability probe: [POST] with [checkConflicts] over the
    requested dates, answering the dates of all the conflicts it meets *)

Module CheckAvailability.

Module Body.
(** The request body; [weeklySchedule] is read from it and never used. *)
Record t := mk {
  room : option nat;
  startTime : option Date;
  endTime : option Date;
  date : option Date;
  repeatType : UserBookings.RepeatType;
  repeatEndDate : option Date
}.
End Body.

(** One loop of the probe over the dates it visits: a date that passes
    [keep] is checked, and the date of the conflict found is pushed. *)
Fixpoint scan (bs : list Booking) (roomId : nat) (keep : Date -> bool)
    (dates : list Date) (start end_ : Date) : list Date :=
  match dates with
  | [] => []
  | currentDate :: rest =>
      if keep currentDate then
        match fst (checkConflicts bs roomId currentDate start end_) with
        | Some conflict => date conflict :: scan bs roomId keep rest start end_
        | None => scan bs roomId keep rest start end_
        end
      else scan bs roomId keep rest start end_
  end.

(** The days [currentDate.setDate(currentDate.getDate() + 1)] steps
    through while [currentDate <= endDate]. *)
Definition days (baseDate endDate : Date) : list Date :=
  whileLe (leFuel 1 baseDate endDate) 1 baseDate endDate.

Definition POST (db : Db) (body : Body.t) : Reply (list Date) :=
  match Body.room body, Body.startTime body, Body.endTime body, Body.date body with
  | Some room, Some baseStart, Some baseEnd, Some baseDate =>
      match Body.repeatType body, Body.repeatEndDate body with
      | UserBookings.none, _ =>
          Answer (scan (bookings db) room (fun _ => true) [baseDate] baseStart baseEnd)
      | UserBookings.daily, Some endDate =>
          Answer (scan (bookings db) room (fun _ => true)
                    (days baseDate endDate) baseStart baseEnd)
      | UserBookings.weekly, Some endDate =>
          let dayOfWeek := getDay baseDate in
          Answer (scan (bookings db) room
                    (fun currentDate => getDay currentDate =? dayOfWeek)
                    (days baseDate endDate) baseStart baseEnd)
      | _, None => Answer []
      end
  | _, _, _, _ => Refuse 400 [Lit "Missing required fields"]
  end.

(** The probe a client sends ahead of a booking request. *)
Definition ofBookingData (bookingData : UserBookings.BookingData.t) : Body.t :=
  Body.mk (UserBookings.BookingData.room bookingData)
          (UserBookings.BookingData.startTime bookingData)
          (UserBookings.BookingData.endTime bookingData)
          (UserBookings.BookingData.date bookingData)
          (UserBookings.BookingData.repeatType bookingData)
          (UserBookings.BookingData.repeatEndDate bookingData).

End CheckAvailability.

(** *** Rooms: the day view of a room's bookings and the deletion of a room *)

Module Rooms.

(** A document of the [rooms] collection, with the fields the routes look
    rooms up by. *)
Record Room := mkRoom {
  roomId : nat;
  number : string
}.

(** The last segment of the URL: [ObjectId.isValid] tells an id from a
    room number. *)
Inductive RoomParam :=
| ById (i : nat)
| ByNumber (n : string).

(** [Room.findOne({ number })] and [Room.findById] *)
Definition findByNumber (rooms : list Room) (n : string) : option Room :=
  find (fun r => String.eqb (number r) n) rooms.

Definition findRoom (rooms : list Room) (i : nat) : option Room :=
  find (fun r => Nat.eqb (roomId r) i) rooms.

Definition roomNotFound {A} : Reply A := Refuse 404 [Lit "Room not found"].

(** [GET] of a room's bookings on a date: a room number is looked up, an
    id is taken as it is. *)
Definition bookingsOn (rooms : list Room) (bs : list Booking) (session : Session)
    (param : RoomParam) (date_ : option Date) : Reply (list Booking) :=
  match session with
  | None => Refuse 401 [Lit "Unauthorized"]
  | Some _ =>
      let resolved :=
        match param with
        | ById i => Some i
        | ByNumber n =>
            match findByNumber rooms n with
            | Some r => Some (roomId r)
            | None => None
            end
        end in
      match resolved with
      | None => roomNotFound
      | Some i =>
          match date_ with
          | None => Refuse 400 [Lit "Date parameter is required"]
          | Some dateObj =>
              Answer
                (sortBy byStartTime
                   (filter (fun b => Nat.eqb (room b) i
                                     && (startOfDay dateObj <=? date b)
                                     && (date b <=? endOfDay dateObj)) bs))
          end
      end
  end.

(** [Room.findByIdAndDelete]: the first room with the id is removed. *)
Fixpoint deleteRoom (rooms : list Room) (i : nat) : list Room :=
  match rooms with
  | [] => []
  | r :: rest => if Nat.eqb (roomId r) i then rest else r :: deleteRoom rest i
  end.

(** [DELETE] of a room: the bookings of the room go first
    ([Booking.deleteMany({ room })]); the answer carries their number. *)
Definition DELETE (rooms : list Room) (bs : list Booking) (session : Session)
    (param : RoomParam) : list Room * list Booking * Reply nat :=
  match session with
  | Some sessionUser =>
      if isAdminRole (role sessionUser) then
        let resolved :=
          match param with
          | ById i => Some i
          | ByNumber n =>
              match findByNumber rooms n with
              | Some r => Some (roomId r)
              | None => None
              end
          end in
        match resolved with
        | None => (rooms, bs, roomNotFound)
        | Some i =>
            match findRoom rooms i with
            | None => (rooms, bs, roomNotFound)
            | Some _ =>
                let kept := filter (fun b => negb (Nat.eqb (room b) i)) bs in
                let deletedBookingsCount := (List.length bs - List.length kept)%nat in
                (deleteRoom rooms i, kept, Answer deletedBookingsCount)
            end
        end
      else (rooms, bs, Refuse 403 [Lit "Only administrators can delete rooms"])
  | None => (rooms, bs, Refuse 403 [Lit "Only administrators can delete rooms"])
  end.

End Rooms.

(** *** The caller's own bookings: [GET] of the user route *)

Module MyBookings.

(** ['pending'], ['approved'] and ['rejected'] are the status filters the
    route accepts. *)
Definition parseStatus (s : string) : option Status :=
  if String.eqb s "pending" then Some pending
  else if String.eqb s "approved" then Some approved
  else if String.eqb s "rejected" then Some rejected
  else None.

Definition Status_eqb (a b : Status) : bool :=
  match a, b with
  | pending, pending | approved, approved | rejected, rejected => true
  | _, _ => false
  end.

Definition GET (bs : list Booking) (session : Session) (status_ : option string)
    : Reply (list Booking) :=
  match session with
  | None => Refuse 401 [Lit "Unauthorized"]
  | Some sessionUser =>
      let userId := id sessionUser in
      let wanted :=
        match status_ with
        | Some s => parseStatus s
        | None => None
        end in
      Answer
        (sortBy byDateThenStartTime
           (filter (fun b => Nat.eqb (user b) userId
                             && match wanted with
                                | Some st => Status_eqb (status b) st
                                | None => true
                                end) bs))
  end.

End MyBookings.

(** *** Users: [PATCH] and [DELETE] of the admin users route *)

Module AdminUsers.

(** A document of the [users] collection; the name, e-mail, department
    and password hash are written by the route and never read by it. *)
Record User := mkUser {
  userId : nat;
  userRole : string
}.

Definition isAdminUser (u : User) : bool := String.eqb (userRole u) "admin".

(** [countDocuments({ role: 'admin' })] *)
Definition adminCount (users : list User) : nat :=
  List.length (filter isAdminUser users).

Definition findUser (users : list User) (i : nat) : option User :=
  find (fun u => Nat.eqb (userId u) i) users.

(** [updateOne({ _id }, { $set: updateObject })], where the role is in
    [updateObject] only when the body has one that is not empty
    ([if (role) updateObject.role = role]). *)
Fixpoint updateUser (users : list User) (i : nat) (role_ : option string) : list User :=
  match users with
  | [] => []
  | u :: rest =>
      if Nat.eqb (userId u) i then
        match role_ with
        | Some r =>
            if String.eqb r EmptyString then u :: rest
            else mkUser (userId u) r :: rest
        | None => u :: rest
        end
      else u :: updateUser rest i role_
  end.

Fixpoint deleteUser (users : list User) (i : nat) : list User :=
  match users with
  | [] => []
  | u :: rest => if Nat.eqb (userId u) i then rest else u :: deleteUser rest i
  end.

Definition unauthorized {A} : Reply A := Refuse 401 [Lit "Unauthorized"].

(** [PATCH]: [role_] is [None] when the body has no role.  The update
    always counts as a modification, since it also sets [updatedAt]. *)
Definition PATCH (users : list User) (session : Session) (id_ : option nat)
    (role_ : option string) : list User * Reply unit :=
  match session with
  | None => (users, unauthorized)
  | Some sessionUser =>
      if negb (isAdminRole (role sessionUser)) then (users, unauthorized) else
      match id_ with
      | None => (users, Refuse 400 [Lit "Missing user ID"])
      | Some i =>
          match findUser users i with
          | None => (users, Refuse 404 [Lit "User not found"])
          | Some existingUser =>
              let keepsAdmin :=
                match role_ with
                | Some r => String.eqb r "admin"
                | None => false
                end in
              if isAdminUser existingUser && negb keepsAdmin
                 && Nat.leb (adminCount users) 1
              then (users,
                    Refuse 400 [Lit "Cannot change role of the last administrator"])
              else (updateUser users i role_, Answer tt)
          end
      end
  end.

(** [DELETE]: the bookings of the user go with the account. *)
Definition DELETE (users : list User) (bs : list Booking) (session : Session)
    (id_ : option nat) : list User * list Booking * Reply unit :=
  match session with
  | None => (users, bs, unauthorized)
  | Some sessionUser =>
      if negb (isAdminRole (role sessionUser)) then (users, bs, unauthorized) else
      match id_ with
      | None => (users, bs, Refuse 400 [Lit "Missing user ID"])
      | Some i =>
          if Nat.eqb i (id sessionUser)
          then (users, bs, Refuse 400 [Lit "Cannot delete your own account"])
          else
            match findUser users i with
            | None => (users, bs, Refuse 404 [Lit "User not found"])
            | Some u =>
                if isAdminUser u && Nat.leb (adminCount users) 1
                then (users, bs,
                      Refuse 400 [Lit "Cannot delete the last administrator account"])
                else (deleteUser users i,
                      filter (fun b => negb (Nat.eqb (user b) i)) bs,
                      Answer tt)
            end
      end
  end.

End AdminUsers.

(** *** Notions for the properties of the routes *)

(** A booking the conflict query of a room can return: of that room and
    not rejected. *)
Definition live (roomId : nat) (b : Booking) : bool :=
  Nat.eqb (room b) roomId && negb (isRejected (status b)).

(** A booking with its status blanked: all that a status update keeps. *)
Definition withoutStatus (b : Booking) : Booking := with_status b pending.

(** The key of the weekly schedule for the day a date falls on. *)
Definition dayNameOf (d : Date) : string :=
  nth (Z.to_nat (getDay d)) AdminBookings.dayNames EmptyString.

(** A booking of the weekly loop: on an enabled day of the schedule, at the
    hours and minutes of that day's own window. *)
Definition fromSchedule (ws : AdminBookings.WeeklySchedule) (b : Booking) : Prop :=
  exists daySchedule s e,
    AdminBookings.lookup (dayNameOf (date b)) ws = Some daySchedule
    /\ AdminBookings.DaySchedule.enabled daySchedule = true
    /\ AdminBookings.DaySchedule.startTime daySchedule = Some s
    /\ AdminBookings.DaySchedule.endTime daySchedule = Some e
    /\ startTime b = setHours (date b) (getHours s) (getMinutes s)
    /\ endTime b = setHours (date b) (getHours e) (getMinutes e).

(** The status the user route gives: approved for an admin, pending
    otherwise. *)
Definition statusFor (u : SessionUser) : Status :=
  if isAdminRole (role u) then approved else pending.

(** A session that is not an admin's. *)
Definition notAdmin (session : Session) : Prop :=
  match session with
  | None => True
  | Some u => role u = professor
  end.

Definition isAdminSession (session : Session) : Prop :=
  exists u, session = Some u /\ role u = admin.

(** A stored booking in good order: its date is a midnight, its times lie
    on that date at whole minutes, and it starts before it ends. *)
Definition wellFormed (b : Booking) : Prop :=
  date b = startOfDay (date b) /\ aligned b /\ startTime b < endTime b.

(** A booking that carries what the request and the session say. *)
Definition asRequested (u : SessionUser) (roomId : nat)
    (body : AdminBookings.BookingRequest.t) (b : Booking) : Prop :=
  room b = roomId /\ user b = id u
  /\ status b = AdminBookings.BookingRequest.status body
  /\ title b = AdminBookings.BookingRequest.title body.

(** What the repeat loops push, given the base booking. *)
Definition likeBase (base o : Booking) : Prop :=
  room o = room base /\ user o = user base /\ status o = status base
  /\ title o = title base /\ startTime o < endTime o.

(** Whether a request for the room on [d], from the clock of [s] to the
    clock of [e], meets a conflict. *)
Definition hasConflict (bs : list Booking) (roomId : nat) (s e : Date) (d : Date)
    : bool :=
  match fst (checkConflicts bs roomId d s e) with
  | Some _ => true
  | None => false
  end.

(** * Facts about dates *)

Section DateFacts.

Lemma getHours_range d : 0 <= getHours d < 24.
Proof. date_arith. Qed.

Lemma getMinutes_range d : 0 <= getMinutes d < 60.
Proof. date_arith. Qed.

Lemma startOfDay_idem d : startOfDay (startOfDay d) = startOfDay d.
Proof. date_arith. Qed.

Lemma startOfDay_le d : startOfDay d <= d < startOfDay d + MS_PER_DAY.
Proof. date_arith. Qed.

Lemma startOfDay_midnight d : startOfDay d = midnight (dayNumber d).
Proof. date_arith. Qed.

Lemma startOfDay_setHours d h m :
  0 <= h < 24 -> 0 <= m < 60 -> startOfDay (setHours d h m) = startOfDay d.
Proof. intros. date_arith. Qed.

Lemma getHours_setHours d h m :
  0 <= h < 24 -> 0 <= m < 60 -> getHours (setHours d h m) = h.
Proof. intros. date_arith. Qed.

Lemma getMinutes_setHours d h m :
  0 <= h < 24 -> 0 <= m < 60 -> getMinutes (setHours d h m) = m.
Proof. intros. date_arith. Qed.

Lemma startOfDay_addDays d n : startOfDay (addDays d n) = addDays (startOfDay d) n.
Proof. date_arith. Qed.

Lemma dayNumber_addDays d n : dayNumber (addDays d n) = dayNumber d + n.
Proof. date_arith. Qed.

Lemma dayNumber_setHours d h m :
  0 <= h < 24 -> 0 <= m < 60 -> dayNumber (setHours d h m) = dayNumber d.
Proof. intros. date_arith. Qed.

Lemma dayNumber_startOfDay d : dayNumber (startOfDay d) = dayNumber d.
Proof. date_arith. Qed.

Lemma setHours_same_day d d' h m :
  startOfDay d = startOfDay d' -> setHours d h m = setHours d' h m.
Proof. unfold setHours. intros ->. reflexivity. Qed.

End DateFacts.

(** * Facts about the loops *)

Section LoopFacts.

Context {A : Type}.
Variable body : Date -> list A * Date.
Hypothesis body_same_day : forall d, dayNumber (snd (body d)) = dayNumber d.

Lemma beforeFuel_zero cur endRepeat :
  beforeFuel cur endRepeat = 0%nat -> isBefore cur endRepeat = false.
Proof.
  unfold beforeFuel, isBefore. intros H. apply Z.ltb_ge.
  assert (dayNumber endRepeat - dayNumber cur + 1 <= 0) by lia.
  clear H. date_arith.
Qed.

Lemma beforeFuel_step cur endRepeat :
  isBefore cur endRepeat = true ->
  beforeFuel cur endRepeat =
    S (beforeFuel (addDays (snd (body cur)) 1) endRepeat).
Proof.
  unfold beforeFuel, isBefore. intros H. apply Z.ltb_lt in H.
  rewrite dayNumber_addDays, body_same_day.
  assert (dayNumber cur <= dayNumber endRepeat) by date_arith.
  lia.
Qed.

(** Any fuel from [beforeFuel] on gives the same list: with [beforeFuel]
    the loop ends because its test fails. *)
Lemma whileBefore_fuel n : forall cur endRepeat,
  (beforeFuel cur endRepeat <= n)%nat ->
  whileBefore n body cur endRepeat =
    whileBefore (beforeFuel cur endRepeat) body cur endRepeat.
Proof.
  induction n as [|n IH]; intros cur endRepeat Hn.
  - replace (beforeFuel cur endRepeat) with 0%nat by lia. reflexivity.
  - destruct (isBefore cur endRepeat) eqn:Hb.
    + rewrite (beforeFuel_step _ _ Hb) in *. simpl. rewrite Hb.
      destruct (body cur) as [out cur'] eqn:Hbody. simpl in *.
      f_equal. apply IH. lia.
    + simpl. rewrite Hb.
      destruct (beforeFuel cur endRepeat); simpl; [|rewrite Hb]; reflexivity.
Qed.

Lemma whileBefore_Forall (P : A -> Prop) :
  (forall d, Forall P (fst (body d))) ->
  forall n cur endRepeat, Forall P (whileBefore n body cur endRepeat).
Proof.
  intros HP. induction n as [|n IH]; intros cur endRepeat; simpl.
  - constructor.
  - destruct (isBefore cur endRepeat); [|constructor].
    specialize (HP cur). destruct (body cur) as [out cur']. simpl in HP.
    apply Forall_app. split; [exact HP | apply IH].
Qed.

End LoopFacts.

Section WhileLeFacts.

Variable step : Z.
Hypothesis step_pos : 0 < step.

Lemma leFuel_zero cur endDate :
  leFuel step cur endDate = 0%nat -> (cur <=? endDate) = false.
Proof.
  unfold leFuel. intros H. apply Z.leb_gt.
  assert (Hq : (endDate - cur) / (step * MS_PER_DAY) + 1 <= 0) by lia.
  clear H. destruct (Z_lt_le_dec endDate cur) as [|Hle]; [assumption|].
  assert (0 <= (endDate - cur) / (step * MS_PER_DAY)).
  { apply Z.div_pos; unfold MS_PER_DAY; lia. }
  lia.
Qed.

Lemma leFuel_step cur endDate :
  (cur <=? endDate) = true ->
  leFuel step cur endDate = S (leFuel step (addDays cur step) endDate).
Proof.
  unfold leFuel, addDays. intros H. apply Z.leb_le in H.
  assert (Hpos : 0 < step * MS_PER_DAY) by (unfold MS_PER_DAY; lia).
  replace (endDate - (cur + step * MS_PER_DAY))
    with (endDate - cur + (-1) * (step * MS_PER_DAY)) by ring.
  rewrite Z.div_add by lia.
  assert (0 <= (endDate - cur) / (step * MS_PER_DAY)) by (apply Z.div_pos; lia).
  lia.
Qed.

Lemma whileLe_fuel n : forall cur endDate,
  (leFuel step cur endDate <= n)%nat ->
  whileLe n step cur endDate = whileLe (leFuel step cur endDate) step cur endDate.
Proof.
  induction n as [|n IH]; intros cur endDate Hn.
  - replace (leFuel step cur endDate) with 0%nat by lia. reflexivity.
  - destruct (cur <=? endDate) eqn:Hb.
    + rewrite (leFuel_step _ _ Hb) in *. simpl. rewrite Hb.
      f_equal. apply IH. lia.
    + simpl. rewrite Hb.
      destruct (leFuel step cur endDate); simpl; [|rewrite Hb]; reflexivity.
Qed.

(** The dates the loop visits, in closed form. *)
Lemma whileLe_closed n : forall cur endDate,
  n = leFuel step cur endDate ->
  whileLe n step cur endDate =
    map (fun k => addDays cur (step * Z.of_nat k)) (seq 0 n).
Proof.
  induction n as [|n IH]; intros cur endDate Hn; [reflexivity|].
  simpl. destruct (cur <=? endDate) eqn:Hb.
  - rewrite (leFuel_step _ _ Hb) in Hn. injection Hn as Hn.
    f_equal.
    + unfold addDays. lia.
    + rewrite (IH _ _ Hn), <- seq_shift, map_map.
      apply map_ext. intros k. unfold addDays. lia.
  - pose proof (leFuel_zero cur endDate) as Hz.
    destruct (leFuel step cur endDate) eqn:Hf; [lia|].
    exfalso.
    assert (Hgt : endDate < cur) by (apply Z.leb_gt; exact Hb).
    unfold leFuel in Hf.
    assert (Hneg : (endDate - cur) / (step * MS_PER_DAY) < 0).
    { apply Z.div_lt_upper_bound; unfold MS_PER_DAY; lia. }
    lia.
Qed.

End WhileLeFacts.

(** * The conflict predicate *)

Section ConflictFacts.

Lemma conflictClauses_overlap s e b :
  halfOpenOverlap (startTime b) (endTime b) s e = true ->
  conflictClauses s e b = true.
Proof.
  unfold halfOpenOverlap, conflictClauses. intros H.
  apply andb_prop in H as [H1 H2].
  apply Z.ltb_lt in H1, H2. apply orb_true_iff. left.
  apply andb_true_iff. split; [apply Z.ltb_lt | apply Z.gtb_lt]; lia.
Qed.

Lemma conflictClauses_spec s e b :
  conflictClauses s e b = true <->
  (startTime b < e /\ s < endTime b) \/ (s <= startTime b /\ endTime b <= e).
Proof.
  unfold conflictClauses.
  rewrite orb_true_iff, !andb_true_iff, Z.ltb_lt, Z.gtb_lt, Z.geb_le, Z.leb_le.
  lia.
Qed.

Lemma conflictQuery_spec roomId day s e b :
  conflictQuery roomId day s e b = true <->
  room b = roomId /\ date b = day /\ status b <> rejected /\
  conflictClauses s e b = true.
Proof.
  unfold conflictQuery.
  rewrite !andb_true_iff, Nat.eqb_eq, Z.eqb_eq, negb_true_iff.
  destruct (status b); simpl; intuition congruence.
Qed.

End ConflictFacts.

(** C3: for an existing booking and a proposed interval that both have
    their start before their end, the two-clause predicate of
    [checkConflicts] gives the same answer as the single half-open overlap
    test; and an interval that only touches the other at an endpoint does
    not conflict. *)
Theorem conflict_clauses_are_half_open_overlap :
  forall (existing : Booking) (newStart newEnd : Date),
    startTime existing < endTime existing ->
    newStart < newEnd ->
    conflictClauses newStart newEnd existing =
      halfOpenOverlap (startTime existing) (endTime existing) newStart newEnd
    /\ (endTime existing = newStart \/ newEnd = startTime existing ->
        conflictClauses newStart newEnd existing = false).
Proof.
  intros existing newStart newEnd He Hn.
  assert (Heq : conflictClauses newStart newEnd existing =
                halfOpenOverlap (startTime existing) (endTime existing) newStart newEnd).
  { apply eq_true_iff_eq. rewrite conflictClauses_spec.
    unfold halfOpenOverlap. rewrite andb_true_iff, !Z.ltb_lt. lia. }
  split; [exact Heq|].
  intros Htouch. rewrite Heq. unfold halfOpenOverlap.
  apply andb_false_iff. rewrite !Z.ltb_ge. lia.
Qed.

(** 09:00-10:00 on 2024-01-03 against 10:00-11:00: the intervals touch and
    the predicate is false. *)
Lemma conflict_clauses_are_half_open_overlap_witness :
  conflictClauses (at_ 19725 10 0) (at_ 19725 11 0) Scenario.taken =
    halfOpenOverlap (startTime Scenario.taken) (endTime Scenario.taken)
                    (at_ 19725 10 0) (at_ 19725 11 0)
  /\ (endTime Scenario.taken = at_ 19725 10 0
      \/ at_ 19725 11 0 = startTime Scenario.taken ->
      conflictClauses (at_ 19725 10 0) (at_ 19725 11 0) Scenario.taken = false).
Proof.
  apply (conflict_clauses_are_half_open_overlap
           Scenario.taken (at_ 19725 10 0) (at_ 19725 11 0));
    vm_compute; reflexivity.
Defined.

(** * The conflict loop of the admin route *)

Section CheckAllFacts.

Import AdminBookings.

Variable bs : list Booking.
Variable roomId : nat.

Lemma checkAll_inl toCreate conflict :
  checkAll bs roomId toCreate = inl conflict ->
  In conflict bs /\ exists o, In o toCreate /\ queryFor roomId o conflict = true.
Proof.
  induction toCreate as [|o rest IH]; simpl; [discriminate|].
  unfold checkConflicts.
  destruct (find _ bs) as [c|] eqn:Hfind.
  - intros [= <-]. apply find_some in Hfind as [Hin Hq].
    split; [exact Hin|]. exists o. split; [now left | exact Hq].
  - destruct (checkAll bs roomId rest) as [c|rest'] eqn:Hrest; [|discriminate].
    intros [= <-]. destruct (IH eq_refl) as [Hin [o' [Ho' Hq]]].
    split; [exact Hin|]. exists o'. split; [now right | exact Hq].
Qed.

Lemma checkAll_inr toCreate docs :
  checkAll bs roomId toCreate = inr docs ->
  docs = map resetDate toCreate
  /\ forall o e, In o toCreate -> In e bs -> queryFor roomId o e = false.
Proof.
  revert docs. induction toCreate as [|o rest IH]; simpl; intros docs.
  - intros [= <-]. split; [reflexivity | intros ? ? []].
  - unfold checkConflicts.
    destruct (find _ bs) as [c|] eqn:Hfind; [discriminate|].
    destruct (checkAll bs roomId rest) as [c|rest'] eqn:Hrest; [discriminate|].
    intros [= <-]. destruct (IH _ eq_refl) as [-> Hnone].
    split; [reflexivity|].
    intros o' e [<-|Ho'] He.
    + exact (find_none _ _ Hfind e He).
    + exact (Hnone o' e Ho' He).
Qed.


End CheckAllFacts.

(** * What the admin route is about to create *)

Section BookingsToCreateFacts.

Import AdminBookings.

Lemma setHours_roundtrip d d' h m :
  0 <= h < 24 -> 0 <= m < 60 -> startOfDay d' = startOfDay d ->
  setHours d' (getHours (setHours d h m)) (getMinutes (setHours d h m)) =
    setHours d h m.
Proof.
  intros Hh Hm Hd.
  rewrite getHours_setHours, getMinutes_setHours by assumption.
  apply setHours_same_day. exact Hd.
Qed.

Lemma aligned_same_day i r u t d s g h m h' m' x y :
  0 <= h < 24 -> 0 <= m < 60 -> 0 <= h' < 24 -> 0 <= m' < 60 ->
  startOfDay x = startOfDay d -> startOfDay y = startOfDay d ->
  aligned (mkBooking i r u t d (setHours x h m) (setHours y h' m') s g).
Proof.
  intros Hh Hm Hh' Hm' Hx Hy. unfold aligned. simpl.
  split; apply setHours_roundtrip; auto.
Qed.

Ltac clock_ranges :=
  auto using getHours_range, getMinutes_range, startOfDay_idem;
  try (apply startOfDay_setHours; auto using getHours_range, getMinutes_range).

Lemma dailyBody_aligned base s e cur :
  Forall (fun o => room o = room base /\ aligned o) (fst (dailyBody base s e cur)).
Proof.
  unfold dailyBody. simpl. constructor; [|constructor]. split; [reflexivity|].
  apply aligned_same_day; clock_ranges.
Qed.

Lemma weeklyBody_aligned base ws cur :
  Forall (fun o => room o = room base /\ aligned o) (fst (weeklyBody base ws cur)).
Proof.
  unfold weeklyBody.
  destruct (lookup _ ws) as [ds|]; [|constructor].
  destruct (DaySchedule.enabled ds); [|constructor].
  destruct (DaySchedule.startTime ds) as [s|]; [|constructor].
  destruct (DaySchedule.endTime ds) as [e|]; [|constructor].
  simpl. constructor; [|constructor]. split; [reflexivity|].
  apply aligned_same_day; clock_ranges.
Qed.

Lemma repeatedBookings_aligned body base date_ repeated :
  repeatedBookings body base date_ = inr repeated ->
  Forall (fun o => room o = room base /\ aligned o) repeated.
Proof.
  unfold repeatedBookings.
  destruct (BookingRequest.repeatType body);
    destruct (BookingRequest.repeatEndDate body) as [endRepeat|];
    try (intros [= <-]; constructor).
  - destruct (BookingRequest.startTime body) as [s|];
      [destruct (BookingRequest.endTime body) as [e|]|];
      try (intros [= <-]; constructor).
    unfold returnIf. destruct (getHours e <=? getHours s); simpl; [discriminate|].
    intros [= <-]. apply whileBefore_Forall. apply dailyBody_aligned.
  - destruct (BookingRequest.weeklySchedule body) as [ws|];
      try (intros [= <-]; constructor).
    intros [= <-]. apply whileBefore_Forall. apply weeklyBody_aligned.
Qed.

(** Every booking about to be created is in the requested room and has
    its times on its own date, at whole minutes. *)
Lemma bookingsToCreate_aligned db session body roomId toCreate :
  bookingsToCreate db session body = inr (roomId, toCreate) ->
  Forall (fun o => room o = roomId /\ aligned o) toCreate.
Proof.
  unfold bookingsToCreate.
  destruct session as [u|]; [|discriminate].
  unfold returnIf at 1. destruct (isAdminRole (role u)); simpl; [|discriminate].
  destruct (BookingRequest.room body) as [r|]; [|discriminate].
  destruct (BookingRequest.date body) as [d|]; [|discriminate].
  unfold returnIf at 1.
  destruct (String.eqb _ _); simpl; [discriminate|].
  destruct (validateTimes body); simpl; [discriminate|].
  unfold returnIf at 1.
  destruct (existsb _ _); simpl; [|discriminate].
  destruct (validateHours body); simpl; [discriminate|].
  destruct (repeatedBookings _ _ _) as [|repeated] eqn:Hrep; simpl; [discriminate|].
  intros [= <- <-].
  apply repeatedBookings_aligned in Hrep. simpl in Hrep.
  apply Forall_app. split; [|exact Hrep].
  destruct (BookingRequest.startTime body) as [s|]; [|constructor].
  destruct (BookingRequest.endTime body) as [e|]; [|constructor].
  constructor; [|constructor]. split; [reflexivity|].
  apply aligned_same_day; clock_ranges.
Qed.

Lemma aligned_on_day o :
  aligned o ->
  dayNumber (startTime o) = dayNumber (date o)
  /\ dayNumber (endTime o) = dayNumber (date o).
Proof.
  intros [Hs He]. split.
  - rewrite <- Hs. apply dayNumber_setHours; auto using getHours_range, getMinutes_range.
  - rewrite <- He. apply dayNumber_setHours; auto using getHours_range, getMinutes_range.
Qed.

Lemma same_day_midnight d d' :
  d = startOfDay d -> dayNumber d = dayNumber d' -> d = startOfDay d'.
Proof. intros. date_arith. Qed.

Lemma same_day_lt t u :
  dayNumber t = dayNumber u -> (timeOfDay t < timeOfDay u <-> t < u).
Proof. intros. date_arith. Qed.

(** For bookings stored on their day the clock windows overlap exactly
    when the stored intervals do. *)
Lemma overlap_on_day a b :
  dayNumber (date a) = dayNumber (date b) ->
  dayNumber (startTime a) = dayNumber (date a) ->
  dayNumber (endTime a) = dayNumber (date a) ->
  dayNumber (startTime b) = dayNumber (date b) ->
  dayNumber (endTime b) = dayNumber (date b) ->
  overlap a b = storedOverlap a b.
Proof.
  intros Hd Hsa Hea Hsb Heb. unfold overlap, storedOverlap, halfOpenOverlap.
  apply eq_true_iff_eq. rewrite !andb_true_iff, !Z.ltb_lt.
  rewrite (same_day_lt (startTime a) (endTime b)) by congruence.
  rewrite (same_day_lt (startTime b) (endTime a)) by congruence.
  reflexivity.
Qed.

Lemma blocks_matches e o :
  onItsDay e -> aligned o -> blocks e o -> matches e o.
Proof.
  intros (Hde & Hse & Hee) Hal (Hroom & Hday & Hstatus & Hov).
  destruct (aligned_on_day o Hal) as [Hso Heo].
  repeat split; try assumption.
  - apply same_day_midnight; assumption.
  - apply conflictClauses_overlap.
    rewrite overlap_on_day in Hov by assumption. exact Hov.
Qed.

Lemma matches_blocks e o :
  onItsDay e -> startTime e < endTime e -> aligned o -> matches e o -> blocks e o.
Proof.
  intros (Hde & Hse & Hee) Hlt Hal (Hroom & Hdate & Hstatus & Hc).
  destruct (aligned_on_day o Hal) as [Hso Heo].
  assert (Hday : dayNumber (date e) = dayNumber (date o)).
  { rewrite Hdate. apply dayNumber_startOfDay. }
  repeat split; try assumption.
  rewrite overlap_on_day by assumption.
  unfold storedOverlap, halfOpenOverlap.
  apply conflictClauses_spec in Hc.
  apply andb_true_iff. rewrite !Z.ltb_lt. lia.
Qed.

Lemma matches_queryFor e o :
  aligned o -> matches e o -> queryFor (room o) o e = true.
Proof.
  intros [Hs He] (Hroom & Hdate & Hstatus & Hc).
  unfold queryFor. apply conflictQuery_spec.
  repeat split; try assumption.
  rewrite Hs, He. exact Hc.
Qed.

Lemma queryFor_matches roomId e o :
  room o = roomId -> aligned o -> queryFor roomId o e = true -> matches e o.
Proof.
  intros Hroom [Hs He] Hq. unfold queryFor in Hq.
  apply conflictQuery_spec in Hq as (Hr & Hd & Hst & Hc).
  rewrite Hs, He in Hc. repeat split; try assumption. congruence.
Qed.

End BookingsToCreateFacts.

(** * All or nothing *)

Section UserCheckFacts.

Import UserBookings.

Lemma userOccurrence_aligned roomId currentDate s e :
  aligned (userOccurrence roomId currentDate s e).
Proof.
  unfold userOccurrence.
  apply aligned_same_day; auto using getHours_range, getMinutes_range.
Qed.

(** The query of the user route for [currentDate] is [matches] on the
    occurrence asked for. *)
Lemma conflictQuery_userOccurrence roomId currentDate s e existing :
  conflictQuery roomId (startOfDay currentDate)
    (setHours currentDate (getHours s) (getMinutes s))
    (setHours currentDate (getHours e) (getMinutes e)) existing = true
  <-> matches existing (userOccurrence roomId currentDate s e).
Proof.
  rewrite conflictQuery_spec. unfold matches. simpl. reflexivity.
Qed.




End UserCheckFacts.


(** C2 at room 7 on 2024-01-03, 09:00-10:00.  A daily request of the user
    route has booked that room from 2024-01-01 until 2024-01-05 at that
    hour, all approved.  The booking of the series for 2024-01-03 blocks
    the slot, yet a request for it is answered with success on the admin
    route and on the user route, and each adds its booking to the five.
    The query compares the stored times, and the user route stores the
    times of the first day with every date of the series.

    The same on an empty collection with a request of the user route whose
    date is sent at noon: the booking is stored with that date, the query
    asks for the midnight of the day, and the same request succeeds a
    second time. *)
Theorem overlapping_request_is_committed :
  (In Scenario.thirdOfSeries (bookings Scenario.userBooked)
   /\ List.length (bookings Scenario.userBooked) = 5%nat
   /\ blocks Scenario.thirdOfSeries Scenario.sameSlotAdminBooking
   /\ AdminBookings.POST Scenario.userBooked Scenario.adminSession
        Scenario.sameSlotAdmin
      = (set_bookings Scenario.userBooked
           (bookings Scenario.userBooked ++ [Scenario.sameSlotAdminBooking]),
         Success 200 [Scenario.sameSlotAdminBooking])
   /\ blocks Scenario.thirdOfSeries Scenario.sameSlotUserBooking
   /\ UserBookings.POST Scenario.userBooked Scenario.professorSession
        Scenario.sameSlotUser
      = (set_bookings Scenario.userBooked
           (bookings Scenario.userBooked ++ [Scenario.sameSlotUserBooking]),
         Success 201 [Scenario.sameSlotUserBooking]))
  /\ (UserBookings.POST Scenario.emptyDb Scenario.professorSession
        Scenario.noonRequest
      = (set_bookings Scenario.emptyDb [Scenario.noonBooking 1],
         Success 201 [Scenario.noonBooking 1])
      /\ blocks (Scenario.noonBooking 1) (Scenario.noonBooking 2)
      /\ UserBookings.POST (set_bookings Scenario.emptyDb [Scenario.noonBooking 1])
           Scenario.professorSession Scenario.noonRequest
         = (set_bookings Scenario.emptyDb
              [Scenario.noonBooking 1; Scenario.noonBooking 2],
            Success 201 [Scenario.noonBooking 2])).
Proof.
  split.
  - split; [vm_compute; tauto|].
    split; [vm_compute; reflexivity|].
    split; [vm_compute; repeat split; discriminate|].
    split; [vm_compute; reflexivity|].
    split; [vm_compute; repeat split; discriminate|].
    vm_compute. reflexivity.
  - split; [vm_compute; reflexivity|].
    split; [vm_compute; repeat split; discriminate|].
    vm_compute. reflexivity.
Qed.




(** * The invariant under the operations *)

Section PairFacts.

Context {A : Type}.
Variable R : A -> A -> Prop.

Lemma ForallOrdPairs_app l1 l2 :
  ForallOrdPairs R l1 -> ForallOrdPairs R l2 ->
  (forall a b, In a l1 -> In b l2 -> R a b) ->
  ForallOrdPairs R (l1 ++ l2).
Proof.
  intros H1 H2 Hcross. induction H1 as [|a l Ha Hl IH]; simpl; [exact H2|].
  constructor.
  - apply Forall_app. split; [exact Ha|].
    apply Forall_forall. intros b Hb. apply Hcross; [now left | exact Hb].
  - apply IH. intros x y Hx Hy. apply Hcross; [now right | exact Hy].
Qed.

Lemma ForallOrdPairs_map {B} (f : B -> A) l :
  ForallOrdPairs (fun x y => R (f x) (f y)) l -> ForallOrdPairs R (map f l).
Proof.
  induction 1 as [|a l Ha Hl IH]; simpl; constructor; [|exact IH].
  apply Forall_map. exact Ha.
Qed.

Lemma ForallOrdPairs_impl (Q : A -> A -> Prop) l :
  (forall a b, R a b -> Q a b) -> ForallOrdPairs R l -> ForallOrdPairs Q l.
Proof.
  intros HRQ. induction 1 as [|a l Ha Hl IH]; constructor; [|exact IH].
  eapply Forall_impl; [|exact Ha]. intros b. apply HRQ.
Qed.

End PairFacts.

Section StoreFacts.

Lemma clash_with_id_r a b i : clash a (with_id b i) = clash a b.
Proof. reflexivity. Qed.

Lemma clash_with_id_l a b i : clash (with_id a i) b = clash a b.
Proof. reflexivity. Qed.

Lemma clash_rejected_l a b : isRejected (status a) = true -> clash a b = false.
Proof.
  unfold clash. intros ->. simpl.
  rewrite !andb_false_r. reflexivity.
Qed.

Lemma clash_rejected_r a b : isRejected (status b) = true -> clash a b = false.
Proof.
  unfold clash. intros ->. simpl.
  rewrite !andb_false_r. reflexivity.
Qed.

Lemma clash_with_status_l a b s :
  harmless a s -> clash a b = false -> clash (with_status a s) b = false.
Proof.
  intros [Hs|Ha] Hc.
  - apply clash_rejected_l. exact Hs.
  - destruct (isRejected s) eqn:Hs; [apply clash_rejected_l; exact Hs|].
    unfold clash in *. simpl. rewrite Hs. rewrite Ha in Hc. exact Hc.
Qed.

Lemma clash_with_status_r a b s :
  harmless b s -> clash a b = false -> clash a (with_status b s) = false.
Proof.
  intros [Hs|Hb] Hc.
  - apply clash_rejected_r. exact Hs.
  - destruct (isRejected s) eqn:Hs; [apply clash_rejected_r; exact Hs|].
    unfold clash in *. simpl. rewrite Hs. rewrite Hb in Hc. exact Hc.
Qed.

Lemma In_deleteById bs i b : In b (deleteById bs i) -> In b bs.
Proof.
  induction bs as [|a rest IH]; simpl; [tauto|].
  destruct (Nat.eqb (_id a) i); simpl; intuition.
Qed.

Lemma NoDoubleBooking_delete bs i :
  NoDoubleBooking bs -> NoDoubleBooking (deleteById bs i).
Proof.
  unfold NoDoubleBooking. induction 1 as [|a rest Ha Hrest IH]; simpl.
  - constructor.
  - destruct (Nat.eqb (_id a) i); [exact Hrest|].
    constructor; [|exact IH].
    rewrite Forall_forall in *. intros b Hb.
    apply Ha. eapply In_deleteById. exact Hb.
Qed.

Lemma Forall_updateStatus (P : Booking -> Prop) bs i s :
  (forall b, findById bs i = Some b -> P b -> P (with_status b s)) ->
  Forall P bs -> Forall P (updateStatus bs i s).
Proof.
  unfold findById. intros Hup H. induction H as [|a rest Ha Hrest IH]; simpl in *.
  - constructor.
  - destruct (Nat.eqb (_id a) i).
    + constructor; [apply Hup; auto | exact Hrest].
    + constructor; [exact Ha | apply IH; exact Hup].
Qed.

Lemma NoDoubleBooking_updateStatus bs i s :
  (forall b, findById bs i = Some b -> harmless b s) ->
  NoDoubleBooking bs -> NoDoubleBooking (updateStatus bs i s).
Proof.
  unfold NoDoubleBooking, findById. intros Hh H.
  induction H as [|a rest Ha Hrest IH]; simpl in *.
  - constructor.
  - destruct (Nat.eqb (_id a) i).
    + constructor; [|exact Hrest].
      eapply Forall_impl; [|exact Ha].
      intros b. apply clash_with_status_l. apply Hh. reflexivity.
    + constructor; [|apply IH; exact Hh].
      apply (Forall_updateStatus (fun b => clash a b = false)); [|exact Ha].
      intros b Hb. apply clash_with_status_r. apply Hh. exact Hb.
Qed.

End StoreFacts.

Section BatchFacts.

Import AdminBookings.

Lemma daysFrom_weaken l : forall lo lo', lo' <= lo -> daysFrom lo l -> daysFrom lo' l.
Proof. destruct l; simpl; intros; [trivial | intuition lia]. Qed.

Lemma daysFrom_lower l : forall lo,
  daysFrom lo l -> Forall (fun b => lo <= dayNumber (date b)) l.
Proof.
  induction l as [|a rest IH]; simpl; intros lo H; constructor.
  - tauto.
  - destruct H as [Ha Hrest]. apply IH.
    eapply daysFrom_weaken; [|exact Hrest]. lia.
Qed.

Lemma daysFrom_distinct l : forall lo,
  daysFrom lo l ->
  ForallOrdPairs (fun a b => dayNumber (date a) <> dayNumber (date b)) l.
Proof.
  induction l as [|a rest IH]; simpl; intros lo H; constructor.
  - destruct H as [_ Hrest]. apply daysFrom_lower in Hrest.
    eapply Forall_impl; [|exact Hrest]. simpl. intros b Hb. lia.
  - destruct H as [_ Hrest]. eapply IH. exact Hrest.
Qed.

Lemma whileBefore_daysFrom body :
  oneADay body ->
  forall n cur endRepeat,
    daysFrom (dayNumber cur) (whileBefore n body cur endRepeat).
Proof.
  intros Hbody. induction n as [|n IH]; intros cur endRepeat; simpl; [trivial|].
  destruct (isBefore cur endRepeat); [|exact I].
  destruct (Hbody cur) as [Hday Hout].
  destruct (body cur) as [out cur']. simpl in *.
  specialize (IH (addDays cur' 1) endRepeat).
  rewrite dayNumber_addDays, Hday in IH.
  destruct Hout as [->|[b [-> Hb]]]; simpl.
  - eapply daysFrom_weaken; [|exact IH]. lia.
  - rewrite Hb. split; [lia | exact IH].
Qed.

Lemma dailyBody_oneADay base s e : oneADay (dailyBody base s e).
Proof.
  intros cur. unfold dailyBody. simpl. split; [reflexivity|].
  right. eexists. split; [reflexivity|]. simpl. apply dayNumber_startOfDay.
Qed.

Lemma weeklyBody_oneADay base ws : oneADay (weeklyBody base ws).
Proof.
  intros cur. unfold weeklyBody.
  destruct (lookup _ ws) as [ds|]; [|simpl; auto].
  destruct (DaySchedule.enabled ds); [|simpl; auto].
  destruct (DaySchedule.startTime ds) as [s|]; [|simpl; auto].
  destruct (DaySchedule.endTime ds) as [e|]; [|simpl; auto].
  simpl. split.
  - rewrite !dayNumber_setHours by auto using getHours_range, getMinutes_range.
    apply dayNumber_startOfDay.
  - right. eexists. split; [reflexivity|]. simpl. apply dayNumber_startOfDay.
Qed.

Lemma repeatedBookings_daysFrom body base d repeated :
  repeatedBookings body base d = inr repeated ->
  daysFrom (dayNumber d) repeated
  /\ (BookingRequest.repeatType body <> weekly -> daysFrom (dayNumber d + 1) repeated).
Proof.
  unfold repeatedBookings.
  destruct (BookingRequest.repeatType body);
    destruct (BookingRequest.repeatEndDate body) as [endRepeat|];
    try (intros [= <-]; simpl; tauto).
  - destruct (BookingRequest.startTime body) as [s|];
      [destruct (BookingRequest.endTime body) as [e|]|];
      try (intros [= <-]; simpl; tauto).
    unfold returnIf. destruct (getHours e <=? getHours s); simpl; [discriminate|].
    intros [= <-].
    pose proof (whileBefore_daysFrom _ (dailyBody_oneADay base s e)
                  (beforeFuel (addDays d 1) endRepeat) (addDays d 1) endRepeat) as H.
    rewrite dayNumber_addDays in H.
    split; [|intros _; exact H].
    eapply daysFrom_weaken; [|exact H]. lia.
  - destruct (BookingRequest.weeklySchedule body) as [ws|];
      try (intros [= <-]; simpl; tauto).
    intros [= <-]. split; [|congruence].
    apply whileBefore_daysFrom. apply weeklyBody_oneADay.
Qed.

(** The batch of such a request has its bookings on different days. *)
Lemma bookingsToCreate_daysFrom db session body roomId toCreate :
  oneBookingPerDay body ->
  bookingsToCreate db session body = inr (roomId, toCreate) ->
  exists lo, daysFrom lo toCreate.
Proof.
  intros Hone. unfold bookingsToCreate.
  destruct session as [u|]; [|discriminate].
  unfold returnIf at 1. destruct (isAdminRole (role u)); simpl; [|discriminate].
  destruct (BookingRequest.room body) as [r|]; [|discriminate].
  destruct (BookingRequest.date body) as [d|]; [|discriminate].
  unfold returnIf at 1.
  destruct (String.eqb _ _); simpl; [discriminate|].
  destruct (validateTimes body); simpl; [discriminate|].
  unfold returnIf at 1.
  destruct (existsb _ _); simpl; [|discriminate].
  destruct (validateHours body); simpl; [discriminate|].
  destruct (repeatedBookings _ _ _) as [|repeated] eqn:Hrep; simpl; [discriminate|].
  intros [= <- <-].
  apply repeatedBookings_daysFrom in Hrep as [Hall Hnotweekly].
  exists (dayNumber d).
  destruct (BookingRequest.startTime body) as [s|] eqn:Hs; [|exact Hall].
  destruct (BookingRequest.endTime body) as [e|] eqn:He; [|exact Hall].
  simpl. split; [lia|]. apply Hnotweekly.
  destruct Hone as [H|[H|H]]; [exact H | congruence | congruence].
Qed.

Lemma clash_other_day a b :
  dayNumber (date a) <> dayNumber (date b) ->
  clash (resetDate a) (resetDate b) = false.
Proof.
  intros Hd. unfold clash. simpl. rewrite !dayNumber_startOfDay.
  destruct (Z.eqb_spec (dayNumber (date a)) (dayNumber (date b))) as [Heq|_];
    [contradiction|].
  rewrite andb_false_r. reflexivity.
Qed.

Lemma clash_blocks e o : clash e o = true -> blocks e o.
Proof.
  unfold clash, blocks.
  rewrite !andb_true_iff, Nat.eqb_eq, Z.eqb_eq, !negb_true_iff.
  intros ((((Hr & Hd) & Hst) & _) & Hov).
  repeat split; try assumption.
  intros Heq. rewrite Heq in Hst. discriminate.
Qed.

(** A booking that passed the conflict query clashes with nothing that is
    stored on its day. *)
Lemma clash_after_check roomId o e :
  room o = roomId -> aligned o -> onItsDay e -> queryFor roomId o e = false ->
  clash e (resetDate o) = false.
Proof.
  intros Hroom Hal He Hq.
  destruct (clash e (resetDate o)) eqn:Hc; [|reflexivity].
  apply clash_blocks in Hc. destruct Hc as (Hr & Hd & Hst & Hov).
  simpl in Hr, Hd. rewrite dayNumber_startOfDay in Hd.
  assert (Hb : blocks e o) by (repeat split; assumption).
  apply blocks_matches in Hb; [|assumption|assumption].
  apply matches_queryFor in Hb; [|assumption].
  congruence.
Qed.

Lemma In_assignIds docs : forall n b,
  In b (assignIds n docs) -> exists o i, In o docs /\ b = with_id o i.
Proof.
  induction docs as [|a rest IH]; simpl; intros n b; [tauto|].
  intros [<-|H].
  - exists a, n. auto.
  - destruct (IH _ _ H) as (o & i & Ho & ->). exists o, i. auto.
Qed.

Lemma ForallOrdPairs_assignIds (R : Booking -> Booking -> Prop) docs :
  (forall a b i j, R a b -> R (with_id a i) (with_id b j)) ->
  ForallOrdPairs R docs -> forall n, ForallOrdPairs R (assignIds n docs).
Proof.
  intros HR. induction 1 as [|a rest Ha Hrest IH]; intros n; simpl; constructor.
  - apply Forall_forall. intros b Hb.
    destruct (In_assignIds _ _ _ Hb) as (o & i & Ho & ->).
    rewrite Forall_forall in Ha. apply HR. apply Ha. exact Ho.
  - apply IH.
Qed.

Lemma NoDoubleBooking_POST db session body :
  Forall onItsDay (bookings db) ->
  oneBookingPerDay body ->
  NoDoubleBooking (bookings db) ->
  NoDoubleBooking (bookings (fst (POST db session body))).
Proof.
  intros Hday Hone Hinv. unfold POST.
  destruct (bookingsToCreate db session body) as [r|[roomId toCreate]] eqn:Hcreate;
    [exact Hinv|].
  destruct (checkAll (bookings db) roomId toCreate) as [c|docs] eqn:Hcheck;
    [exact Hinv|].
  destruct docs as [|doc docs']; [exact Hinv|].
  remember (doc :: docs') as docs eqn:Hdocs. clear Hdocs. simpl.
  apply checkAll_inr in Hcheck as [-> Hnone].
  pose proof (bookingsToCreate_aligned _ _ _ _ _ Hcreate) as Hal.
  rewrite Forall_forall in Hal, Hday.
  destruct (bookingsToCreate_daysFrom _ _ _ _ _ Hone Hcreate) as [lo Hdays].
  apply ForallOrdPairs_app.
  - exact Hinv.
  - apply ForallOrdPairs_assignIds; [intros; assumption|].
    apply ForallOrdPairs_map.
    eapply ForallOrdPairs_impl; [|exact (daysFrom_distinct _ _ Hdays)].
    intros a b. apply clash_other_day.
  - intros e b He Hb.
    destruct (In_assignIds _ _ _ Hb) as (o' & i & Ho' & ->).
    apply in_map_iff in Ho' as (o & <- & Ho).
    rewrite clash_with_id_r.
    destruct (Hal o Ho) as [Hroom Haligned].
    apply (clash_after_check roomId); auto.
Qed.

(** What the admin route inserts is stored on its day. *)
Lemma onItsDay_resetDate o : aligned o -> onItsDay (resetDate o).
Proof.
  intros Hal. destruct (aligned_on_day o Hal) as [Hs He].
  unfold onItsDay, resetDate. simpl.
  rewrite startOfDay_idem, dayNumber_startOfDay. auto.
Qed.

Lemma bookingsToCreate_onItsDay db session body :
  Forall onItsDay (bookings db) ->
  Forall onItsDay (bookings (fst (POST db session body))).
Proof.
  intros Hday. unfold POST.
  destruct (bookingsToCreate db session body) as [r|[roomId toCreate]] eqn:Hcreate;
    [exact Hday|].
  destruct (checkAll (bookings db) roomId toCreate) as [c|docs] eqn:Hcheck;
    [exact Hday|].
  destruct docs as [|doc docs']; [exact Hday|].
  remember (doc :: docs') as docs eqn:Hdocs. clear Hdocs. simpl.
  apply checkAll_inr in Hcheck as [-> _].
  pose proof (bookingsToCreate_aligned _ _ _ _ _ Hcreate) as Hal.
  rewrite Forall_forall in Hal.
  apply Forall_app. split; [exact Hday|].
  apply Forall_forall. intros b Hb.
  destruct (In_assignIds _ _ _ Hb) as (o' & i & Ho' & ->).
  apply in_map_iff in Ho' as (o & <- & Ho).
  destruct (Hal o Ho) as [_ Haligned].
  exact (onItsDay_resetDate o Haligned).
Qed.

Lemma Forall_deleteById (P : Booking -> Prop) bs i :
  Forall P bs -> Forall P (deleteById bs i).
Proof.
  rewrite !Forall_forall. intros H b Hb. apply H. eapply In_deleteById. exact Hb.
Qed.

End BatchFacts.

Lemma reachable_runAll ops : forall db, reachable db -> reachable (runAll db ops).
Proof.
  induction ops as [|op ops IH]; intros db H; simpl; [exact H|].
  apply IH. apply reachable_run. exact H.
Qed.

(** C1, as the code has it.  The invariant: no two bookings of one room
    and one calendar day, neither rejected, have overlapping clock windows.
    Deleting a booking keeps it, and a status update keeps it when it sets
    the status to rejected or is applied to a booking that is not rejected.
    The admin route's creation keeps it on a store whose bookings are all
    stored on their day, for every request other than a weekly schedule
    that also carries a start and an end time of its own; and the three
    operations leave every booking stored on its day. *)
Theorem invariant_kept_by_delete_reject_and_admin_create :
  forall db,
    NoDoubleBooking (bookings db) ->
    (forall session id_,
        NoDoubleBooking (bookings (fst (AdminBookings.DELETE db session id_))))
    /\ (forall session id_ status_,
          (forall i s b,
              id_ = Some i -> status_ = Some s ->
              findById (bookings db) i = Some b -> harmless b s) ->
          NoDoubleBooking (bookings (fst (AdminBookings.PATCH db session id_ status_))))
    /\ (forall session body,
          Forall onItsDay (bookings db) ->
          oneBookingPerDay body ->
          NoDoubleBooking (bookings (fst (AdminBookings.POST db session body))))
    /\ (Forall onItsDay (bookings db) ->
        forall session id_ status_ body,
          Forall onItsDay (bookings (fst (AdminBookings.DELETE db session id_)))
          /\ Forall onItsDay
               (bookings (fst (AdminBookings.PATCH db session id_ status_)))
          /\ Forall onItsDay (bookings (fst (AdminBookings.POST db session body)))).
Proof.
  intros db Hinv. split; [|split; [|split]].
  - intros session id_. unfold AdminBookings.DELETE.
    destruct session as [u|]; [|exact Hinv].
    destruct (isAdminRole (role u)); simpl; [|exact Hinv].
    destruct id_ as [i|]; [|exact Hinv].
    destruct (findById (bookings db) i); [|exact Hinv].
    simpl. apply NoDoubleBooking_delete. exact Hinv.
  - intros session id_ status_ Hh. unfold AdminBookings.PATCH.
    destruct session as [u|]; [|exact Hinv].
    destruct (isAdminRole (role u)); simpl; [|exact Hinv].
    destruct id_ as [i|]; [|exact Hinv].
    destruct status_ as [s|]; [|exact Hinv].
    destruct (findById (bookings db) i) eqn:Hfind; [|exact Hinv].
    simpl. apply NoDoubleBooking_updateStatus; [|exact Hinv].
    intros b' Hb'. apply (Hh i s b'); auto.
  - intros session body Hday Hone. apply NoDoubleBooking_POST; assumption.
  - intros Hday session id_ status_ body. split; [|split].
    + unfold AdminBookings.DELETE.
      destruct session as [u|]; [|exact Hday].
      destruct (isAdminRole (role u)); simpl; [|exact Hday].
      destruct id_ as [i|]; [|exact Hday].
      destruct (findById (bookings db) i); [|exact Hday].
      simpl. apply Forall_deleteById. exact Hday.
    + unfold AdminBookings.PATCH.
      destruct session as [u|]; [|exact Hday].
      destruct (isAdminRole (role u)); simpl; [|exact Hday].
      destruct id_ as [i|]; [|exact Hday].
      destruct status_ as [s|]; [|exact Hday].
      destruct (findById (bookings db) i); [|exact Hday].
      simpl. apply Forall_updateStatus; [|exact Hday].
      intros b0 _ Hb0. exact Hb0.
    + apply bookingsToCreate_onItsDay. exact Hday.
Qed.

Lemma NoDoubleBooking_busyDb : NoDoubleBooking (bookings Scenario.busyDb).
Proof. repeat constructor. Qed.

Lemma onItsDay_busyDb : Forall onItsDay (bookings Scenario.busyDb).
Proof. repeat constructor. Qed.

(** With room 7 taken on 2024-01-03: deleting that booking, rejecting it,
    and a daily admin request from 2024-01-04 all keep the invariant and
    leave every booking stored on its day. *)
Lemma invariant_kept_by_delete_reject_and_admin_create_witness :
  NoDoubleBooking
    (bookings (fst (AdminBookings.DELETE Scenario.busyDb Scenario.adminSession
                      (Some 1%nat))))
  /\ NoDoubleBooking
       (bookings (fst (AdminBookings.PATCH Scenario.busyDb Scenario.adminSession
                         (Some 1%nat) (Some rejected))))
  /\ NoDoubleBooking
       (bookings (fst (AdminBookings.POST Scenario.busyDb Scenario.adminSession
                         (Scenario.adminRequest (Scenario.jan 4) 9 0 10 0
                            AdminBookings.daily (Some (midnight (Scenario.jan 8)))))))
  /\ Forall onItsDay
       (bookings (fst (AdminBookings.POST Scenario.busyDb Scenario.adminSession
                         (Scenario.adminRequest (Scenario.jan 4) 9 0 10 0
                            AdminBookings.daily (Some (midnight (Scenario.jan 8))))))).
Proof.
  destruct (invariant_kept_by_delete_reject_and_admin_create
              Scenario.busyDb NoDoubleBooking_busyDb)
    as (Hdel & Hpatch & Hpost & Hday).
  split; [apply Hdel | split; [apply Hpatch | split; [apply Hpost|]]].
  - intros i s b _ [= <-] _. left. reflexivity.
  - exact onItsDay_busyDb.
  - left. simpl. discriminate.
  - apply (Hday onItsDay_busyDb Scenario.adminSession None None).
Defined.

(** Why the weekly schedule with times of its own is set apart: the
    booking of the request date is pushed, and the loop pushes the enabled
    day of the same date again; each is checked against the collection, not
    against the other. *)
Lemma weekly_request_with_own_times_books_twice :
  Scenario.bookedDays
    (fst (AdminBookings.POST Scenario.emptyDb Scenario.adminSession
            Scenario.weeklyWithOwnTimes))
  = [Scenario.jan 1; Scenario.jan 1]
  /\ ~ NoDoubleBooking
        (bookings (fst (AdminBookings.POST Scenario.emptyDb Scenario.adminSession
                          Scenario.weeklyWithOwnTimes))).
Proof.
  split; [vm_compute; reflexivity|].
  unfold NoDoubleBooking. set (l := bookings _). vm_compute in l. subst l.
  intros H. inversion H as [|a rest Ha Hrest]. subst.
  inversion Ha as [|b rest' Hc Hrest']. subst.
  vm_compute in Hc. discriminate.
Qed.

Lemma clash_breaks a b bs :
  In a bs -> In b bs -> _id a <> _id b -> clash a b = true -> clash b a = true ->
  ~ NoDoubleBooking bs.
Proof.
  unfold NoDoubleBooking. intros Ha Hb Hne Hab Hba H.
  induction H as [|x l Hx Hl IH]; [contradiction|].
  rewrite Forall_forall in Hx.
  destruct Ha as [<-|Ha], Hb as [<-|Hb].
  - congruence.
  - rewrite (Hx b Hb) in Hab. discriminate.
  - rewrite (Hx a Ha) in Hba. discriminate.
  - exact (IH Ha Hb).
Qed.

(** C1 fails on the code, in three ways.

    The history [Scenario.history] is a sequence of requests from an empty
    collection; the database it reaches satisfies the invariant, and one
    more status update, from rejected back to approved, leaves two approved
    bookings of room 7 on 2024-01-01 from 09:00 to 10:00.

    After one daily request on the user route, for room 7 from 2024-01-01
    until 2024-01-05 at 09:00-10:00, the invariant holds; a further request
    for room 7 on 2024-01-03 at 09:00-10:00 then succeeds on the user route
    and on the admin route, and each leaves two bookings of that room, day
    and hour that are not rejected. *)
Lemma status_update_and_creation_break_invariant :
  (reachable Scenario.rebooked
   /\ NoDoubleBooking (bookings Scenario.rebooked)
   /\ reachable (fst (run Scenario.rebooked Scenario.reapprove))
   /\ ~ NoDoubleBooking (bookings (fst (run Scenario.rebooked Scenario.reapprove))))
  /\ (reachable Scenario.userBooked
      /\ NoDoubleBooking (bookings Scenario.userBooked)
      /\ reachable (fst (run Scenario.userBooked
                           (UserPost Scenario.professorSession Scenario.sameSlotUser)))
      /\ isSuccess (snd (run Scenario.userBooked
                           (UserPost Scenario.professorSession Scenario.sameSlotUser)))
         = true
      /\ ~ NoDoubleBooking
           (bookings (fst (run Scenario.userBooked
                             (UserPost Scenario.professorSession
                                Scenario.sameSlotUser))))
      /\ reachable (fst (run Scenario.userBooked
                           (AdminPost Scenario.adminSession Scenario.sameSlotAdmin)))
      /\ isSuccess (snd (run Scenario.userBooked
                           (AdminPost Scenario.adminSession Scenario.sameSlotAdmin)))
         = true
      /\ ~ NoDoubleBooking
           (bookings (fst (run Scenario.userBooked
                             (AdminPost Scenario.adminSession
                                Scenario.sameSlotAdmin))))).
Proof.
  assert (Hrebooked : reachable Scenario.rebooked).
  { apply reachable_runAll. apply reachable_init. }
  assert (HuserBooked : reachable Scenario.userBooked).
  { apply reachable_runAll. apply reachable_init. }
  split.
  - split; [exact Hrebooked|]. split; [|split].
    + unfold NoDoubleBooking. set (l := bookings _). vm_compute in l. subst l.
      repeat constructor.
    + apply reachable_run. exact Hrebooked.
    + unfold NoDoubleBooking. set (l := bookings _). vm_compute in l. subst l.
      intros H. inversion H as [|a rest Ha Hrest]. subst.
      inversion Ha as [|b rest' Hc Hrest']. subst.
      vm_compute in Hc. discriminate.
  - split; [exact HuserBooked|].
    split; [|split; [|split; [|split; [|split; [|split]]]]].
    + unfold NoDoubleBooking. set (l := bookings _). vm_compute in l. subst l.
      repeat constructor.
    + apply reachable_run. exact HuserBooked.
    + vm_compute. reflexivity.
    + apply (clash_breaks Scenario.thirdOfSeries Scenario.sameSlotUserBooking).
      * vm_compute. tauto.
      * vm_compute. tauto.
      * simpl. discriminate.
      * vm_compute. reflexivity.
      * vm_compute. reflexivity.
    + apply reachable_run. exact HuserBooked.
    + vm_compute. reflexivity.
    + apply (clash_breaks Scenario.thirdOfSeries Scenario.sameSlotAdminBooking).
      * vm_compute. tauto.
      * vm_compute. tauto.
      * simpl. discriminate.
      * vm_compute. reflexivity.
      * vm_compute. reflexivity.
Qed.


(** * Expansion of repeating requests *)

Section ExpansionFacts.

Import AdminBookings.

(** The user route visits every day from the request date to the repeat
    end date, both included. *)
Lemma user_daily_one_per_day d endDate :
  UserBookings.occurrences 1 d endDate =
    map (fun k => addDays d (Z.of_nat k))
        (seq 0 (Z.to_nat ((endDate - d) / MS_PER_DAY + 1))).
Proof.
  unfold UserBookings.occurrences.
  rewrite (whileLe_closed 1 Z.lt_0_1 _ _ _ eq_refl).
  unfold leFuel. rewrite Z.mul_1_l.
  apply map_ext. intros k. f_equal. lia.
Qed.

Lemma dayNumber_midnight k : dayNumber (midnight k) = k.
Proof. date_arith. Qed.

Lemma addDays_midnight k n : addDays (midnight k) n = midnight (k + n).
Proof. date_arith. Qed.

(** A repeat loop of the admin route pushes no booking whose day begins
    at or after the repeat end date. *)
Lemma whileBefore_before_end body :
  oneADay body ->
  forall n cur endRepeat,
    Forall (fun b => midnight (dayNumber (date b)) < endRepeat)
           (whileBefore n body cur endRepeat).
Proof.
  intros Hbody. induction n as [|n IH]; intros cur endRepeat; simpl; [constructor|].
  destruct (isBefore cur endRepeat) eqn:Hb; [|constructor].
  destruct (Hbody cur) as [_ Hout].
  destruct (body cur) as [out cur']. simpl in *.
  apply Forall_app. split; [|apply IH].
  destruct Hout as [->|[b [-> Hday]]]; constructor; [|constructor].
  rewrite Hday. unfold isBefore in Hb. apply Z.ltb_lt in Hb.
  pose proof (startOfDay_le cur) as Hle. rewrite startOfDay_midnight in Hle. lia.
Qed.

(** With the request date and the repeat end date at midnight of days [c]
    and [u], the daily loop of the admin route pushes one booking for each
    of the days [c + 1] to [u - 1]. *)
Lemma admin_daily_loop_length base s e n : forall k u,
  (Z.to_nat (u - k) <= n)%nat ->
  List.length (whileBefore n (dailyBody base s e) (midnight k) (midnight u)) =
    Z.to_nat (u - k).
Proof.
  induction n as [|n IH]; intros k u Hn; simpl; [lia|].
  unfold isBefore.
  destruct (midnight k <? midnight u) eqn:Hb.
  - apply Z.ltb_lt in Hb. assert (k < u) by (unfold_date; lia).
    simpl. rewrite addDays_midnight, IH by lia. lia.
  - apply Z.ltb_ge in Hb. assert (u <= k) by (unfold_date; lia).
    simpl. lia.
Qed.

(** So a daily admin request from day [c] until day [u], with [c < u],
    prepares [u - c] bookings: one fewer than the days from [c] to [u]. *)
Lemma admin_daily_count db session body roomId toCreate c u :
  bookingsToCreate db session body = inr (roomId, toCreate) ->
  BookingRequest.repeatType body = daily ->
  BookingRequest.date body = Some (midnight c) ->
  BookingRequest.repeatEndDate body = Some (midnight u) ->
  c < u ->
  List.length toCreate = Z.to_nat (u - c).
Proof.
  intros Hcreate Hrt Hd Hend Hlt. revert Hcreate.
  unfold bookingsToCreate.
  destruct session as [usr|]; [|discriminate].
  unfold returnIf at 1. destruct (isAdminRole (role usr)); simpl; [|discriminate].
  destruct (BookingRequest.room body) as [r|]; [|discriminate].
  rewrite Hd. unfold returnIf at 1.
  destruct (String.eqb _ _); simpl; [discriminate|].
  unfold validateTimes. rewrite Hrt.
  unfold validateHours, repeatedBookings. rewrite Hrt, Hend.
  destruct (BookingRequest.startTime body) as [s|]; [|discriminate].
  destruct (BookingRequest.endTime body) as [e|]; [|discriminate].
  unfold returnIf. destruct (e <=? s); simpl; [discriminate|].
  destruct (existsb _ _); simpl; [|discriminate].
  destruct (getHours e <=? getHours s); simpl; [discriminate|].
  intros [= <- <-]. simpl. rewrite addDays_midnight.
  rewrite admin_daily_loop_length.
  - lia.
  - unfold beforeFuel. rewrite !dayNumber_midnight. lia.
Qed.

(** A weekly schedule with no enabled entry is refused. *)
Lemma validateWeekly_none_enabled ws :
  (forall day schedule, In (day, schedule) ws -> DaySchedule.enabled schedule = false) ->
  validateWeekly ws false = inr false.
Proof.
  induction ws as [|[day schedule] rest IH]; simpl; intros H; [reflexivity|].
  rewrite (H day schedule) by now left.
  apply IH. intros d sch Hin. apply (H d sch). now right.
Qed.

Lemma no_enabled_day_refused body ws :
  BookingRequest.repeatType body = weekly ->
  BookingRequest.weeklySchedule body = Some ws ->
  (forall day schedule, In (day, schedule) ws -> DaySchedule.enabled schedule = false) ->
  validateTimes body =
    inl (Json 400 [Lit "Please enable at least one day in the weekly schedule"]).
Proof.
  intros Hrt Hws Hnone. unfold validateTimes. rewrite Hrt, Hws.
  rewrite validateWeekly_none_enabled by exact Hnone. reflexivity.
Qed.

(** An enabled day whose window lacks a time is passed over, by the
    validation and by the loop. *)
Lemma enabled_day_without_window_skipped base ws cur daySchedule :
  lookup (nth (Z.to_nat (getDay cur)) dayNames EmptyString) ws = Some daySchedule ->
  DaySchedule.startTime daySchedule = None \/ DaySchedule.endTime daySchedule = None ->
  weeklyBody base ws cur = ([], cur)
  /\ hourNotAfter (DaySchedule.startTime daySchedule) (DaySchedule.endTime daySchedule)
     = false.
Proof.
  intros Hlook Hmiss. unfold weeklyBody, hourNotAfter. rewrite Hlook.
  destruct (DaySchedule.enabled daySchedule),
           (DaySchedule.startTime daySchedule), (DaySchedule.endTime daySchedule);
    destruct Hmiss; try discriminate; auto.
Qed.

(** An enabled day with a window gets one booking, on that day, at the
    hours and minutes of its own window. *)
Lemma enabled_day_uses_its_window base ws cur daySchedule s e :
  lookup (nth (Z.to_nat (getDay cur)) dayNames EmptyString) ws = Some daySchedule ->
  DaySchedule.enabled daySchedule = true ->
  DaySchedule.startTime daySchedule = Some s ->
  DaySchedule.endTime daySchedule = Some e ->
  exists b,
    fst (weeklyBody base ws cur) = [b]
    /\ date b = startOfDay cur
    /\ startTime b = setHours cur (getHours s) (getMinutes s)
    /\ endTime b = setHours cur (getHours e) (getMinutes e).
Proof.
  intros Hlook Hen Hs He. unfold weeklyBody. rewrite Hlook, Hen, Hs, He.
  eexists. split; [reflexivity|]. simpl. split; [reflexivity|]. split.
  - apply setHours_same_day. apply startOfDay_idem.
  - apply setHours_same_day.
    rewrite startOfDay_setHours by auto using getHours_range, getMinutes_range.
    apply startOfDay_idem.
Qed.

(** The second check of the admin route refuses every window that lies
    within one clock hour, whatever its minutes. *)
Lemma validateHours_same_hour body s e :
  BookingRequest.startTime body = Some s ->
  BookingRequest.endTime body = Some e ->
  getHours s = getHours e ->
  validateHours body = inl endAfterStart.
Proof.
  intros Hs He Hh. unfold validateHours, returnIf. rewrite Hs, He, Hh.
  rewrite Z.leb_refl. reflexivity.
Qed.

End ExpansionFacts.

(** C4 at 2024-01-01 through 2024-01-05, 09:00-10:00, on an empty
    collection: the admin route answers success and books four days, the
    last one 2024-01-04; the user route books the five days the claim
    states. *)
Theorem admin_daily_stops_a_day_early :
  (exists created,
      snd (AdminBookings.POST Scenario.emptyDb Scenario.adminSession
             (Scenario.adminRequest (Scenario.jan 1) 9 0 10 0 AdminBookings.daily
                (Some (midnight (Scenario.jan 5))))) = Success 200 created
      /\ List.length created = 4%nat)
  /\ Scenario.bookedDays
       (fst (AdminBookings.POST Scenario.emptyDb Scenario.adminSession
               (Scenario.adminRequest (Scenario.jan 1) 9 0 10 0 AdminBookings.daily
                  (Some (midnight (Scenario.jan 5))))))
     = [Scenario.jan 1; Scenario.jan 2; Scenario.jan 3; Scenario.jan 4]
  /\ Scenario.bookedDays
       (fst (UserBookings.POST Scenario.emptyDb Scenario.adminSession
               (Scenario.userRequest (Scenario.jan 1) 9 0 10 0 UserBookings.daily
                  (Some (midnight (Scenario.jan 5))))))
     = [Scenario.jan 1; Scenario.jan 2; Scenario.jan 3; Scenario.jan 4; Scenario.jan 5].
Proof.
  split; [|split].
  - eexists. split; vm_compute; reflexivity.
  - vm_compute. reflexivity.
  - vm_compute. reflexivity.
Qed.

(** C5 at a Monday-only schedule from Monday 2024-01-01 until Monday
    2024-01-08: the admin route books 2024-01-01 alone; the Monday the
    schedule ends on is not booked. *)
Theorem admin_weekly_stops_a_day_early :
  Scenario.bookedDays
    (fst (AdminBookings.POST Scenario.emptyDb Scenario.adminSession
            (Scenario.weeklyRequest (Scenario.jan 1) Scenario.mondays (Scenario.jan 8))))
  = [Scenario.jan 1]
  /\ getDay (midnight (Scenario.jan 8)) = 1.
Proof. split; vm_compute; reflexivity. Qed.

(** C6 at 09:00-09:30 on 2024-01-01: the admin route refuses the window
    with "End time must be after start time", for a single booking and,
    naming the day, for a weekly schedule; the user route accepts it. *)
Theorem admin_refuses_window_within_one_hour :
  at_ (Scenario.jan 1) 9 0 < at_ (Scenario.jan 1) 9 30
  /\ AdminBookings.POST Scenario.emptyDb Scenario.adminSession
       (Scenario.adminRequest (Scenario.jan 1) 9 0 9 30 AdminBookings.none None)
     = (Scenario.emptyDb, AdminBookings.endAfterStart)
  /\ AdminBookings.POST Scenario.emptyDb Scenario.adminSession
       (Scenario.weeklyRequest (Scenario.jan 1) Scenario.shortMondays (Scenario.jan 8))
     = (Scenario.emptyDb,
        Json 400 [Lit "End time must be after start time for "; DayName "monday"])
  /\ (exists created,
        snd (UserBookings.POST Scenario.emptyDb Scenario.adminSession
               (Scenario.userRequest (Scenario.jan 1) 9 0 9 30 UserBookings.none None))
        = Success 201 created
        /\ List.length created = 1%nat).
Proof.
  split; [vm_compute; reflexivity|].
  split; [vm_compute; reflexivity|].
  split; [vm_compute; reflexivity|].
  eexists. split; vm_compute; reflexivity.
Qed.

(** * Requests the routes do not refuse *)

Section UserCreateFacts.

Import UserBookings.

Lemma whileLe_past n step cur endDate :
  endDate < cur -> whileLe n step cur endDate = [].
Proof.
  intros H. destruct n; simpl; [reflexivity|].
  apply Z.leb_gt in H. rewrite H. reflexivity.
Qed.

Lemma whileBefore_past {A} n (body : Date -> list A * Date) cur endRepeat :
  endRepeat <= cur -> whileBefore n body cur endRepeat = [].
Proof.
  intros H. destruct n; simpl; [reflexivity|].
  unfold isBefore. apply Z.ltb_ge in H. rewrite H. reflexivity.
Qed.

Lemma createAll_spec base dates : forall bs,
  exists created,
    createAll bs base dates = (bs ++ created, created)
    /\ List.length created = List.length dates
    /\ Forall (fun b => startTime b = startTime base /\ endTime b = endTime base)
         created.
Proof.
  induction dates as [|d rest IH]; intros bs; simpl.
  - exists []. rewrite app_nil_r. auto.
  - destruct (IH (bs ++ [with_id (with_date base d) (nextId bs)]))
      as (created & -> & Hlen & Hall).
    eexists. split; [|split].
    + rewrite <- app_assoc. simpl. reflexivity.
    + simpl. rewrite Hlen. reflexivity.
    + constructor; [simpl; auto | exact Hall].
Qed.

Lemma notifyAndRespond_created db st rt endDate b created :
  notifyAndRespond db st rt (Some endDate) (b :: created) =
    (db, Success 201 (b :: created)).
Proof.
  unfold notifyAndRespond.
  destruct st; try reflexivity.
  destruct (adminUsers db); [reflexivity|].
  destruct rt; reflexivity.
Qed.

End UserCreateFacts.

(** C7, as the code has it: a daily request whose repeat end date is
    before its date is not refused.  The user route checks and creates
    nothing, and answers success with an empty list when the caller is an
    admin or there is no admin to notify, and 500 otherwise; the admin
    route prepares the one booking of the request date, and answers either
    with a conflict or with success for that one booking. *)
Theorem daily_request_ending_before_it_starts :
  (forall db session bookingData sessionUser roomId s e d endDate,
      UserBookings.guards session bookingData = inr (sessionUser, roomId, s, e, d) ->
      UserBookings.BookingData.repeatType bookingData = UserBookings.daily ->
      UserBookings.BookingData.repeatEndDate bookingData = Some endDate ->
      endDate < d ->
      UserBookings.POST db session bookingData =
        (db, match isAdminRole (role sessionUser), adminUsers db with
             | false, _ :: _ => nothingCreated
             | _, _ => Success 201 []
             end))
  /\
  (forall db session body roomId toCreate d endRepeatDate,
      AdminBookings.bookingsToCreate db session body = inr (roomId, toCreate) ->
      AdminBookings.BookingRequest.repeatType body = AdminBookings.daily ->
      AdminBookings.BookingRequest.date body = Some d ->
      AdminBookings.BookingRequest.repeatEndDate body = Some endRepeatDate ->
      endRepeatDate < d ->
      exists b,
        toCreate = [b] /\ date b = d
        /\ ((exists conflict,
                AdminBookings.POST db session body =
                  (db, AdminBookings.conflictResponse conflict))
            \/ (exists b',
                  AdminBookings.POST db session body =
                    (set_bookings db (bookings db ++ [b']), Success 200 [b'])))).
Proof.
  split.
  - intros db session bookingData u roomId s e d endDate Hg Hrt Hend Hlt.
    unfold UserBookings.POST. rewrite Hg, Hrt, Hend.
    unfold UserBookings.repeating, UserBookings.occurrences.
    rewrite whileLe_past by exact Hlt. simpl.
    unfold UserBookings.notifyAndRespond, nothingCreated. simpl.
    destruct db as [bs rs admins]. unfold set_bookings. simpl.
    destruct (isAdminRole (role u)); [reflexivity|].
    destruct admins; reflexivity.
  - intros db session body roomId toCreate d endRepeat Hcreate Hrt Hd Hend Hlt.
    assert (Hshape : exists b, toCreate = [b] /\ date b = d).
    { revert Hcreate. unfold AdminBookings.bookingsToCreate.
      destruct session as [u|]; [|discriminate].
      unfold returnIf at 1. destruct (isAdminRole (role u)); simpl; [|discriminate].
      destruct (AdminBookings.BookingRequest.room body) as [r|]; [|discriminate].
      rewrite Hd.
      unfold returnIf at 1.
      destruct (String.eqb _ _); simpl; [discriminate|].
      unfold AdminBookings.validateTimes. rewrite Hrt.
      unfold AdminBookings.validateHours, AdminBookings.repeatedBookings.
      rewrite Hrt, Hend.
      destruct (AdminBookings.BookingRequest.startTime body) as [s|];
        [|discriminate].
      destruct (AdminBookings.BookingRequest.endTime body) as [e|];
        [|discriminate].
      unfold returnIf. destruct (e <=? s); simpl; [discriminate|].
      destruct (existsb _ _); simpl; [|discriminate].
      destruct (getHours e <=? getHours s); simpl; [discriminate|].
      rewrite whileBefore_past by (unfold addDays, MS_PER_DAY; lia).
      intros [= <- <-]. eexists. split; reflexivity. }
    destruct Hshape as (b & -> & Hb). exists b. split; [reflexivity|].
    split; [exact Hb|].
    unfold AdminBookings.POST. rewrite Hcreate. simpl.
    unfold checkConflicts.
    destruct (find _ (bookings db)) as [c|].
    + left. exists c. reflexivity.
    + right. eexists. reflexivity.
Qed.

(** A daily request from 2024-01-05 until 2024-01-01. *)
Lemma daily_request_ending_before_it_starts_witness :
  UserBookings.POST Scenario.emptyDb Scenario.professorSession
    (Scenario.userRequest (Scenario.jan 5) 9 0 10 0 UserBookings.daily
       (Some (midnight (Scenario.jan 1))))
  = (Scenario.emptyDb, nothingCreated)
  /\ exists b,
       [mkBooking 0 7 1 "Lecture" (midnight (Scenario.jan 5))
          (at_ (Scenario.jan 5) 9 0) (at_ (Scenario.jan 5) 10 0) approved None] = [b]
       /\ date b = midnight (Scenario.jan 5)
       /\ ((exists conflict,
               AdminBookings.POST Scenario.emptyDb Scenario.adminSession
                 (Scenario.adminRequest (Scenario.jan 5) 9 0 10 0 AdminBookings.daily
                    (Some (midnight (Scenario.jan 1))))
               = (Scenario.emptyDb, AdminBookings.conflictResponse conflict))
           \/ (exists b',
                 AdminBookings.POST Scenario.emptyDb Scenario.adminSession
                   (Scenario.adminRequest (Scenario.jan 5) 9 0 10 0 AdminBookings.daily
                      (Some (midnight (Scenario.jan 1))))
                 = (set_bookings Scenario.emptyDb
                      (bookings Scenario.emptyDb ++ [b']), Success 200 [b']))).
Proof.
  split.
  - apply (proj1 daily_request_ending_before_it_starts
             Scenario.emptyDb Scenario.professorSession _
             {| id := 2; role := professor |} 7%nat
             (at_ (Scenario.jan 5) 9 0) (at_ (Scenario.jan 5) 10 0)
             (midnight (Scenario.jan 5)) (midnight (Scenario.jan 1)));
      vm_compute; reflexivity.
  - apply (proj2 daily_request_ending_before_it_starts
             Scenario.emptyDb Scenario.adminSession _ 7%nat _
             (midnight (Scenario.jan 5)) (midnight (Scenario.jan 1)));
      vm_compute; reflexivity.
Defined.

(** C7 fails on the code: for an admin caller the user route answers
    "Booking(s) created successfully" with no booking created, and the
    admin route answers success with the one booking of 2024-01-05. *)
Lemma daily_request_ending_before_it_starts_succeeds :
  UserBookings.POST Scenario.emptyDb Scenario.adminSession
    (Scenario.userRequest (Scenario.jan 5) 9 0 10 0 UserBookings.daily
       (Some (midnight (Scenario.jan 1))))
  = (Scenario.emptyDb, Success 201 [])
  /\ isSuccess
       (snd (AdminBookings.POST Scenario.emptyDb Scenario.adminSession
               (Scenario.adminRequest (Scenario.jan 5) 9 0 10 0 AdminBookings.daily
                  (Some (midnight (Scenario.jan 1)))))) = true
  /\ Scenario.bookedDays
       (fst (AdminBookings.POST Scenario.emptyDb Scenario.adminSession
               (Scenario.adminRequest (Scenario.jan 5) 9 0 10 0 AdminBookings.daily
                  (Some (midnight (Scenario.jan 1))))))
     = [Scenario.jan 5].
Proof. repeat split; vm_compute; reflexivity. Qed.

Lemma occurrences_length step startDate endDate :
  0 < step ->
  List.length (UserBookings.occurrences step startDate endDate) =
    leFuel step startDate endDate.
Proof.
  intros Hstep. unfold UserBookings.occurrences.
  rewrite (whileLe_closed step Hstep _ _ _ eq_refl).
  rewrite length_map, length_seq. reflexivity.
Qed.

Lemma checkDates_free_room bs roomId dates s e :
  Forall (fun b => room b <> roomId) bs ->
  UserBookings.checkDates bs roomId dates s e = None.
Proof.
  intros Hfree. rewrite Forall_forall in Hfree.
  induction dates as [|d rest IH]; simpl; [reflexivity|].
  unfold checkConflicts. simpl.
  destruct (find _ bs) as [c|] eqn:Hfind; [|exact IH].
  apply find_some in Hfind as [Hin Hq].
  apply conflictQuery_spec in Hq as [Hroom _].
  exfalso. exact (Hfree c Hin Hroom).
Qed.

(** C8, as the code has it: nothing caps the range.  On the user route a
    daily request over any range from its date to a repeat end date on or
    after it, for a room that has no booking in the collection, is expanded
    in full and answered with success: one booking per step of one day,
    however far the end, added after the bookings the collection holds for
    other rooms. *)
Theorem daily_expansion_has_no_cap :
  forall db session bookingData sessionUser roomId s e d endDate,
    UserBookings.guards session bookingData = inr (sessionUser, roomId, s, e, d) ->
    UserBookings.BookingData.repeatType bookingData = UserBookings.daily ->
    UserBookings.BookingData.repeatEndDate bookingData = Some endDate ->
    d <= endDate ->
    Forall (fun b => room b <> roomId) (bookings db) ->
    exists created,
      UserBookings.POST db session bookingData =
        (set_bookings db (bookings db ++ created), Success 201 created)
      /\ List.length created = Z.to_nat ((endDate - d) / MS_PER_DAY + 1).
Proof.
  intros db session bookingData u roomId s e d endDate Hg Hrt Hend Hle Hfree.
  unfold UserBookings.POST. rewrite Hg, Hrt, Hend.
  unfold UserBookings.repeating.
  cbn [startTime endTime status].
  rewrite (checkDates_free_room _ _ _ _ _ Hfree).
  match goal with
  | |- context [UserBookings.createAll ?bs ?base ?dates] =>
      destruct (createAll_spec base dates bs) as (created & Hc & Hlen & _)
  end.
  rewrite Hc.
  rewrite occurrences_length in Hlen by lia.
  assert (Hfuel : leFuel 1 d endDate = Z.to_nat ((endDate - d) / MS_PER_DAY + 1)).
  { unfold leFuel. rewrite Z.mul_1_l. reflexivity. }
  assert (Hpos : 0 <= (endDate - d) / MS_PER_DAY).
  { apply Z.div_pos; unfold MS_PER_DAY; lia. }
  exists created. split; [|lia].
  destruct created as [|b created]; [simpl in Hlen; lia|].
  apply notifyAndRespond_created.
Qed.

(** Room 7 is taken on 2024-01-03 and room 8 has no booking: a daily
    request for room 8 from 2024-01-01 until 2024-01-05 adds five
    bookings. *)
Lemma daily_expansion_has_no_cap_witness :
  exists created,
    UserBookings.POST Scenario.busyDb Scenario.professorSession
      Scenario.otherRoomDaily
    = (set_bookings Scenario.busyDb (bookings Scenario.busyDb ++ created),
       Success 201 created)
    /\ List.length created =
         Z.to_nat ((midnight (Scenario.jan 5) - midnight (Scenario.jan 1))
                   / MS_PER_DAY + 1).
Proof.
  apply (daily_expansion_has_no_cap
           Scenario.busyDb Scenario.professorSession Scenario.otherRoomDaily
           {| id := 2; role := professor |} 8%nat
           (at_ (Scenario.jan 1) 9 0) (at_ (Scenario.jan 1) 10 0)
           (midnight (Scenario.jan 1)) (midnight (Scenario.jan 5))).
  - vm_compute. reflexivity.
  - reflexivity.
  - reflexivity.
  - vm_compute. discriminate.
  - constructor; [simpl; discriminate | constructor].
Defined.

(** C8 fails on the code: a daily request from 2024-01-01 until
    2027-01-01, three years on, is not refused; the admin route answers
    success and books 1096 days. *)
Lemma three_year_request_is_expanded :
  isSuccess
    (snd (AdminBookings.POST Scenario.emptyDb Scenario.adminSession
            (Scenario.adminRequest (Scenario.jan 1) 9 0 10 0 AdminBookings.daily
               (Some (midnight (Scenario.jan 1 + 1096)))))) = true
  /\ List.length
       (bookings
          (fst (AdminBookings.POST Scenario.emptyDb Scenario.adminSession
                  (Scenario.adminRequest (Scenario.jan 1) 9 0 10 0 AdminBookings.daily
                     (Some (midnight (Scenario.jan 1 + 1096)))))))
     = 1096%nat.
Proof. split; vm_compute; reflexivity. Qed.

(** * What a conflict response says *)

Section ResponseFacts.

Lemma validateWeekly_Json ws : forall hasEnabledDay r,
  AdminBookings.validateWeekly ws hasEnabledDay = inl r -> exists msg, r = Json 400 msg.
Proof.
  induction ws as [|[day schedule] rest IH]; simpl; intros h r; [discriminate|].
  destruct (AdminBookings.DaySchedule.enabled schedule); [|apply IH].
  destruct (AdminBookings.hourNotAfter _ _); [|apply IH].
  intros [= <-]. eexists. reflexivity.
Qed.

(** The guards of the admin route answer 400, 401 or 404. *)
Lemma bookingsToCreate_guard db session body r :
  AdminBookings.bookingsToCreate db session body = inl r ->
  exists code msg, r = Json code msg /\ (code = 400 \/ code = 401 \/ code = 404).
Proof.
  unfold AdminBookings.bookingsToCreate, AdminBookings.unauthorized,
         AdminBookings.missingFields.
  destruct session as [u|]; [|intros [= <-]; eauto 6].
  unfold returnIf at 1.
  destruct (isAdminRole (role u)); simpl; [|intros [= <-]; eauto 6].
  destruct (AdminBookings.BookingRequest.room body) as [roomId|];
    [|intros [= <-]; eauto 6].
  destruct (AdminBookings.BookingRequest.date body) as [d|];
    [|intros [= <-]; eauto 6].
  unfold returnIf at 1.
  destruct (String.eqb _ _); simpl; [intros [= <-]; eauto 6|].
  destruct (AdminBookings.validateTimes body) as [r0|[]] eqn:Htimes; simpl.
  { intros [= <-]. revert Htimes.
    unfold AdminBookings.validateTimes, AdminBookings.endAfterStart, returnIf.
    destruct (AdminBookings.BookingRequest.repeatType body).
    1,2: destruct (AdminBookings.BookingRequest.startTime body) as [s|];
         [destruct (AdminBookings.BookingRequest.endTime body) as [e|]|];
         try (intros [= <-]; eauto 6);
         destruct (e <=? s); [intros [= <-]; eauto 6 | discriminate].
    destruct (AdminBookings.BookingRequest.weeklySchedule body) as [ws|];
      [|intros [= <-]; eauto 6].
    destruct (AdminBookings.validateWeekly ws false) as [r1|h] eqn:Hw; simpl.
    - intros [= <-]. apply validateWeekly_Json in Hw as [msg ->]. eauto 6.
    - destruct (negb h); [intros [= <-]; eauto 6 | discriminate]. }
  unfold returnIf at 1.
  destruct (existsb _ _); simpl; [|intros [= <-]; eauto 7].
  destruct (AdminBookings.validateHours body) as [r0|[]] eqn:Hhours; simpl.
  { intros [= <-]. revert Hhours.
    unfold AdminBookings.validateHours, AdminBookings.endAfterStart, returnIf.
    destruct (AdminBookings.BookingRequest.startTime body) as [s|]; [|discriminate].
    destruct (AdminBookings.BookingRequest.endTime body) as [e|]; [|discriminate].
    destruct (getHours e <=? getHours s); [intros [= <-]; eauto 6 | discriminate]. }
  destruct (AdminBookings.repeatedBookings _ _ _) as [r0|repeated] eqn:Hrep; simpl;
    [|discriminate].
  intros [= <-]. revert Hrep. unfold AdminBookings.repeatedBookings, returnIf.
  destruct (AdminBookings.BookingRequest.repeatType body);
    destruct (AdminBookings.BookingRequest.repeatEndDate body) as [endRepeat|];
    try discriminate.
  - destruct (AdminBookings.BookingRequest.startTime body) as [s|]; [|discriminate].
    destruct (AdminBookings.BookingRequest.endTime body) as [e|]; [|discriminate].
    destruct (getHours e <=? getHours s); simpl; [intros [= <-]; eauto 6 | discriminate].
  - destruct (AdminBookings.BookingRequest.weeklySchedule body); discriminate.
Qed.

(** The guards of the user route answer 400 or 401. *)
Lemma guards_status session bookingData r :
  UserBookings.guards session bookingData = inl r ->
  exists code msg, r = Json code msg /\ (code = 400 \/ code = 401).
Proof.
  unfold UserBookings.guards, UserBookings.unauthorized, UserBookings.missingFields,
         UserBookings.outsideHoursResponse, UserBookings.endAfterStart, returnIf.
  destruct session as [u|]; [|intros [= <-]; eauto 6].
  destruct (UserBookings.BookingData.room bookingData);
    [|intros [= <-]; eauto 6].
  destruct (UserBookings.BookingData.startTime bookingData) as [s|];
    [|intros [= <-]; eauto 6].
  destruct (UserBookings.BookingData.endTime bookingData) as [e|];
    [|intros [= <-]; eauto 6].
  destruct (UserBookings.BookingData.date bookingData);
    [|intros [= <-]; eauto 6].
  destruct (String.eqb _ _); simpl; [intros [= <-]; eauto 6|].
  destruct (UserBookings.outsideHours s e); simpl; [intros [= <-]; eauto 6|].
  destruct (e <=? s); simpl; [intros [= <-]; eauto 6 | discriminate].
Qed.

Lemma notifyAndRespond_db db st rt endDate created :
  fst (UserBookings.notifyAndRespond db st rt endDate created) = db.
Proof.
  unfold UserBookings.notifyAndRespond.
  destruct st; try reflexivity.
  destruct (adminUsers db); [reflexivity|].
  destruct rt, endDate, created; reflexivity.
Qed.

Lemma notifyAndRespond_status db st rt endDate created code msg :
  snd (UserBookings.notifyAndRespond db st rt endDate created) = Json code msg ->
  code = 500.
Proof.
  unfold UserBookings.notifyAndRespond.
  destruct st; try discriminate.
  destruct (adminUsers db); [discriminate|].
  destruct rt, endDate, created; simpl; try discriminate;
    intros [= <- _]; reflexivity.
Qed.

End ResponseFacts.

Lemma checkDates_matches bs roomId dates s e conflict :
  UserBookings.checkDates bs roomId dates s e = Some conflict ->
  In conflict bs
  /\ exists currentDate,
       In currentDate dates
       /\ matches conflict (userOccurrence roomId currentDate s e).
Proof.
  induction dates as [|d rest IH]; simpl; [discriminate|].
  unfold checkConflicts. simpl.
  destruct (find _ bs) as [c|] eqn:Hfind.
  - intros [= <-]. apply find_some in Hfind as [Hin Hq].
    split; [exact Hin|]. exists d. split; [now left|].
    apply conflictQuery_userOccurrence. exact Hq.
  - intros H. destruct (IH H) as (Hin & cur & Hcur & Hm).
    split; [exact Hin|]. exists cur. split; [now right | exact Hm].
Qed.

(** C9, as the code has it.  Every conflict answer of the admin route
    names the date and both times of the booking the conflict check
    matched for an occurrence of the request: a stored booking of the
    requested room, whose date is the midnight of the occurrence's day,
    that is not rejected and whose stored times satisfy the clauses of the
    query against the occurrence's; when that booking is stored on its day
    with its start before its end, it blocks the occurrence.  On the user
    route the conflict answer is about such a booking too, but the answer
    to a request that does not repeat is one fixed sentence, and the answer
    to a repeating request names the date of the booking and not its
    times. *)
Theorem conflict_response_names_the_blocker :
  (forall db session body db' msg,
      AdminBookings.POST db session body = (db', Json 409 msg) ->
      exists roomId toCreate o conflict,
        AdminBookings.bookingsToCreate db session body = inr (roomId, toCreate)
        /\ In o toCreate
        /\ In conflict (bookings db)
        /\ matches conflict o
        /\ (onItsDay conflict -> startTime conflict < endTime conflict ->
            blocks conflict o)
        /\ namesDate (Json 409 msg) conflict
        /\ namesTimeRange (Json 409 msg) conflict)
  /\
  (forall db session bookingData db' msg,
      UserBookings.POST db session bookingData = (db', Json 409 msg) ->
      exists sessionUser roomId s e d currentDate conflict,
        UserBookings.guards session bookingData = inr (sessionUser, roomId, s, e, d)
        /\ In currentDate (UserBookings.requestedDates bookingData d)
        /\ In conflict (bookings db)
        /\ matches conflict (userOccurrence roomId currentDate s e)
        /\ (onItsDay conflict -> startTime conflict < endTime conflict ->
            blocks conflict (userOccurrence roomId currentDate s e))
        /\ match UserBookings.BookingData.repeatType bookingData with
           | UserBookings.none => Json 409 msg = UserBookings.slotTaken
           | _ =>
               namesDate (Json 409 msg) conflict
               /\ ~ namesTimeRange (Json 409 msg) conflict
           end).
Proof.
  split.
  - intros db session body db' msg. unfold AdminBookings.POST.
    destruct (AdminBookings.bookingsToCreate db session body)
      as [r|[roomId toCreate]] eqn:Hcreate.
    { intros [= _ ->].
      destruct (bookingsToCreate_guard _ _ _ _ Hcreate) as (code & m & [= <- _] & Hcode).
      lia. }
    destruct (AdminBookings.checkAll (bookings db) roomId toCreate)
      as [conflict|docs] eqn:Hcheck.
    + intros [= _ <-].
      apply checkAll_inl in Hcheck as (Hin & o & Ho & Hq).
      pose proof (bookingsToCreate_aligned _ _ _ _ _ Hcreate) as Hal.
      rewrite Forall_forall in Hal. destruct (Hal o Ho) as [Hroom Haligned].
      pose proof (queryFor_matches roomId conflict o Hroom Haligned Hq) as Hm.
      exists roomId, toCreate, o, conflict.
      split; [reflexivity|]. split; [exact Ho|]. split; [exact Hin|].
      split; [exact Hm|]. split.
      * intros Hday Hlt. apply matches_blocks; assumption.
      * simpl. tauto.
    + destruct docs; discriminate.
  - intros db session bookingData db' msg. unfold UserBookings.POST.
    destruct (UserBookings.guards session bookingData)
      as [r|[[[[u roomId] s] e] d]] eqn:Hg.
    { intros [= _ ->].
      destruct (guards_status _ _ _ Hg) as (code & m & [= <- _] & Hcode). lia. }
    assert (Hnotify : forall db0 st rt endDate created,
               UserBookings.notifyAndRespond db0 st rt endDate created
               <> (db', Json 409 msg)).
    { intros db0 st rt endDate created H.
      apply (f_equal snd) in H. simpl in H.
      apply notifyAndRespond_status in H. lia. }
    assert (Hblocks : forall currentDate conflict,
               matches conflict (userOccurrence roomId currentDate s e) ->
               onItsDay conflict -> startTime conflict < endTime conflict ->
               blocks conflict (userOccurrence roomId currentDate s e)).
    { intros currentDate conflict Hm Hday Hlt.
      apply matches_blocks; auto using userOccurrence_aligned. }
    assert (Hrep : forall rt step endDate st g,
               UserBookings.repeating db roomId
                 (mkBooking 0 roomId (id u) (UserBookings.BookingData.title bookingData)
                            d s e st g) rt step d endDate
               = (db', Json 409 msg) ->
               exists currentDate conflict,
                 In currentDate (UserBookings.occurrences step d endDate)
                 /\ In conflict (bookings db)
                 /\ matches conflict (userOccurrence roomId currentDate s e)
                 /\ namesDate (Json 409 msg) conflict
                 /\ ~ namesTimeRange (Json 409 msg) conflict).
    { intros rt step endDate st g. unfold UserBookings.repeating.
      cbn [startTime endTime status].
      destruct (UserBookings.checkDates _ _ _ _ _) as [conflict|] eqn:Hcheck.
      - intros [= _ <-].
        apply checkDates_matches in Hcheck as (Hin & cur & Hcur & Hm).
        exists cur, conflict. simpl. intuition discriminate.
      - match goal with
        | |- context [UserBookings.createAll ?b0 ?b1 ?b2] =>
            destruct (UserBookings.createAll b0 b1 b2) as [bs' created]
        end.
        intros H. exfalso. exact (Hnotify _ _ _ _ _ H). }
    assert (Hsingle : forall rt endDate st base,
               match fst (checkConflicts (bookings db) roomId d s e) with
               | Some _ => (db, UserBookings.slotTaken)
               | None =>
                   let '(bs', booking) := UserBookings.create (bookings db) base in
                   UserBookings.notifyAndRespond (set_bookings db bs') st rt
                     endDate [booking]
               end = (db', Json 409 msg) ->
               exists conflict,
                 In conflict (bookings db)
                 /\ matches conflict (userOccurrence roomId d s e)
                 /\ Json 409 msg = UserBookings.slotTaken).
    { intros rt endDate st base. unfold checkConflicts. cbn [fst].
      destruct (find _ (bookings db)) as [conflict|] eqn:Hfind.
      - intros [= _ <-]. apply find_some in Hfind as [Hin Hq].
        exists conflict. split; [exact Hin|]. split; [|reflexivity].
        apply conflictQuery_userOccurrence. exact Hq.
      - simpl. intros H. exfalso. exact (Hnotify _ _ _ _ _ H). }
    unfold UserBookings.requestedDates.
    destruct (UserBookings.BookingData.repeatType bookingData);
      destruct (UserBookings.BookingData.repeatEndDate bookingData) as [endDate|];
      try (intros H; exfalso; exact (Hnotify _ _ _ _ _ H)).
    + intros H. apply Hsingle in H as (conflict & Hin & Hm & Hmsg).
      exists u, roomId, s, e, d, d, conflict.
      split; [reflexivity|]. split; [now left|]. auto.
    + intros H. apply Hsingle in H as (conflict & Hin & Hm & Hmsg).
      exists u, roomId, s, e, d, d, conflict.
      split; [reflexivity|]. split; [now left|]. auto.
    + intros H. apply Hrep in H as (cur & conflict & Hcur & Hin & Hm & Hnames).
      exists u, roomId, s, e, d, cur, conflict. auto 10.
    + intros H. apply Hrep in H as (cur & conflict & Hcur & Hin & Hm & Hnames).
      exists u, roomId, s, e, d, cur, conflict. auto 10.
Qed.

(** Room 7 is taken on 2024-01-03 from 09:00 to 10:00, and a daily request
    from 2024-01-01 meets it on both routes. *)
Lemma conflict_response_names_the_blocker_witness :
  (exists roomId toCreate o conflict,
      AdminBookings.bookingsToCreate Scenario.busyDb Scenario.adminSession
        (Scenario.adminRequest (Scenario.jan 1) 9 0 10 0 AdminBookings.daily
           (Some (midnight (Scenario.jan 6))))
      = inr (roomId, toCreate)
      /\ In o toCreate
      /\ In conflict (bookings Scenario.busyDb)
      /\ matches conflict o
      /\ (onItsDay conflict -> startTime conflict < endTime conflict ->
          blocks conflict o)
      /\ namesDate (AdminBookings.conflictResponse Scenario.taken) conflict
      /\ namesTimeRange (AdminBookings.conflictResponse Scenario.taken) conflict)
  /\ (exists sessionUser roomId s e d currentDate conflict,
        UserBookings.guards Scenario.professorSession
          (Scenario.userRequest (Scenario.jan 1) 9 0 10 0 UserBookings.daily
             (Some (midnight (Scenario.jan 5))))
        = inr (sessionUser, roomId, s, e, d)
        /\ In currentDate
             (UserBookings.requestedDates
                (Scenario.userRequest (Scenario.jan 1) 9 0 10 0 UserBookings.daily
                   (Some (midnight (Scenario.jan 5)))) d)
        /\ In conflict (bookings Scenario.busyDb)
        /\ matches conflict (userOccurrence roomId currentDate s e)
        /\ (onItsDay conflict -> startTime conflict < endTime conflict ->
            blocks conflict (userOccurrence roomId currentDate s e))
        /\ namesDate (UserBookings.conflictOn Scenario.taken) conflict
        /\ ~ namesTimeRange (UserBookings.conflictOn Scenario.taken) conflict).
Proof.
  split.
  - apply (proj1 conflict_response_names_the_blocker
             Scenario.busyDb Scenario.adminSession
             (Scenario.adminRequest (Scenario.jan 1) 9 0 10 0 AdminBookings.daily
                (Some (midnight (Scenario.jan 6))))
             Scenario.busyDb).
    vm_compute. reflexivity.
  - apply (proj2 conflict_response_names_the_blocker
             Scenario.busyDb Scenario.professorSession
             (Scenario.userRequest (Scenario.jan 1) 9 0 10 0 UserBookings.daily
                (Some (midnight (Scenario.jan 5))))
             Scenario.busyDb).
    vm_compute. reflexivity.
Defined.

(** C9 fails on the code: with room 7 taken on 2024-01-03 from 09:00 to
    10:00, the user route answers a request for that slot with a sentence
    that names no date and no time, and a daily request that meets the slot
    with the date alone. *)
Lemma user_conflict_response_names_no_time :
  UserBookings.POST Scenario.busyDb Scenario.professorSession
    (Scenario.userRequest (Scenario.jan 3) 9 0 10 0 UserBookings.none None)
  = (Scenario.busyDb, UserBookings.slotTaken)
  /\ ~ namesDate UserBookings.slotTaken Scenario.taken
  /\ ~ namesTimeRange UserBookings.slotTaken Scenario.taken
  /\ UserBookings.POST Scenario.busyDb Scenario.professorSession
       (Scenario.userRequest (Scenario.jan 1) 9 0 10 0 UserBookings.daily
          (Some (midnight (Scenario.jan 5))))
     = (Scenario.busyDb, UserBookings.conflictOn Scenario.taken)
  /\ ~ namesTimeRange (UserBookings.conflictOn Scenario.taken) Scenario.taken.
Proof.
  split; [vm_compute; reflexivity|].
  split; [simpl; intuition discriminate|].
  split; [simpl; intuition discriminate|].
  split; [vm_compute; reflexivity|].
  simpl. intuition discriminate.
Qed.

(** * Booking hours on the user route *)

Lemma outsideHours_spec s e :
  UserBookings.outsideHours s e = true <->
  getHours s < 8 \/ 21 * 60 < clockMinutes e.
Proof.
  unfold UserBookings.outsideHours, clockMinutes.
  pose proof (getMinutes_range e) as Hm.
  rewrite !orb_true_iff, andb_true_iff, Z.ltb_lt, !Z.gtb_lt, Z.eqb_eq.
  lia.
Qed.

(** X29: the hours guard of the user route comes before every read and
    write of the collection.  A request whose start hour is before 8, or
    whose end is after 21:00 on the clock of hours and minutes, is answered
    by the guards, with 400 or 401, and the database is returned as it was;
    when the caller is signed in and the required fields are there, the
    answer is "Bookings must be between 8:00 AM and 9:00 PM".  And whatever
    the request, every booking the route adds, also for the later dates of
    a repeating request, has a start hour of 8 or more and an end of 21:00
    or less on that clock. *)
Theorem hours_guard_answers_first :
  (forall db session bookingData s e,
      UserBookings.BookingData.startTime bookingData = Some s ->
      UserBookings.BookingData.endTime bookingData = Some e ->
      getHours s < 8 \/ 21 * 60 < clockMinutes e ->
      exists code msg,
        UserBookings.guards session bookingData = inl (Json code msg)
        /\ (code = 400 \/ code = 401)
        /\ UserBookings.POST db session bookingData = (db, Json code msg)
        /\ (session <> None ->
            UserBookings.BookingData.room bookingData <> None ->
            UserBookings.BookingData.date bookingData <> None ->
            UserBookings.BookingData.title bookingData <> EmptyString ->
            Json code msg = UserBookings.outsideHoursResponse))
  /\
  (forall db session bookingData,
      exists created,
        bookings (fst (UserBookings.POST db session bookingData)) =
          bookings db ++ created
        /\ Forall passesHoursGuard created).
Proof.
  split.
  - intros db session bookingData s e Hs He Hout.
    apply outsideHours_spec in Hout.
    assert (Hg : exists r, UserBookings.guards session bookingData = inl r
                 /\ (session <> None ->
                     UserBookings.BookingData.room bookingData <> None ->
                     UserBookings.BookingData.date bookingData <> None ->
                     UserBookings.BookingData.title bookingData <> EmptyString ->
                     r = UserBookings.outsideHoursResponse)).
    { unfold UserBookings.guards. rewrite Hs, He.
      destruct session as [u|]; [|eexists; split; [reflexivity | congruence]].
      destruct (UserBookings.BookingData.room bookingData);
        [|eexists; split; [reflexivity | congruence]].
      destruct (UserBookings.BookingData.date bookingData);
        [|eexists; split; [reflexivity | congruence]].
      unfold returnIf.
      destruct (String.eqb _ _) eqn:Ht; simpl.
      - apply String.eqb_eq in Ht. eexists. split; [reflexivity | congruence].
      - rewrite Hout. simpl. eexists. split; reflexivity. }
    destruct Hg as (r & Hg & Hr).
    destruct (guards_status _ _ _ Hg) as (code & msg & -> & Hcode).
    exists code, msg. repeat split; try assumption.
    unfold UserBookings.POST. rewrite Hg. reflexivity.
  - intros db session bookingData. unfold UserBookings.POST.
    destruct (UserBookings.guards session bookingData)
      as [r|[[[[u roomId] s] e] d]] eqn:Hg.
    { exists []. rewrite app_nil_r. auto. }
    assert (Hin : passesHoursGuard (mkBooking 0 roomId 0 EmptyString d s e pending None)).
    { revert Hg. unfold UserBookings.guards, returnIf.
      destruct session; [|discriminate].
      destruct (UserBookings.BookingData.room bookingData); [|discriminate].
      destruct (UserBookings.BookingData.startTime bookingData); [|discriminate].
      destruct (UserBookings.BookingData.endTime bookingData); [|discriminate].
      destruct (UserBookings.BookingData.date bookingData); [|discriminate].
      destruct (String.eqb _ _); simpl; [discriminate|].
      destruct (UserBookings.outsideHours _ _) eqn:Hout; simpl; [discriminate|].
      destruct (_ <=? _); simpl; [discriminate|].
      intros [= _ _ -> -> _].
      unfold passesHoursGuard. simpl.
      destruct (Z_lt_le_dec (getHours s) 8) as [H1|H1].
      { assert (UserBookings.outsideHours s e = true) by (apply outsideHours_spec; lia).
        congruence. }
      destruct (Z_lt_le_dec (21 * 60) (clockMinutes e)) as [H2|H2].
      { assert (UserBookings.outsideHours s e = true) by (apply outsideHours_spec; lia).
        congruence. }
      lia. }
    unfold passesHoursGuard in Hin. simpl in Hin.
    assert (Hrep : forall rt step endDate st g,
               exists created,
                 bookings (fst (UserBookings.repeating db roomId
                    (mkBooking 0 roomId (id u) (UserBookings.BookingData.title bookingData)
                               d s e st g) rt step d endDate))
                 = bookings db ++ created /\ Forall passesHoursGuard created).
    { intros rt step endDate st g. unfold UserBookings.repeating.
      destruct (UserBookings.checkDates _ _ _ _ _).
      - exists []. rewrite app_nil_r. auto.
      - match goal with
        | |- context [UserBookings.createAll ?bs ?base ?dates] =>
            destruct (createAll_spec base dates bs) as (created & -> & _ & Hall)
        end.
        rewrite notifyAndRespond_db. simpl.
        exists created. split; [reflexivity|].
        eapply Forall_impl; [|exact Hall].
        intros b [Hbs Hbe]. unfold passesHoursGuard. simpl in *. rewrite Hbs, Hbe.
        exact Hin. }
    destruct (UserBookings.BookingData.repeatType bookingData);
      destruct (UserBookings.BookingData.repeatEndDate bookingData) as [endDate|];
      try apply Hrep;
      try (rewrite notifyAndRespond_db; exists []; rewrite app_nil_r; auto).
    + destruct (fst (checkConflicts _ _ _ _ _)).
      * exists []. rewrite app_nil_r. auto.
      * simpl. rewrite notifyAndRespond_db. simpl.
        eexists. split; [reflexivity|]. constructor; [exact Hin | constructor].
    + destruct (fst (checkConflicts _ _ _ _ _)).
      * exists []. rewrite app_nil_r. auto.
      * simpl. rewrite notifyAndRespond_db. simpl.
        eexists. split; [reflexivity|]. constructor; [exact Hin | constructor].
Qed.

(** A request for 07:30-09:00 and one for 20:00-21:30 on 2024-01-01. *)
Lemma hours_guard_answers_first_witness :
  (exists code msg,
      UserBookings.guards Scenario.professorSession
        (Scenario.userRequest (Scenario.jan 1) 7 30 9 0 UserBookings.none None)
      = inl (Json code msg)
      /\ (code = 400 \/ code = 401)
      /\ UserBookings.POST Scenario.busyDb Scenario.professorSession
           (Scenario.userRequest (Scenario.jan 1) 7 30 9 0 UserBookings.none None)
         = (Scenario.busyDb, Json code msg)
      /\ (Scenario.professorSession <> None ->
          UserBookings.BookingData.room
            (Scenario.userRequest (Scenario.jan 1) 7 30 9 0 UserBookings.none None)
          <> None ->
          UserBookings.BookingData.date
            (Scenario.userRequest (Scenario.jan 1) 7 30 9 0 UserBookings.none None)
          <> None ->
          UserBookings.BookingData.title
            (Scenario.userRequest (Scenario.jan 1) 7 30 9 0 UserBookings.none None)
          <> EmptyString ->
          Json code msg = UserBookings.outsideHoursResponse))
  /\ (exists code msg,
        UserBookings.POST Scenario.busyDb Scenario.professorSession
          (Scenario.userRequest (Scenario.jan 1) 20 0 21 30 UserBookings.daily
             (Some (midnight (Scenario.jan 5))))
        = (Scenario.busyDb, Json code msg)).
Proof.
  split.
  - apply (proj1 hours_guard_answers_first Scenario.busyDb
             Scenario.professorSession
             (Scenario.userRequest (Scenario.jan 1) 7 30 9 0 UserBookings.none None)
             (at_ (Scenario.jan 1) 7 30) (at_ (Scenario.jan 1) 9 0)).
    + reflexivity.
    + reflexivity.
    + left. vm_compute. reflexivity.
  - destruct (proj1 hours_guard_answers_first Scenario.busyDb
                Scenario.professorSession
                (Scenario.userRequest (Scenario.jan 1) 20 0 21 30 UserBookings.daily
                   (Some (midnight (Scenario.jan 5))))
                (at_ (Scenario.jan 1) 20 0) (at_ (Scenario.jan 1) 21 30)
                eq_refl eq_refl)
      as (code & msg & _ & _ & Hpost & _).
    + right. vm_compute. reflexivity.
    + exists code, msg. exact Hpost.
Defined.

(** C10 at two requests for room 7 on 2024-01-01, on an empty collection.
    One runs from 22:00 until 07:00 of the next day: its start hour is not
    before 8 and its end hour is not after 21, so the guard lets it pass,
    and the route answers success and stores it.  The other ends at
    21:00:59.999: the guard reads hours and minutes, finds 21:00, and the
    route stores a booking that ends after 21:00.  Neither booking lies
    between 8:00 AM and 9:00 PM. *)
Theorem user_route_books_outside_hours :
  UserBookings.outsideHours (at_ (Scenario.jan 1) 22 0) (at_ (Scenario.jan 2) 7 0)
  = false
  /\ UserBookings.POST Scenario.emptyDb Scenario.professorSession Scenario.overnight
     = (set_bookings Scenario.emptyDb [Scenario.overnightBooking],
        Success 201 [Scenario.overnightBooking])
  /\ ~ withinHours Scenario.overnightBooking
  /\ UserBookings.POST Scenario.emptyDb Scenario.professorSession Scenario.lateEnd
     = (set_bookings Scenario.emptyDb [Scenario.lateEndBooking],
        Success 201 [Scenario.lateEndBooking])
  /\ 21 * MS_PER_HOUR < timeOfDay (endTime Scenario.lateEndBooking)
  /\ ~ withinHours Scenario.lateEndBooking.
Proof.
  split; [vm_compute; reflexivity|].
  split; [vm_compute; reflexivity|].
  split.
  { intros (Hday & _ & _). vm_compute in Hday. discriminate. }
  split; [vm_compute; reflexivity|].
  split; [vm_compute; reflexivity|].
  intros (_ & _ & Hend). vm_compute in Hend. apply Hend. reflexivity.
Qed.

(** * Further properties of the admin route *)

Section AdminRouteFacts.

Import AdminBookings.

Lemma nextId_gt bs e : In e bs -> (_id e < nextId bs)%nat.
Proof.
  unfold nextId. induction bs as [|a rest IH]; simpl; [tauto|].
  intros [<-|H]; [lia|]. specialize (IH H). lia.
Qed.

Lemma assignIds_ids docs : forall n,
  map _id (assignIds n docs) = seq n (List.length docs).
Proof.
  induction docs as [|a rest IH]; intros n; simpl; [reflexivity|].
  rewrite IH. reflexivity.
Qed.

Lemma length_assignIds docs : forall n,
  List.length (assignIds n docs) = List.length docs.
Proof.
  induction docs as [|a rest IH]; intros n; simpl; [reflexivity|].
  rewrite IH. reflexivity.
Qed.

Lemma set_bookings_same db : set_bookings db (bookings db) = db.
Proof. destruct db. reflexivity. Qed.

End AdminRouteFacts.

(** X1: the three writing handlers of the admin route answer 401 to a
    caller who is not signed in or is not an admin, and return the database
    as it was. *)
Theorem admin_route_closed_to_others :
  forall db session body id_ status_,
    notAdmin session ->
    AdminBookings.POST db session body = (db, AdminBookings.unauthorized)
    /\ AdminBookings.PATCH db session id_ status_ = (db, AdminBookings.unauthorized)
    /\ AdminBookings.DELETE db session id_ = (db, AdminBookings.unauthorized).
Proof.
  intros db session body id_ status_ H.
  unfold AdminBookings.POST, AdminBookings.bookingsToCreate,
         AdminBookings.PATCH, AdminBookings.DELETE.
  destruct session as [u|]; simpl in H; [rewrite H|]; simpl; auto.
Qed.

Lemma admin_route_closed_to_others_witness :
  AdminBookings.POST Scenario.busyDb Scenario.professorSession Scenario.single
    = (Scenario.busyDb, AdminBookings.unauthorized)
  /\ AdminBookings.PATCH Scenario.busyDb Scenario.professorSession
       (Some 1%nat) (Some rejected)
     = (Scenario.busyDb, AdminBookings.unauthorized)
  /\ AdminBookings.DELETE Scenario.busyDb Scenario.professorSession (Some 1%nat)
     = (Scenario.busyDb, AdminBookings.unauthorized).
Proof.
  apply (admin_route_closed_to_others Scenario.busyDb Scenario.professorSession
           Scenario.single (Some 1%nat) (Some rejected)).
  reflexivity.
Defined.

(** X2: [POST] of the admin route writes on success only.  Under any
    message answer the database is the one it was given; a success answer
    is 200 with at least one booking, the bookings are appended to the
    collection in order, with consecutive ids from one above every id in
    the collection. *)
Theorem admin_post_appends_or_leaves :
  forall db session body,
    match AdminBookings.POST db session body with
    | (db', Json _ _) => db' = db
    | (db', Success code created) =>
        code = 200 /\ created <> []
        /\ db' = set_bookings db (bookings db ++ created)
        /\ map _id created = seq (nextId (bookings db)) (List.length created)
        /\ (forall e, In e (bookings db) -> (_id e < nextId (bookings db))%nat)
    end.
Proof.
  intros db session body. unfold AdminBookings.POST.
  destruct (AdminBookings.bookingsToCreate db session body) as [r|[roomId toCreate]] eqn:Hc.
  - apply bookingsToCreate_guard in Hc as (code & msg & -> & _). reflexivity.
  - destruct (AdminBookings.checkAll _ _ _) as [c|docs]; [reflexivity|].
    destruct docs as [|doc docs']; [reflexivity|].
    remember (doc :: docs') as docs eqn:Hdocs.
    split; [reflexivity|]. split.
    { subst docs. simpl. discriminate. }
    split; [reflexivity|]. split.
    + rewrite assignIds_ids, length_assignIds. reflexivity.
    + intros e. apply nextId_gt.
Qed.

Ltac clock_side :=
  auto using getHours_range, getMinutes_range, startOfDay_idem;
  try (apply startOfDay_setHours; auto using getHours_range, getMinutes_range).

Section AdminBatchShape.

Import AdminBookings.

Lemma setHours_lt d d' h m h' m' :
  startOfDay d = startOfDay d' -> h < h' -> 0 <= m < 60 -> 0 <= m' ->
  setHours d h m < setHours d' h' m'.
Proof.
  unfold setHours. intros -> Hh Hm Hm'. unfold MS_PER_HOUR, MS_PER_MINUTE. lia.
Qed.

Lemma lookup_In key ws daySchedule :
  lookup key ws = Some daySchedule -> exists k, In (k, daySchedule) ws.
Proof.
  induction ws as [|[k v] rest IH]; simpl; [discriminate|].
  destruct (String.eqb k key).
  - intros [= <-]. exists k. now left.
  - intros H. destruct (IH H) as [k' Hk']. exists k'. now right.
Qed.

Lemma validateWeekly_passed ws : forall h h',
  validateWeekly ws h = inr h' ->
  forall day schedule,
    In (day, schedule) ws -> DaySchedule.enabled schedule = true ->
    hourNotAfter (DaySchedule.startTime schedule) (DaySchedule.endTime schedule) = false.
Proof.
  induction ws as [|[k v] rest IH]; simpl; intros h h' H day schedule; [tauto|].
  destruct (DaySchedule.enabled v) eqn:Hen.
  - destruct (hourNotAfter _ _) eqn:Hna; [discriminate|].
    intros [[= <- <-]|Hin] Hs; [exact Hna | exact (IH _ _ H _ _ Hin Hs)].
  - intros [[= <- <-]|Hin] Hs; [congruence | exact (IH _ _ H _ _ Hin Hs)].
Qed.

Lemma dailyBody_likeBase base s e cur :
  getHours s < getHours e ->
  Forall (likeBase base) (fst (dailyBody base s e cur)).
Proof.
  intros Hh. unfold dailyBody. simpl. constructor; [|constructor].
  unfold likeBase. simpl. repeat split.
  apply setHours_lt; auto; apply getMinutes_range.
Qed.

Lemma weeklyBody_likeBase base ws cur :
  (forall day schedule,
      In (day, schedule) ws -> DaySchedule.enabled schedule = true ->
      hourNotAfter (DaySchedule.startTime schedule) (DaySchedule.endTime schedule) = false) ->
  Forall (likeBase base) (fst (weeklyBody base ws cur)).
Proof.
  intros Hok. unfold weeklyBody.
  destruct (lookup _ ws) as [ds|] eqn:Hlook; [|constructor].
  destruct (DaySchedule.enabled ds) eqn:Hen; [|constructor].
  destruct (DaySchedule.startTime ds) as [s|] eqn:Hs; [|constructor].
  destruct (DaySchedule.endTime ds) as [e|] eqn:He; [|constructor].
  apply lookup_In in Hlook as [k Hin].
  specialize (Hok k ds Hin Hen). rewrite Hs, He in Hok. simpl in Hok.
  apply Z.leb_gt in Hok.
  simpl. constructor; [|constructor].
  unfold likeBase. simpl. repeat split.
  apply setHours_lt; auto; try apply getMinutes_range.
  symmetry. apply startOfDay_setHours; apply getHours_range || apply getMinutes_range.
Qed.

Lemma repeatedBookings_likeBase body base d repeated :
  validateTimes body = inr tt ->
  repeatedBookings body base d = inr repeated ->
  Forall (likeBase base) repeated.
Proof.
  unfold repeatedBookings, validateTimes. intros Htimes.
  destruct (BookingRequest.repeatType body);
    destruct (BookingRequest.repeatEndDate body) as [endRepeat|];
    try (intros [= <-]; constructor).
  - destruct (BookingRequest.startTime body) as [s|];
      [destruct (BookingRequest.endTime body) as [e|]|];
      try (intros [= <-]; constructor).
    unfold returnIf. destruct (getHours e <=? getHours s) eqn:Hh; simpl; [discriminate|].
    intros [= <-]. apply whileBefore_Forall. intros cur.
    apply dailyBody_likeBase. apply Z.leb_gt. exact Hh.
  - destruct (BookingRequest.weeklySchedule body) as [ws|];
      try (intros [= <-]; constructor).
    intros [= <-]. apply whileBefore_Forall. intros cur.
    apply weeklyBody_likeBase.
    destruct (validateWeekly ws false) as [r|h] eqn:Hw; [discriminate|].
    exact (validateWeekly_passed _ _ _ Hw).
Qed.

Lemma bookingsToCreate_asRequested db session body roomId toCreate :
  bookingsToCreate db session body = inr (roomId, toCreate) ->
  exists u,
    session = Some u /\ BookingRequest.room body = Some roomId
    /\ Forall (fun o => asRequested u roomId body o /\ startTime o < endTime o)
         toCreate.
Proof.
  unfold bookingsToCreate.
  destruct session as [u|]; [|discriminate].
  unfold returnIf at 1. destruct (isAdminRole (role u)); simpl; [|discriminate].
  destruct (BookingRequest.room body) as [r|]; [|discriminate].
  destruct (BookingRequest.date body) as [d|]; [|discriminate].
  unfold returnIf at 1.
  destruct (String.eqb _ _); simpl; [discriminate|].
  destruct (validateTimes body) as [|[]] eqn:Htimes; simpl; [discriminate|].
  unfold returnIf at 1.
  destruct (existsb _ _); simpl; [|discriminate].
  destruct (validateHours body) as [|[]] eqn:Hhours; simpl; [discriminate|].
  destruct (repeatedBookings _ _ _) as [|repeated] eqn:Hrep; simpl; [discriminate|].
  intros [= <- <-]. exists u. split; [reflexivity|]. split; [reflexivity|].
  apply Forall_app. split.
  - unfold validateHours, returnIf in Hhours.
    destruct (BookingRequest.startTime body) as [s|]; [|constructor].
    destruct (BookingRequest.endTime body) as [e|]; [|constructor].
    destruct (getHours e <=? getHours s) eqn:Hh; [discriminate|].
    apply Z.leb_gt in Hh.
    constructor; [|constructor]. unfold asRequested. simpl. repeat split.
    apply setHours_lt; auto; try apply getMinutes_range.
    symmetry. apply startOfDay_setHours; apply getHours_range || apply getMinutes_range.
  - apply (repeatedBookings_likeBase _ _ _ _ Htimes) in Hrep.
    eapply Forall_impl; [|exact Hrep].
    unfold likeBase, asRequested. simpl. intros o. tauto.
Qed.

Lemma bookingsToCreate_sound db session body roomId toCreate :
  bookingsToCreate db session body = inr (roomId, toCreate) ->
  exists u,
    session = Some u /\ BookingRequest.room body = Some roomId
    /\ Forall (fun o => asRequested u roomId body o
                        /\ aligned o /\ startTime o < endTime o) toCreate.
Proof.
  intros Hc.
  destruct (bookingsToCreate_asRequested _ _ _ _ _ Hc) as (u & Hu & Hr & Hall).
  pose proof (bookingsToCreate_aligned _ _ _ _ _ Hc) as Hal.
  exists u. split; [exact Hu|]. split; [exact Hr|].
  rewrite Forall_forall in *. intros o Ho.
  destruct (Hall o Ho) as [Hreq Hlt]. destruct (Hal o Ho) as [_ Ha]. auto.
Qed.

Lemma aligned_resetDate o : aligned o -> aligned (resetDate o).
Proof.
  unfold aligned, resetDate. simpl. intros [Hs He].
  split.
  - rewrite (setHours_same_day _ (date o)) by apply startOfDay_idem. exact Hs.
  - rewrite (setHours_same_day _ (date o)) by apply startOfDay_idem. exact He.
Qed.

End AdminBatchShape.

(** X3: every booking the admin route inserts is in good order and is the
    caller's: it has the room, status and title of the request and the
    caller's id; its date is a midnight; its start and end are on that date
    at whole minutes; and it starts before it ends. *)
Theorem admin_post_inserts_wellformed_bookings :
  forall db session body db' code created,
    AdminBookings.POST db session body = (db', Success code created) ->
    exists u roomId,
      session = Some u
      /\ AdminBookings.BookingRequest.room body = Some roomId
      /\ Forall (fun b => asRequested u roomId body b /\ wellFormed b) created.
Proof.
  intros db session body db' code created. unfold AdminBookings.POST.
  destruct (AdminBookings.bookingsToCreate db session body)
    as [r|[roomId toCreate]] eqn:Hc.
  { intros [= _ H]. apply bookingsToCreate_guard in Hc as (c & msg & -> & _).
    discriminate. }
  destruct (AdminBookings.checkAll _ _ _) as [c|docs] eqn:Hcheck; [discriminate|].
  destruct docs as [|doc docs']; [discriminate|].
  remember (doc :: docs') as docs eqn:Hnonempty. clear Hnonempty.
  intros [= _ _ <-].
  apply checkAll_inr in Hcheck as [-> _].
  destruct (bookingsToCreate_sound _ _ _ _ _ Hc) as (u & Hu & Hr & Hall).
  exists u, roomId. split; [exact Hu|]. split; [exact Hr|].
  apply Forall_forall. intros b Hb.
  destruct (In_assignIds _ _ _ Hb) as (o' & i & Ho' & ->).
  apply in_map_iff in Ho' as (o & <- & Ho).
  rewrite Forall_forall in Hall. destruct (Hall o Ho) as (Hreq & Hal & Hlt).
  split; [exact Hreq|].
  unfold wellFormed. simpl. split; [|split].
  - symmetry. apply startOfDay_idem.
  - exact (aligned_resetDate o Hal).
  - exact Hlt.
Qed.

Lemma admin_post_inserts_wellformed_bookings_witness :
  exists u roomId,
    Scenario.adminSession = Some u
    /\ AdminBookings.BookingRequest.room
         (Scenario.adminRequest (Scenario.jan 1) 9 0 10 0 AdminBookings.none None)
       = Some roomId
    /\ Forall (fun b =>
                 asRequested u roomId
                   (Scenario.adminRequest (Scenario.jan 1) 9 0 10 0
                      AdminBookings.none None) b
                 /\ wellFormed b)
         [mkBooking 1 7 1 "Lecture" (midnight (Scenario.jan 1))
            (at_ (Scenario.jan 1) 9 0) (at_ (Scenario.jan 1) 10 0) approved None].
Proof.
  apply (admin_post_inserts_wellformed_bookings Scenario.emptyDb Scenario.adminSession
           (Scenario.adminRequest (Scenario.jan 1) 9 0 10 0 AdminBookings.none None)
           (set_bookings Scenario.emptyDb
              [mkBooking 1 7 1 "Lecture" (midnight (Scenario.jan 1))
                 (at_ (Scenario.jan 1) 9 0) (at_ (Scenario.jan 1) 10 0) approved None])
           200).
  vm_compute. reflexivity.
Defined.

Section AdminBatchSplit.

Import AdminBookings.

Lemma getDay_startOfDay d : getDay (startOfDay d) = getDay d.
Proof. date_arith. Qed.

(** The batch is the booking of the request date, when the request has
    times of its own, followed by what the repeat branch pushes. *)
Lemma bookingsToCreate_split db session body roomId toCreate :
  bookingsToCreate db session body = inr (roomId, toCreate) ->
  exists u d initial repeated,
    session = Some u /\ role u = admin
    /\ BookingRequest.date body = Some d
    /\ toCreate = initial ++ repeated
    /\ Forall (fun b => date b = d) initial
    /\ (BookingRequest.startTime body = None -> initial = [])
    /\ repeatedBookings body
         (mkBooking 0 roomId (id u) (BookingRequest.title body) d 0 0
                    (BookingRequest.status body) None) d = inr repeated.
Proof.
  unfold bookingsToCreate.
  destruct session as [u|]; [|discriminate].
  unfold returnIf at 1. destruct (role u) eqn:Hrole; simpl; [|discriminate].
  destruct (BookingRequest.room body) as [r|]; [|discriminate].
  destruct (BookingRequest.date body) as [d|]; [|discriminate].
  unfold returnIf at 1.
  destruct (String.eqb _ _); simpl; [discriminate|].
  destruct (validateTimes body) as [|[]]; simpl; [discriminate|].
  unfold returnIf at 1.
  destruct (existsb _ _); simpl; [|discriminate].
  destruct (validateHours body) as [|[]]; simpl; [discriminate|].
  destruct (repeatedBookings _ _ _) as [|repeated] eqn:Hrep; simpl; [discriminate|].
  intros [= <- <-].
  exists u, d. eexists. exists repeated.
  split; [reflexivity|]. split; [exact Hrole|]. split; [reflexivity|].
  split; [reflexivity|]. split; [|split; [|exact Hrep]].
  - destruct (BookingRequest.startTime body), (BookingRequest.endTime body);
      repeat constructor.
  - destruct (BookingRequest.startTime body); [discriminate | reflexivity].
Qed.

Lemma repeatedBookings_before_end body base d repeated endRepeat :
  repeatedBookings body base d = inr repeated ->
  BookingRequest.repeatEndDate body = Some endRepeat ->
  Forall (fun b => midnight (dayNumber (date b)) < endRepeat) repeated.
Proof.
  unfold repeatedBookings. intros H Hend. rewrite Hend in H. revert H.
  destruct (BookingRequest.repeatType body); try (intros [= <-]; constructor).
  - destruct (BookingRequest.startTime body) as [s|];
      [destruct (BookingRequest.endTime body) as [e|]|];
      try (intros [= <-]; constructor).
    unfold returnIf. destruct (getHours e <=? getHours s); simpl; [discriminate|].
    intros [= <-]. apply whileBefore_before_end. apply dailyBody_oneADay.
  - destruct (BookingRequest.weeklySchedule body) as [ws|];
      try (intros [= <-]; constructor).
    intros [= <-]. apply whileBefore_before_end. apply weeklyBody_oneADay.
Qed.

Lemma weeklyBody_fromSchedule base ws cur :
  Forall (fromSchedule ws) (fst (weeklyBody base ws cur)).
Proof.
  unfold weeklyBody.
  destruct (lookup _ ws) as [ds|] eqn:Hlook; [|constructor].
  destruct (DaySchedule.enabled ds) eqn:Hen; [|constructor].
  destruct (DaySchedule.startTime ds) as [s|] eqn:Hs; [|constructor].
  destruct (DaySchedule.endTime ds) as [e|] eqn:He; [|constructor].
  simpl. constructor; [|constructor].
  exists ds, s, e. unfold dayNameOf. simpl.
  rewrite getDay_startOfDay.
  repeat split; try assumption.
  apply setHours_same_day.
  apply startOfDay_setHours; apply getHours_range || apply getMinutes_range.
Qed.

End AdminBatchSplit.

(** X4: the bookings a weekly schedule request prepares (one that sends no
    start time of its own) are all read off the schedule: each falls on a
    day whose entry is enabled and has both times, at the hours and minutes
    of that entry; each is on or after the day of the request date; the day
    of each begins before the repeat end date; and they come on strictly
    later and later days. *)
Theorem weekly_schedule_books_enabled_days_only :
  forall db session body roomId toCreate ws d endRepeat,
    AdminBookings.bookingsToCreate db session body = inr (roomId, toCreate) ->
    AdminBookings.BookingRequest.repeatType body = AdminBookings.weekly ->
    AdminBookings.BookingRequest.weeklySchedule body = Some ws ->
    AdminBookings.BookingRequest.startTime body = None ->
    AdminBookings.BookingRequest.date body = Some d ->
    AdminBookings.BookingRequest.repeatEndDate body = Some endRepeat ->
    Forall (fun b => fromSchedule ws b
                     /\ dayNumber d <= dayNumber (date b)
                     /\ midnight (dayNumber (date b)) < endRepeat) toCreate
    /\ daysFrom (dayNumber d) toCreate.
Proof.
  intros db session body roomId toCreate ws d endRepeat Hc Hrt Hws Hs Hd Hend.
  destruct (bookingsToCreate_split _ _ _ _ _ Hc)
    as (u & d' & initial & repeated & _ & _ & Hd' & -> & _ & Hinit & Hrep).
  rewrite Hd in Hd'. injection Hd' as <-.
  rewrite (Hinit Hs). simpl.
  pose proof (repeatedBookings_before_end _ _ _ _ _ Hrep Hend) as Hbefore.
  pose proof (proj1 (repeatedBookings_daysFrom _ _ _ _ Hrep)) as Hdays.
  split; [|exact Hdays].
  assert (Hfrom : Forall (fromSchedule ws) repeated).
  { revert Hrep. unfold AdminBookings.repeatedBookings. rewrite Hrt, Hend, Hws.
    intros [= <-]. apply whileBefore_Forall. intros cur.
    apply weeklyBody_fromSchedule. }
  apply daysFrom_lower in Hdays.
  rewrite Forall_forall in *. intros b Hb. auto.
Qed.

(** Mondays 09:00-10:00 from Monday 2024-01-01 until 2024-01-15. *)
Lemma weekly_schedule_books_enabled_days_only_witness :
  exists toCreate,
    AdminBookings.bookingsToCreate Scenario.emptyDb Scenario.adminSession
      (Scenario.weeklyRequest (Scenario.jan 1) Scenario.mondays (Scenario.jan 15))
    = inr (7%nat, toCreate)
    /\ Forall (fun b => fromSchedule Scenario.mondays b
                        /\ dayNumber (midnight (Scenario.jan 1)) <= dayNumber (date b)
                        /\ midnight (dayNumber (date b)) < midnight (Scenario.jan 15))
         toCreate
    /\ daysFrom (dayNumber (midnight (Scenario.jan 1))) toCreate.
Proof.
  eexists. split; [vm_compute; reflexivity|].
  eapply (weekly_schedule_books_enabled_days_only Scenario.emptyDb Scenario.adminSession
            (Scenario.weeklyRequest (Scenario.jan 1) Scenario.mondays (Scenario.jan 15))
            7%nat _ Scenario.mondays (midnight (Scenario.jan 1))
            (midnight (Scenario.jan 15)));
    vm_compute; reflexivity.
Defined.

(** X5: no repeat loop of the admin route pushes a booking on a day that
    begins at or after the repeat end date: in a batch, every booking
    either is dated as the request is or falls on a day that begins before
    the repeat end date. *)
Theorem admin_repeats_stop_before_end_date :
  forall db session body roomId toCreate d endRepeat,
    AdminBookings.bookingsToCreate db session body = inr (roomId, toCreate) ->
    AdminBookings.BookingRequest.date body = Some d ->
    AdminBookings.BookingRequest.repeatEndDate body = Some endRepeat ->
    Forall (fun b => date b = d \/ midnight (dayNumber (date b)) < endRepeat) toCreate.
Proof.
  intros db session body roomId toCreate d endRepeat Hc Hd Hend.
  destruct (bookingsToCreate_split _ _ _ _ _ Hc)
    as (u & d' & initial & repeated & _ & _ & Hd' & -> & Hdates & _ & Hrep).
  rewrite Hd in Hd'. injection Hd' as <-.
  apply Forall_app. split.
  - eapply Forall_impl; [|exact Hdates]. simpl. auto.
  - eapply Forall_impl; [|exact (repeatedBookings_before_end _ _ _ _ _ Hrep Hend)].
    simpl. auto.
Qed.

(** A daily request from 2024-01-01 until 2024-01-05. *)
Lemma admin_repeats_stop_before_end_date_witness :
  exists toCreate,
    AdminBookings.bookingsToCreate Scenario.emptyDb Scenario.adminSession
      (Scenario.adminRequest (Scenario.jan 1) 9 0 10 0 AdminBookings.daily
         (Some (midnight (Scenario.jan 5))))
    = inr (7%nat, toCreate)
    /\ Forall (fun b => date b = midnight (Scenario.jan 1)
                        \/ midnight (dayNumber (date b)) < midnight (Scenario.jan 5))
         toCreate.
Proof.
  eexists. split; [vm_compute; reflexivity|].
  eapply (admin_repeats_stop_before_end_date Scenario.emptyDb Scenario.adminSession
            (Scenario.adminRequest (Scenario.jan 1) 9 0 10 0 AdminBookings.daily
               (Some (midnight (Scenario.jan 5))))
            7%nat _ (midnight (Scenario.jan 1)) (midnight (Scenario.jan 5)));
    vm_compute; reflexivity.
Defined.

Section LiveFacts.

Lemma find_filter {A} (f g : A -> bool) (l : list A) :
  (forall x, f x = true -> g x = true) ->
  find f (filter g l) = find f l.
Proof.
  intros Hfg. induction l as [|a rest IH]; simpl; [reflexivity|].
  destruct (g a) eqn:Hg; simpl.
  - destruct (f a); [reflexivity | exact IH].
  - destruct (f a) eqn:Hf; [|exact IH].
    rewrite (Hfg a Hf) in Hg. discriminate.
Qed.

Lemma conflictQuery_live roomId day s e b :
  conflictQuery roomId day s e b = true -> live roomId b = true.
Proof.
  unfold conflictQuery, live. rewrite !andb_true_iff. tauto.
Qed.

Lemma checkConflicts_live bs roomId d s e :
  checkConflicts (filter (live roomId) bs) roomId d s e = checkConflicts bs roomId d s e.
Proof.
  unfold checkConflicts. f_equal. apply find_filter.
  intros b. apply conflictQuery_live.
Qed.

End LiveFacts.

(** X6: the conflict checks consult only the bookings of the requested
    room that are not rejected.  Taking every other booking out of the
    collection changes no answer of [checkConflicts], of the conflict loop
    of the admin route, or of the conflict loop of the user route. *)
Theorem conflict_checks_see_live_bookings_only :
  forall bs roomId,
    (forall d s e,
        checkConflicts (filter (live roomId) bs) roomId d s e =
          checkConflicts bs roomId d s e)
    /\ (forall toCreate,
          AdminBookings.checkAll (filter (live roomId) bs) roomId toCreate =
            AdminBookings.checkAll bs roomId toCreate)
    /\ (forall dates s e,
          UserBookings.checkDates (filter (live roomId) bs) roomId dates s e =
            UserBookings.checkDates bs roomId dates s e).
Proof.
  intros bs roomId. split; [|split].
  - intros. apply checkConflicts_live.
  - induction toCreate as [|o rest IH]; [reflexivity|].
    cbn [AdminBookings.checkAll].
    rewrite checkConflicts_live, IH. reflexivity.
  - induction dates as [|d rest IH]; intros s e; [reflexivity|].
    cbn [UserBookings.checkDates].
    rewrite checkConflicts_live, IH. reflexivity.
Qed.

Section StoreLookups.

Lemma findById_updateStatus_same bs i s b :
  findById bs i = Some b ->
  findById (updateStatus bs i s) i = Some (with_status b s).
Proof.
  unfold findById. induction bs as [|a rest IH]; simpl; [discriminate|].
  destruct (Nat.eqb (_id a) i) eqn:Ha; simpl.
  - intros [= <-]. rewrite Ha. reflexivity.
  - rewrite Ha. exact IH.
Qed.

Lemma findById_updateStatus_other bs i j s :
  j <> i -> findById (updateStatus bs i s) j = findById bs j.
Proof.
  unfold findById. intros Hji. induction bs as [|a rest IH]; simpl; [reflexivity|].
  destruct (Nat.eqb (_id a) i) eqn:Ha; simpl.
  - apply Nat.eqb_eq in Ha.
    destruct (Nat.eqb (_id a) j) eqn:Hj; [|reflexivity].
    apply Nat.eqb_eq in Hj. congruence.
  - destruct (Nat.eqb (_id a) j); [reflexivity | exact IH].
Qed.

Lemma withoutStatus_updateStatus bs i s :
  map withoutStatus (updateStatus bs i s) = map withoutStatus bs.
Proof.
  induction bs as [|a rest IH]; simpl; [reflexivity|].
  destruct (Nat.eqb (_id a) i); simpl; [reflexivity|].
  rewrite IH. reflexivity.
Qed.

Lemma deleteById_split bs i b :
  findById bs i = Some b ->
  exists before after,
    bs = before ++ b :: after
    /\ (forall x, In x before -> _id x <> i)
    /\ _id b = i
    /\ deleteById bs i = before ++ after.
Proof.
  unfold findById. induction bs as [|a rest IH]; simpl; [discriminate|].
  destruct (Nat.eqb (_id a) i) eqn:Ha.
  - intros [= <-]. exists [], rest. apply Nat.eqb_eq in Ha.
    simpl. split; [reflexivity|]. split; [intros x []|]. auto.
  - intros H. destruct (IH H) as (before & after & -> & Hbefore & Hid & Hdel).
    exists (a :: before), after. simpl. rewrite Hdel.
    split; [reflexivity|]. split; [|auto].
    intros x [<-|Hx]; [apply Nat.eqb_neq; exact Ha | exact (Hbefore x Hx)].
Qed.

Lemma findById_fresh bs b :
  (forall e, In e bs -> (_id e < _id b)%nat) ->
  findById (bs ++ [b]) (_id b) = Some b
  /\ deleteById (bs ++ [b]) (_id b) = bs.
Proof.
  unfold findById. intros Hfresh. induction bs as [|a rest IH]; simpl.
  - rewrite Nat.eqb_refl. auto.
  - assert (Ha : Nat.eqb (_id a) (_id b) = false).
    { apply Nat.eqb_neq. specialize (Hfresh a (or_introl eq_refl)). lia. }
    rewrite Ha. destruct IH as [IH1 IH2].
    { intros e He. apply Hfresh. now right. }
    rewrite IH2. auto.
Qed.

End StoreLookups.

(** X7: [PATCH] by an admin.  When no booking has the id, the answer is
    404 and the database is unchanged.  Otherwise the answer is 200, looking
    the id up afterwards gives the booking it gave before with the new
    status, every other id looks up as before, and apart from statuses the
    collection is the same, document for document; rooms and users are
    untouched. *)
Theorem patch_sets_one_status :
  forall db session i s,
    isAdminSession session ->
    match findById (bookings db) i with
    | None =>
        AdminBookings.PATCH db session (Some i) (Some s) =
          (db, Json 404 [Lit "Booking not found"])
    | Some b =>
        exists db',
          AdminBookings.PATCH db session (Some i) (Some s) =
            (db', Json 200 [Lit "Booking status updated successfully"])
          /\ findById (bookings db') i = Some (with_status b s)
          /\ (forall j, j <> i -> findById (bookings db') j = findById (bookings db) j)
          /\ map withoutStatus (bookings db') = map withoutStatus (bookings db)
          /\ rooms db' = rooms db /\ adminUsers db' = adminUsers db
    end.
Proof.
  intros db session i s (u & -> & Hrole).
  unfold AdminBookings.PATCH. rewrite Hrole. simpl.
  destruct (findById (bookings db) i) as [b|] eqn:Hfind; [|reflexivity].
  eexists. split; [reflexivity|]. simpl.
  split; [apply findById_updateStatus_same; exact Hfind|].
  split; [intros j Hj; apply findById_updateStatus_other; exact Hj|].
  split; [apply withoutStatus_updateStatus|]. auto.
Qed.

Lemma patch_sets_one_status_witness :
  exists db',
    AdminBookings.PATCH Scenario.busyDb Scenario.adminSession (Some 1%nat) (Some rejected)
    = (db', Json 200 [Lit "Booking status updated successfully"])
    /\ findById (bookings db') 1 = Some (with_status Scenario.taken rejected)
    /\ (forall j, j <> 1%nat ->
        findById (bookings db') j = findById (bookings Scenario.busyDb) j)
    /\ map withoutStatus (bookings db') = map withoutStatus (bookings Scenario.busyDb)
    /\ rooms db' = rooms Scenario.busyDb
    /\ adminUsers db' = adminUsers Scenario.busyDb.
Proof.
  apply (patch_sets_one_status Scenario.busyDb Scenario.adminSession 1%nat rejected).
  exists {| id := 1; role := admin |}. split; reflexivity.
Defined.

(** X8: [DELETE] by an admin.  When no booking has the id, the answer is
    404 and the database is unchanged.  Otherwise the first booking with
    the id is taken out and every other booking stays, in order. *)
Theorem delete_removes_one_booking :
  forall db session i,
    isAdminSession session ->
    match findById (bookings db) i with
    | None =>
        AdminBookings.DELETE db session (Some i) =
          (db, Json 404 [Lit "Booking not found"])
    | Some b =>
        exists before after,
          bookings db = before ++ b :: after
          /\ (forall x, In x before -> _id x <> i)
          /\ AdminBookings.DELETE db session (Some i) =
               (set_bookings db (before ++ after),
                Json 200 [Lit "Booking deleted successfully"])
    end.
Proof.
  intros db session i (u & -> & Hrole).
  unfold AdminBookings.DELETE. rewrite Hrole. simpl.
  destruct (findById (bookings db) i) as [b|] eqn:Hfind; [|reflexivity].
  destruct (deleteById_split _ _ _ Hfind) as (before & after & Hbs & Hbefore & _ & Hdel).
  exists before, after. rewrite Hdel. auto.
Qed.

Lemma delete_removes_one_booking_witness :
  exists before after,
    bookings Scenario.busyDb = before ++ Scenario.taken :: after
    /\ (forall x, In x before -> _id x <> 1%nat)
    /\ AdminBookings.DELETE Scenario.busyDb Scenario.adminSession (Some 1%nat) =
         (set_bookings Scenario.busyDb (before ++ after),
          Json 200 [Lit "Booking deleted successfully"]).
Proof.
  apply (delete_removes_one_booking Scenario.busyDb Scenario.adminSession 1%nat).
  exists {| id := 1; role := admin |}. split; reflexivity.
Defined.

Lemma admin_post_success db session body db' code created :
  AdminBookings.POST db session body = (db', Success code created) ->
  isAdminSession session
  /\ db' = set_bookings db (bookings db ++ created)
  /\ map _id created = seq (nextId (bookings db)) (List.length created).
Proof.
  unfold AdminBookings.POST.
  destruct (AdminBookings.bookingsToCreate db session body)
    as [r|[roomId toCreate]] eqn:Hc.
  { intros [= _ H]. apply bookingsToCreate_guard in Hc as (c & msg & -> & _).
    discriminate. }
  destruct (AdminBookings.checkAll _ _ _) as [c|docs]; [discriminate|].
  destruct docs as [|doc docs']; [discriminate|].
  remember (doc :: docs') as docs eqn:Hnonempty. clear Hnonempty.
  intros [= <- _ <-].
  destruct (bookingsToCreate_split _ _ _ _ _ Hc) as (u & _ & _ & _ & Hu & Hrole & _).
  split; [exists u; auto|]. split; [reflexivity|].
  rewrite assignIds_ids, length_assignIds. reflexivity.
Qed.

(** X9: creating and then deleting.  When the admin route has answered
    with one created booking, deleting the id it was given brings the
    database back to what it was before the creation. *)
Theorem delete_undoes_single_create :
  forall db session body db' code b,
    AdminBookings.POST db session body = (db', Success code [b]) ->
    AdminBookings.DELETE db' session (Some (_id b)) =
      (db, Json 200 [Lit "Booking deleted successfully"]).
Proof.
  intros db session body db' code b H.
  apply admin_post_success in H as ((u & -> & Hrole) & -> & Hids).
  simpl in Hids. injection Hids as Hid.
  assert (Hfresh : forall e, In e (bookings db) -> (_id e < _id b)%nat).
  { intros e He. rewrite Hid. apply nextId_gt. exact He. }
  destruct (findById_fresh _ _ Hfresh) as [Hfind Hdel].
  unfold AdminBookings.DELETE. rewrite Hrole. simpl.
  rewrite Hfind, Hdel. destruct db. reflexivity.
Qed.

Lemma delete_undoes_single_create_witness :
  AdminBookings.DELETE
    (set_bookings Scenario.busyDb
       (bookings Scenario.busyDb ++
        [mkBooking 2 7 1 "Lecture" (midnight (Scenario.jan 1))
           (at_ (Scenario.jan 1) 9 0) (at_ (Scenario.jan 1) 10 0) approved None]))
    Scenario.adminSession
    (Some (_id (mkBooking 2 7 1 "Lecture" (midnight (Scenario.jan 1))
                  (at_ (Scenario.jan 1) 9 0) (at_ (Scenario.jan 1) 10 0) approved None)))
  = (Scenario.busyDb, Json 200 [Lit "Booking deleted successfully"]).
Proof.
  apply (delete_undoes_single_create Scenario.busyDb Scenario.adminSession
           Scenario.single _ 200).
  vm_compute. reflexivity.
Defined.

(** X10: the conflict the admin route reports is the first one in the
    order of the batch: every booking of the batch before the one that
    meets it passes the conflict query against the whole collection, and
    the booking reported is the first in the collection that the query of
    that one matches. *)
Theorem first_conflict_in_batch_order :
  forall bs roomId toCreate conflict,
    AdminBookings.checkAll bs roomId toCreate = inl conflict ->
    exists before o after,
      toCreate = before ++ o :: after
      /\ (forall o' e, In o' before -> In e bs -> queryFor roomId o' e = false)
      /\ find (queryFor roomId o) bs = Some conflict.
Proof.
  intros bs roomId. induction toCreate as [|o rest IH]; simpl; intros conflict;
    [discriminate|].
  unfold checkConflicts.
  destruct (find _ bs) as [c|] eqn:Hfind.
  - intros [= <-]. exists [], o, rest.
    split; [reflexivity|]. split; [intros ? ? []|]. exact Hfind.
  - destruct (AdminBookings.checkAll bs roomId rest) as [c|rest'] eqn:Hrest;
      [|discriminate].
    intros [= <-]. destruct (IH _ eq_refl) as (before & o1 & after & -> & Hb & Hf).
    exists (o :: before), o1, after.
    split; [reflexivity|]. split; [|exact Hf].
    intros o' e [<-|Ho'] He; [exact (find_none _ _ Hfind e He) | exact (Hb o' e Ho' He)].
Qed.

Lemma first_conflict_in_batch_order_witness :
  exists before o after,
    [mkBooking 0 7 1 "Lecture" (midnight (Scenario.jan 2))
       (at_ (Scenario.jan 2) 9 0) (at_ (Scenario.jan 2) 10 0) approved None;
     mkBooking 0 7 1 "Lecture" (midnight (Scenario.jan 3))
       (at_ (Scenario.jan 3) 9 0) (at_ (Scenario.jan 3) 10 0) approved None]
    = before ++ o :: after
    /\ (forall o' e, In o' before -> In e [Scenario.taken] -> queryFor 7 o' e = false)
    /\ find (queryFor 7 o) [Scenario.taken] = Some Scenario.taken.
Proof.
  apply (first_conflict_in_batch_order [Scenario.taken] 7%nat).
  vm_compute. reflexivity.
Defined.

Section AdminDailyDays.

Import AdminBookings.

Lemma admin_daily_loop_days base s e n : forall k u,
  (Z.to_nat (u - k) <= n)%nat ->
  map (fun b => dayNumber (date b))
      (whileBefore n (dailyBody base s e) (midnight k) (midnight u)) =
    map (fun j => k + Z.of_nat j) (seq 0 (Z.to_nat (u - k))).
Proof.
  induction n as [|n IH]; intros k u Hn.
  - replace (Z.to_nat (u - k)) with 0%nat by lia. reflexivity.
  - simpl. unfold isBefore.
    destruct (midnight k <? midnight u) eqn:Hb.
    + apply Z.ltb_lt in Hb. assert (Hku : k < u) by (unfold_date; lia).
      simpl. rewrite addDays_midnight, IH by lia.
      replace (Z.to_nat (u - k)) with (S (Z.to_nat (u - (k + 1)))) by lia.
      simpl. f_equal.
      * rewrite dayNumber_startOfDay, dayNumber_midnight. lia.
      * rewrite <- seq_shift, map_map. apply map_ext. intros j. lia.
    + apply Z.ltb_ge in Hb. assert (u <= k) by (unfold_date; lia).
      replace (Z.to_nat (u - k)) with 0%nat by lia. reflexivity.
Qed.

End AdminDailyDays.

(** X11: a daily request of the admin route from day [c] until a later
    day [u], both given at midnight, prepares one booking for each of the
    days [c], [c + 1], ..., [u - 1], in that order, and none for day [u]:
    [u - c] bookings. *)
Theorem admin_daily_books_up_to_the_day_before :
  forall db session body roomId toCreate c u,
    AdminBookings.bookingsToCreate db session body = inr (roomId, toCreate) ->
    AdminBookings.BookingRequest.repeatType body = AdminBookings.daily ->
    AdminBookings.BookingRequest.date body = Some (midnight c) ->
    AdminBookings.BookingRequest.repeatEndDate body = Some (midnight u) ->
    c < u ->
    map (fun b => dayNumber (date b)) toCreate =
      map (fun j => c + Z.of_nat j) (seq 0 (Z.to_nat (u - c)))
    /\ List.length toCreate = Z.to_nat (u - c).
Proof.
  intros db session body roomId toCreate c u Hcreate Hrt Hd Hend Hlt.
  split; [|exact (admin_daily_count _ _ _ _ _ _ _ Hcreate Hrt Hd Hend Hlt)].
  revert Hcreate. unfold AdminBookings.bookingsToCreate.
  destruct session as [usr|]; [|discriminate].
  unfold returnIf at 1. destruct (isAdminRole (role usr)); simpl; [|discriminate].
  destruct (AdminBookings.BookingRequest.room body) as [r|]; [|discriminate].
  rewrite Hd. unfold returnIf at 1.
  destruct (String.eqb _ _); simpl; [discriminate|].
  unfold AdminBookings.validateTimes. rewrite Hrt.
  unfold AdminBookings.validateHours, AdminBookings.repeatedBookings.
  rewrite Hrt, Hend.
  destruct (AdminBookings.BookingRequest.startTime body) as [s|]; [|discriminate].
  destruct (AdminBookings.BookingRequest.endTime body) as [e|]; [|discriminate].
  unfold returnIf. destruct (e <=? s); simpl; [discriminate|].
  destruct (existsb _ _); simpl; [|discriminate].
  destruct (getHours e <=? getHours s); simpl; [discriminate|].
  intros [= <- <-]. simpl. rewrite addDays_midnight.
  rewrite admin_daily_loop_days
    by (unfold beforeFuel; rewrite !dayNumber_midnight; lia).
  replace (Z.to_nat (u - c)) with (S (Z.to_nat (u - (c + 1)))) by lia.
  simpl. f_equal.
  - rewrite dayNumber_midnight. lia.
  - rewrite <- seq_shift, map_map. apply map_ext. intros j. lia.
Qed.

(** From 2024-01-01 until 2024-01-05: four days. *)
Lemma admin_daily_books_up_to_the_day_before_witness :
  exists toCreate,
    AdminBookings.bookingsToCreate Scenario.emptyDb Scenario.adminSession
      (Scenario.adminRequest (Scenario.jan 1) 9 0 10 0 AdminBookings.daily
         (Some (midnight (Scenario.jan 5))))
    = inr (7%nat, toCreate)
    /\ map (fun b => dayNumber (date b)) toCreate =
         map (fun j => Scenario.jan 1 + Z.of_nat j)
             (seq 0 (Z.to_nat (Scenario.jan 5 - Scenario.jan 1)))
    /\ List.length toCreate = Z.to_nat (Scenario.jan 5 - Scenario.jan 1).
Proof.
  eexists. split; [vm_compute; reflexivity|].
  eapply (admin_daily_books_up_to_the_day_before Scenario.emptyDb Scenario.adminSession
            (Scenario.adminRequest (Scenario.jan 1) 9 0 10 0 AdminBookings.daily
               (Some (midnight (Scenario.jan 5))))
            7%nat _ (Scenario.jan 1) (Scenario.jan 5));
    vm_compute; reflexivity.
Defined.

(** X12: a weekly request of an admin whose schedule has no enabled day is
    refused with 400 and "Please enable at least one day in the weekly
    schedule", whatever else it carries, and nothing is written. *)
Theorem weekly_request_without_enabled_day_is_refused :
  forall db session body roomId d ws,
    isAdminSession session ->
    AdminBookings.BookingRequest.room body = Some roomId ->
    AdminBookings.BookingRequest.date body = Some d ->
    AdminBookings.BookingRequest.title body <> EmptyString ->
    AdminBookings.BookingRequest.repeatType body = AdminBookings.weekly ->
    AdminBookings.BookingRequest.weeklySchedule body = Some ws ->
    (forall day schedule,
        In (day, schedule) ws ->
        AdminBookings.DaySchedule.enabled schedule = false) ->
    AdminBookings.POST db session body =
      (db, Json 400 [Lit "Please enable at least one day in the weekly schedule"]).
Proof.
  intros db session body roomId d ws (u & -> & Hrole) Hroom Hd Htitle Hrt Hws Hnone.
  unfold AdminBookings.POST, AdminBookings.bookingsToCreate.
  rewrite Hrole, Hroom, Hd. simpl.
  apply String.eqb_neq in Htitle. rewrite Htitle. simpl.
  rewrite (no_enabled_day_refused body ws Hrt Hws Hnone). reflexivity.
Qed.

Lemma weekly_request_without_enabled_day_is_refused_witness :
  AdminBookings.POST Scenario.busyDb Scenario.adminSession
    (Scenario.weeklyRequest (Scenario.jan 1)
       [("monday"%string,
         AdminBookings.DaySchedule.mk (Some (at_ 0 9 0)) (Some (at_ 0 10 0)) false)]
       (Scenario.jan 15))
  = (Scenario.busyDb,
     Json 400 [Lit "Please enable at least one day in the weekly schedule"]).
Proof.
  apply (weekly_request_without_enabled_day_is_refused Scenario.busyDb
           Scenario.adminSession _ 7%nat (midnight (Scenario.jan 1))
           [("monday"%string,
             AdminBookings.DaySchedule.mk (Some (at_ 0 9 0)) (Some (at_ 0 10 0)) false)]).
  - exists {| id := 1; role := admin |}. split; reflexivity.
  - reflexivity.
  - reflexivity.
  - discriminate.
  - reflexivity.
  - reflexivity.
  - intros day schedule [[= _ <-]|[]]. reflexivity.
Defined.

Lemma oneADay_same_day body : oneADay body -> forall d, dayNumber (snd (body d)) = dayNumber d.
Proof. intros H d. exact (proj1 (H d)). Qed.

(** X13: the repeat loops end by their own test.  Allowed more rounds
    than one per day from the current date to the repeat end date, the
    daily and the weekly loop of the admin route give the batch they give
    with exactly that many; and so do the loops of the user route, for a
    step of one day or one week. *)
Theorem repeat_loops_end_by_their_test :
  forall base s e ws cur endRepeat step n,
    (beforeFuel cur endRepeat <= n)%nat ->
    (leFuel step cur endRepeat <= n)%nat ->
    0 < step ->
    whileBefore n (AdminBookings.dailyBody base s e) cur endRepeat =
      whileBefore (beforeFuel cur endRepeat) (AdminBookings.dailyBody base s e)
                  cur endRepeat
    /\ whileBefore n (AdminBookings.weeklyBody base ws) cur endRepeat =
         whileBefore (beforeFuel cur endRepeat) (AdminBookings.weeklyBody base ws)
                     cur endRepeat
    /\ whileLe n step cur endRepeat = UserBookings.occurrences step cur endRepeat.
Proof.
  intros base s e ws cur endRepeat step n Hn Hle Hstep. split; [|split].
  - apply whileBefore_fuel; [|exact Hn].
    apply oneADay_same_day. apply dailyBody_oneADay.
  - apply whileBefore_fuel; [|exact Hn].
    apply oneADay_same_day. apply weeklyBody_oneADay.
  - apply whileLe_fuel; assumption.
Qed.

Lemma repeat_loops_end_by_their_test_witness :
  whileBefore 100 (AdminBookings.dailyBody Scenario.taken (at_ 0 9 0) (at_ 0 10 0))
    (midnight (Scenario.jan 1)) (midnight (Scenario.jan 5)) =
  whileBefore (beforeFuel (midnight (Scenario.jan 1)) (midnight (Scenario.jan 5)))
    (AdminBookings.dailyBody Scenario.taken (at_ 0 9 0) (at_ 0 10 0))
    (midnight (Scenario.jan 1)) (midnight (Scenario.jan 5))
  /\ whileBefore 100 (AdminBookings.weeklyBody Scenario.taken Scenario.mondays)
       (midnight (Scenario.jan 1)) (midnight (Scenario.jan 5)) =
     whileBefore (beforeFuel (midnight (Scenario.jan 1)) (midnight (Scenario.jan 5)))
       (AdminBookings.weeklyBody Scenario.taken Scenario.mondays)
       (midnight (Scenario.jan 1)) (midnight (Scenario.jan 5))
  /\ whileLe 100 7 (midnight (Scenario.jan 1)) (midnight (Scenario.jan 5)) =
     UserBookings.occurrences 7 (midnight (Scenario.jan 1)) (midnight (Scenario.jan 5)).
Proof.
  apply (repeat_loops_end_by_their_test Scenario.taken (at_ 0 9 0) (at_ 0 10 0)
           Scenario.mondays (midnight (Scenario.jan 1)) (midnight (Scenario.jan 5))
           7 100%nat).
  - vm_compute. lia.
  - vm_compute. lia.
  - lia.
Defined.

(** * Further properties of the user route *)

Section UserRouteFacts.

Import UserBookings.

Lemma createAll_fields base dates : forall bs,
  exists created,
    createAll bs base dates = (bs ++ created, created)
    /\ map date created = dates
    /\ Forall (fun b => with_date (with_id b 0) 0 = with_date (with_id base 0) 0) created.
Proof.
  induction dates as [|d rest IH]; intros bs; simpl.
  - exists []. rewrite app_nil_r. auto.
  - destruct (IH (bs ++ [with_id (with_date base d) (nextId bs)]))
      as (created & -> & Hdates & Hall).
    eexists. split; [|split].
    + rewrite <- app_assoc. simpl. reflexivity.
    + simpl. rewrite Hdates. reflexivity.
    + constructor; [reflexivity | exact Hall].
Qed.

Lemma guards_inr session bookingData u roomId s e d :
  guards session bookingData = inr (u, roomId, s, e, d) ->
  session = Some u
  /\ BookingData.room bookingData = Some roomId
  /\ BookingData.startTime bookingData = Some s
  /\ BookingData.endTime bookingData = Some e
  /\ BookingData.date bookingData = Some d
  /\ outsideHours s e = false
  /\ s < e.
Proof.
  unfold guards, returnIf.
  destruct session as [u'|]; [|discriminate].
  destruct (BookingData.room bookingData); [|discriminate].
  destruct (BookingData.startTime bookingData); [|discriminate].
  destruct (BookingData.endTime bookingData); [|discriminate].
  destruct (BookingData.date bookingData); [|discriminate].
  destruct (String.eqb _ _); simpl; [discriminate|].
  destruct (outsideHours _ _) eqn:Hout; simpl; [discriminate|].
  destruct (_ <=? _) eqn:Hle; simpl; [discriminate|].
  intros [= <- <- <- <- <-]. apply Z.leb_gt in Hle. auto 10.
Qed.

Lemma notifyAndRespond_Success db st rt endDate created db' code created' :
  notifyAndRespond db st rt endDate created = (db', Success code created') ->
  db' = db /\ code = 201 /\ created' = created.
Proof.
  unfold notifyAndRespond.
  destruct st; try (intros [= <- <- <-]; auto).
  destruct (adminUsers db); [intros [= <- <- <-]; auto|].
  destruct rt, endDate, created; try discriminate; intros [= <- <- <-]; auto.
Qed.

Lemma occurrences_In step d endDate x :
  0 < step ->
  In x (occurrences step d endDate) <->
  exists k : nat, x = addDays d (step * Z.of_nat k) /\ x <= endDate.
Proof.
  intros Hstep. unfold occurrences.
  rewrite (whileLe_closed step Hstep _ _ _ eq_refl), in_map_iff.
  assert (Hpos : 0 < step * MS_PER_DAY) by (unfold MS_PER_DAY; lia).
  unfold leFuel, addDays. split.
  - intros (k & <- & Hk). apply in_seq in Hk. exists k. split; [reflexivity|].
    destruct (Z_lt_le_dec (endDate - d) 0) as [Hneg|Hnn].
    { assert ((endDate - d) / (step * MS_PER_DAY) < 0)
        by (apply Z.div_lt_upper_bound; lia). lia. }
    assert (Hq : Z.of_nat k <= (endDate - d) / (step * MS_PER_DAY)) by lia.
    pose proof (Z.mul_div_le (endDate - d) (step * MS_PER_DAY) Hpos) as Hm.
    nia.
  - intros (k & -> & Hk). exists k. split; [reflexivity|].
    apply in_seq. split; [lia|]. simpl.
    assert (Hq : Z.of_nat k <= (endDate - d) / (step * MS_PER_DAY)).
    { apply Z.div_le_lower_bound; [exact Hpos|]. nia. }
    lia.
Qed.

End UserRouteFacts.

(** X14: [POST] of the user route writes on success only.  Under any
    message answer the database is the one it was given.  A success answer
    is 201 and its bookings are appended to the collection: one for each
    date the request asks for, in order, each in the requested room, in the
    caller's name, with the start and end of the request (start before
    end), approved when the caller is an admin and pending otherwise, and
    all with one group id, which a request that does not repeat lacks. *)
Theorem user_post_appends_or_leaves :
  forall db session bookingData,
    match UserBookings.POST db session bookingData with
    | (db', Json _ _) => db' = db
    | (db', Success code created) =>
        code = 201
        /\ db' = set_bookings db (bookings db ++ created)
        /\ exists u roomId s e d,
             UserBookings.guards session bookingData = inr (u, roomId, s, e, d)
             /\ map date created = UserBookings.requestedDates bookingData d
             /\ Forall (fun b =>
                          room b = roomId /\ user b = id u
                          /\ status b = statusFor u
                          /\ startTime b = s /\ endTime b = e /\ s < e
                          /\ groupId b =
                               match UserBookings.BookingData.repeatType bookingData with
                               | UserBookings.none => None
                               | _ => Some (nextId (bookings db))
                               end) created
    end.
Proof.
  intros db session bookingData.
  destruct (UserBookings.POST db session bookingData) as [db' [code msg|code created]] eqn:H.
  - revert H. unfold UserBookings.POST.
    destruct (UserBookings.guards session bookingData)
      as [r|[[[[u roomId] s] e] d]]; [intros [= <- _]; reflexivity|].
    assert (Hn : forall db0 st rt endDate created,
               UserBookings.notifyAndRespond db0 st rt endDate created
               = (db', Json code msg) -> db' = db0).
    { intros db0 st rt endDate created H.
      apply (f_equal fst) in H. rewrite notifyAndRespond_db in H. auto. }
    assert (Hn0 : forall st rt endDate bs' created,
               UserBookings.notifyAndRespond (set_bookings db bs') st rt endDate
                 (created : list Booking) = (db', Json code msg) ->
               created <> [] -> rt = UserBookings.none \/ endDate <> None -> db' = db).
    { intros st rt endDate bs' created H Hne Hrt. exfalso. revert H.
      unfold UserBookings.notifyAndRespond.
      destruct st; try discriminate.
      destruct (adminUsers (set_bookings db bs')); [discriminate|].
      destruct rt, endDate, created; try discriminate; try congruence;
        destruct Hrt; congruence. }
    assert (Hrep : forall rt step endDate base,
               rt <> UserBookings.none ->
               UserBookings.repeating db roomId base rt step d endDate
               = (db', Json code msg) -> db' = db).
    { intros rt step endDate base Hrt. unfold UserBookings.repeating.
      destruct (UserBookings.checkDates _ _ _ _ _); [intros [= <- _]; reflexivity|].
      match goal with
      | |- context [UserBookings.createAll ?bs ?b ?dates] =>
          destruct (createAll_fields b dates bs) as (created & -> & Hdates & _)
      end.
      destruct created as [|c created].
      - rewrite app_nil_r, set_bookings_same. apply Hn.
      - intros H. exfalso. rewrite notifyAndRespond_created in H. discriminate. }
    destruct (UserBookings.BookingData.repeatType bookingData);
      destruct (UserBookings.BookingData.repeatEndDate bookingData) as [endDate|];
      try (apply Hrep; discriminate); try apply Hn.
    + destruct (fst (checkConflicts _ _ _ _ _)); [intros [= <- _]; reflexivity|].
      simpl. intros H. eapply Hn0; [exact H | discriminate | auto].
    + destruct (fst (checkConflicts _ _ _ _ _)); [intros [= <- _]; reflexivity|].
      simpl. intros H. eapply Hn0; [exact H | discriminate | auto].
  - revert H. unfold UserBookings.POST.
    destruct (UserBookings.guards session bookingData)
      as [r|[[[[u roomId] s] e] d]] eqn:Hg.
    { intros [= _ ->]. apply guards_status in Hg as (c & m & [=] & _). }
    destruct (guards_inr _ _ _ _ _ _ _ Hg) as (_ & _ & _ & _ & _ & _ & Hlt).
    unfold UserBookings.requestedDates.
    assert (Hrep : forall rt step endDate g,
               UserBookings.repeating db roomId
                 (mkBooking 0 roomId (id u)
                    (UserBookings.BookingData.title bookingData) d s e
                    (if isAdminRole (role u) then approved else pending) g)
                 rt step d endDate = (db', Success code created) ->
               code = 201 /\ db' = set_bookings db (bookings db ++ created)
               /\ map date created = UserBookings.occurrences step d endDate
               /\ Forall (fun b => room b = roomId /\ user b = id u
                                   /\ status b = statusFor u
                                   /\ startTime b = s /\ endTime b = e /\ s < e
                                   /\ groupId b = g) created).
    { intros rt step endDate g. unfold UserBookings.repeating.
      destruct (UserBookings.checkDates _ _ _ _ _); [discriminate|].
      match goal with
      | |- context [UserBookings.createAll ?bs ?b ?dates] =>
          destruct (createAll_fields b dates bs) as (cr & -> & Hdates & Hall)
      end.
      intros H. apply notifyAndRespond_Success in H as (-> & -> & ->).
      split; [reflexivity|]. split; [destruct db; reflexivity|].
      split; [exact Hdates|].
      eapply Forall_impl; [|exact Hall].
      intros b Hb. destruct b. simpl in Hb. injection Hb as -> -> -> -> -> -> ->.
      unfold statusFor. simpl. auto 10. }
    destruct (UserBookings.BookingData.repeatType bookingData);
      destruct (UserBookings.BookingData.repeatEndDate bookingData) as [endDate|].
    1,2: destruct (fst (checkConflicts _ _ _ _ _)); [discriminate|];
         simpl; intros H; apply notifyAndRespond_Success in H as (-> & -> & ->);
         (split; [reflexivity|]); (split; [destruct db; reflexivity|]);
         exists u, roomId, s, e, d; (split; [reflexivity|]); (split; [reflexivity|]);
         constructor; [unfold statusFor; simpl; auto 10 | constructor].
    1,3: intros H; destruct (Hrep _ _ _ _ H) as (-> & -> & Hdates & Hall);
         (split; [reflexivity|]); (split; [reflexivity|]);
         exists u, roomId, s, e, d; auto.
    1,2: intros H; apply notifyAndRespond_Success in H as (-> & -> & ->);
         (split; [reflexivity|]);
         (split; [rewrite app_nil_r, set_bookings_same; reflexivity|]);
         exists u, roomId, s, e, d; auto.
Qed.

(** X15: the dates of a weekly request of the user route are the request
    date and every seventh day after it up to the repeat end date: each
    falls on the weekday of the request date, lies between the request date
    and the end date, and is a whole number of weeks after the request
    date; and the request date itself is among them when it is not after
    the end date. *)
Theorem weekly_dates_keep_the_weekday :
  forall d endDate,
    (forall x,
        In x (UserBookings.occurrences 7 d endDate) ->
        getDay x = getDay d /\ d <= x <= endDate
        /\ exists k : nat, x = addWeeks d (Z.of_nat k))
    /\ (d <= endDate -> In d (UserBookings.occurrences 7 d endDate)).
Proof.
  intros d endDate. split.
  - intros x Hx. apply occurrences_In in Hx as (k & -> & Hle); [|lia].
    split; [date_arith|]. split; [unfold addDays, MS_PER_DAY in *; lia|].
    exists k. reflexivity.
  - intros Hle. apply occurrences_In; [lia|]. exists 0%nat.
    unfold addDays. split; lia.
Qed.

(** Mondays from 2024-01-01 until 2024-01-20: the 15th is one of them. *)
Lemma weekly_dates_keep_the_weekday_witness :
  (getDay (midnight (Scenario.jan 15)) = getDay (midnight (Scenario.jan 1))
   /\ midnight (Scenario.jan 1) <= midnight (Scenario.jan 15) <= midnight (Scenario.jan 20)
   /\ exists k : nat,
        midnight (Scenario.jan 15) = addWeeks (midnight (Scenario.jan 1)) (Z.of_nat k))
  /\ In (midnight (Scenario.jan 1))
        (UserBookings.occurrences 7 (midnight (Scenario.jan 1))
           (midnight (Scenario.jan 20))).
Proof.
  destruct (weekly_dates_keep_the_weekday (midnight (Scenario.jan 1))
              (midnight (Scenario.jan 20))) as [Hall Hfirst].
  split.
  - apply Hall. vm_compute. right. right. left. reflexivity.
  - apply Hfirst. vm_compute. discriminate.
Defined.

(** X16: the dates of a daily request of the user route are exactly the
    request date and the days after it, one day apart, that are not after
    the repeat end date: both ends of the range are kept. *)
Theorem daily_dates_cover_the_range :
  forall d endDate x,
    In x (UserBookings.occurrences 1 d endDate) <->
    exists k : nat, x = addDays d (Z.of_nat k) /\ x <= endDate.
Proof.
  intros d endDate x. rewrite occurrences_In by lia.
  split; intros (k & Hx & Hle); exists k; split; try exact Hle;
    rewrite Hx; f_equal; lia.
Qed.

(** X17: the user route never looks at the rooms collection: with the same
    bookings and admins, it gives the same answer and the same bookings
    whatever rooms exist, so it also books a room that does not exist. *)
Theorem user_route_ignores_rooms :
  forall bs rooms1 rooms2 admins session bookingData,
    snd (UserBookings.POST (mkDb bs rooms1 admins) session bookingData) =
      snd (UserBookings.POST (mkDb bs rooms2 admins) session bookingData)
    /\ bookings (fst (UserBookings.POST (mkDb bs rooms1 admins) session bookingData)) =
         bookings (fst (UserBookings.POST (mkDb bs rooms2 admins) session bookingData)).
Proof.
  intros bs rooms1 rooms2 admins session bookingData.
  unfold UserBookings.POST.
  destruct (UserBookings.guards session bookingData)
    as [r|[[[[u roomId] s] e] d]]; [split; reflexivity|].
  assert (Hn : forall bs' st rt endDate created,
             snd (UserBookings.notifyAndRespond (mkDb bs' rooms1 admins) st rt endDate created)
             = snd (UserBookings.notifyAndRespond (mkDb bs' rooms2 admins) st rt endDate created)
             /\ bookings (fst (UserBookings.notifyAndRespond (mkDb bs' rooms1 admins)
                                 st rt endDate created))
                = bookings (fst (UserBookings.notifyAndRespond (mkDb bs' rooms2 admins)
                                   st rt endDate created))).
  { intros bs' st rt endDate created. rewrite !notifyAndRespond_db.
    split; [|reflexivity].
    unfold UserBookings.notifyAndRespond. simpl.
    destruct st; try reflexivity.
    destruct admins; [reflexivity|].
    destruct rt, endDate, created; reflexivity. }
  assert (Hrep : forall base rt step endDate,
             snd (UserBookings.repeating (mkDb bs rooms1 admins) roomId base rt step d endDate)
             = snd (UserBookings.repeating (mkDb bs rooms2 admins) roomId base rt step d endDate)
             /\ bookings (fst (UserBookings.repeating (mkDb bs rooms1 admins) roomId base
                                 rt step d endDate))
                = bookings (fst (UserBookings.repeating (mkDb bs rooms2 admins) roomId base
                                   rt step d endDate))).
  { intros base rt step endDate. unfold UserBookings.repeating. simpl.
    destruct (UserBookings.checkDates _ _ _ _ _); [split; reflexivity|].
    match goal with
    | |- context [UserBookings.createAll ?b0 ?b1 ?b2] =>
        destruct (UserBookings.createAll b0 b1 b2) as [bs' created]
    end.
    apply Hn. }
  cbn [bookings].
  destruct (UserBookings.BookingData.repeatType bookingData);
    destruct (UserBookings.BookingData.repeatEndDate bookingData) as [endDate|];
    try apply Hrep; try apply Hn.
  - destruct (fst (checkConflicts _ _ _ _ _)); [split; reflexivity|].
    unfold UserBookings.create, set_bookings. cbn [rooms adminUsers]. apply Hn.
  - destruct (fst (checkConflicts _ _ _ _ _)); [split; reflexivity|].
    unfold UserBookings.create, set_bookings. cbn [rooms adminUsers]. apply Hn.
Qed.

(** X18: the admin route, in contrast, refuses a room that is not in the
    rooms collection: a request of an admin that passes the checks of its
    fields and times is answered 404 "Room not found", and nothing is
    written. *)
Theorem admin_route_refuses_unknown_room :
  forall db session body roomId d,
    isAdminSession session ->
    AdminBookings.BookingRequest.room body = Some roomId ->
    AdminBookings.BookingRequest.date body = Some d ->
    AdminBookings.BookingRequest.title body <> EmptyString ->
    AdminBookings.validateTimes body = inr tt ->
    ~ In roomId (rooms db) ->
    AdminBookings.POST db session body = (db, Json 404 [Lit "Room not found"]).
Proof.
  intros db session body roomId d (u & -> & Hrole) Hroom Hd Htitle Htimes Hno.
  unfold AdminBookings.POST, AdminBookings.bookingsToCreate.
  rewrite Hrole, Hroom, Hd. simpl.
  apply String.eqb_neq in Htitle. rewrite Htitle. simpl.
  rewrite Htimes. simpl.
  assert (Hex : existsb (Nat.eqb roomId) (rooms db) = false).
  { destruct (existsb _ _) eqn:Hex; [|reflexivity].
    apply existsb_exists in Hex as (x & Hin & Hx).
    apply Nat.eqb_eq in Hx. subst. contradiction. }
  rewrite Hex. reflexivity.
Qed.

Lemma admin_route_refuses_unknown_room_witness :
  AdminBookings.POST (mkDb [] [] [1%nat]) Scenario.adminSession Scenario.single
  = (mkDb [] [] [1%nat], Json 404 [Lit "Room not found"]).
Proof.
  apply (admin_route_refuses_unknown_room (mkDb [] [] [1%nat]) Scenario.adminSession
           Scenario.single 7%nat (midnight (Scenario.jan 1))).
  - exists {| id := 1; role := admin |}. split; reflexivity.
  - reflexivity.
  - reflexivity.
  - discriminate.
  - vm_compute. reflexivity.
  - intros [].
Defined.

(** * The availability probe *)

Section ProbeFacts.

Import CheckAvailability.

Lemma every_seventh n :
  filter (fun k => (k mod 7 =? 0)%nat) (seq 0 n) =
    map (fun j => (7 * j)%nat) (seq 0 ((n + 6) / 7)).
Proof.
  induction n as [|n IH]; [reflexivity|].
  rewrite seq_S, filter_app, IH.
  pose proof (Nat.div_mod_eq n 7) as Hn.
  pose proof (Nat.mod_upper_bound n 7) as Hr.
  cbn [filter Nat.add].
  destruct (n mod 7 =? 0)%nat eqn:Hm.
  - apply Nat.eqb_eq in Hm.
    assert (H1 : ((n + 6) / 7 = n / 7)%nat).
    { symmetry. apply (Nat.div_unique (n + 6) 7 (n / 7) 6); lia. }
    assert (H2 : (S (n + 6) / 7 = S (n / 7))%nat).
    { symmetry. apply (Nat.div_unique (S (n + 6)) 7 (S (n / 7)) 0); lia. }
    rewrite H2, H1, seq_S, map_app. cbn [map Nat.add]. f_equal. f_equal. lia.
  - apply Nat.eqb_neq in Hm.
    assert (H1 : ((n + 6) / 7 = S (n / 7))%nat).
    { symmetry. apply (Nat.div_unique (n + 6) 7 (S (n / 7)) (n mod 7 - 1)); lia. }
    assert (H2 : (S (n + 6) / 7 = S (n / 7))%nat).
    { symmetry. apply (Nat.div_unique (S (n + 6)) 7 (S (n / 7)) (n mod 7)); lia. }
    rewrite H2, H1, app_nil_r. reflexivity.
Qed.

Lemma filter_map_comm {A B} (p : B -> bool) (f : A -> B) (l : list A) :
  filter p (map f l) = map f (filter (fun x => p (f x)) l).
Proof.
  induction l as [|a rest IH]; simpl; [reflexivity|].
  destruct (p (f a)); simpl; rewrite IH; reflexivity.
Qed.

Lemma same_weekday d k :
  (getDay (addDays d (1 * Z.of_nat k)) =? getDay d) = (k mod 7 =? 0)%nat.
Proof.
  apply eq_true_iff_eq. rewrite Z.eqb_eq, Nat.eqb_eq.
  assert (Hk : Z.of_nat (k mod 7) = Z.of_nat k mod 7) by apply Nat2Z.inj_mod.
  split; intros H.
  - apply Nat2Z.inj. rewrite Hk. revert H. clear Hk. date_arith.
  - apply (f_equal Z.of_nat) in H. rewrite Hk in H. revert H. clear Hk. date_arith.
Qed.

Lemma weekly_fuel d endDate :
  ((leFuel 1 d endDate + 6) / 7)%nat = leFuel 7 d endDate.
Proof.
  unfold leFuel. rewrite Z.mul_1_l.
  assert (HD : 0 < MS_PER_DAY) by (unfold MS_PER_DAY; lia).
  destruct (Z_lt_le_dec (endDate - d) 0) as [Hneg|Hnn].
  - assert ((endDate - d) / MS_PER_DAY < 0) by (apply Z.div_lt_upper_bound; lia).
    assert ((endDate - d) / (7 * MS_PER_DAY) < 0) by (apply Z.div_lt_upper_bound; lia).
    replace (Z.to_nat ((endDate - d) / MS_PER_DAY + 1)) with 0%nat by lia.
    replace (Z.to_nat ((endDate - d) / (7 * MS_PER_DAY) + 1)) with 0%nat by lia.
    reflexivity.
  - assert (Hq : 0 <= (endDate - d) / MS_PER_DAY) by (apply Z.div_pos; lia).
    replace (7 * MS_PER_DAY) with (MS_PER_DAY * 7) by ring.
    rewrite <- Z.div_div by lia.
    set (q := (endDate - d) / MS_PER_DAY) in *.
    assert (0 <= q / 7) by (apply Z.div_pos; lia).
    replace (Z.to_nat (q + 1)) with (Z.to_nat q + 1)%nat by lia.
    replace (Z.to_nat (q / 7 + 1)) with (Z.to_nat (q / 7) + 1)%nat by lia.
    replace (Z.to_nat q + 1 + 6)%nat with (Z.to_nat q + 1 * 7)%nat by lia.
    rewrite Nat.div_add by lia.
    rewrite Z2Nat.inj_div by lia. reflexivity.
Qed.

(** Stepping a day at a time and keeping the weekday of the first date is
    stepping a week at a time. *)
Lemma days_weekly d endDate :
  filter (fun x => getDay x =? getDay d) (days d endDate) =
    UserBookings.occurrences 7 d endDate.
Proof.
  unfold days, UserBookings.occurrences.
  rewrite (whileLe_closed 1 Z.lt_0_1 _ _ _ eq_refl).
  rewrite (whileLe_closed 7 ltac:(lia) _ _ _ eq_refl).
  rewrite filter_map_comm.
  rewrite (filter_ext _ (fun k => (k mod 7 =? 0)%nat)) by (intros k; apply same_weekday).
  rewrite every_seventh, map_map, weekly_fuel.
  apply map_ext. intros j. f_equal. lia.
Qed.

Lemma scan_closed bs roomId keep dates s e :
  scan bs roomId keep dates s e =
    map startOfDay (filter (fun d => keep d && hasConflict bs roomId s e d) dates).
Proof.
  induction dates as [|d rest IH]; [reflexivity|].
  cbn [scan filter]. unfold hasConflict at 1.
  destruct (keep d); simpl; [|exact IH].
  destruct (find _ bs) as [c|] eqn:Hfind; simpl; [|exact IH].
  apply find_some in Hfind as [_ Hq]. apply conflictQuery_spec in Hq.
  rewrite IH. f_equal. tauto.
Qed.

Lemma filter_andb {A} (p q : A -> bool) (l : list A) :
  filter (fun x => p x && q x) l = filter q (filter p l).
Proof.
  induction l as [|a rest IH]; simpl; [reflexivity|].
  destruct (p a); simpl; [destruct (q a)|]; rewrite IH; reflexivity.
Qed.

Lemma filter_true {A} (q : A -> bool) (l : list A) :
  filter (fun x => true && q x) l = filter q l.
Proof. apply filter_ext. reflexivity. Qed.

(** The probe in closed form, on the dates of the booking route. *)
Lemma probe_closed db bookingData roomId s e d :
  UserBookings.BookingData.room bookingData = Some roomId ->
  UserBookings.BookingData.startTime bookingData = Some s ->
  UserBookings.BookingData.endTime bookingData = Some e ->
  UserBookings.BookingData.date bookingData = Some d ->
  POST db (ofBookingData bookingData) =
    Answer (map startOfDay
              (filter (hasConflict (bookings db) roomId s e)
                      (UserBookings.requestedDates bookingData d))).
Proof.
  intros Hr Hs He Hd. unfold POST, ofBookingData, UserBookings.requestedDates.
  cbn [Body.room Body.startTime Body.endTime Body.date Body.repeatType
       Body.repeatEndDate].
  rewrite Hr, Hs, He, Hd.
  destruct (UserBookings.BookingData.repeatType bookingData);
    destruct (UserBookings.BookingData.repeatEndDate bookingData) as [endDate|];
    try reflexivity.
  - rewrite scan_closed, filter_true. reflexivity.
  - rewrite scan_closed, filter_true. reflexivity.
  - rewrite scan_closed, filter_true. reflexivity.
  - rewrite scan_closed, filter_andb, days_weekly. reflexivity.
Qed.

Lemma checkDates_hasConflict bs roomId dates s e :
  UserBookings.checkDates bs roomId dates s e = None <->
  filter (hasConflict bs roomId s e) dates = [].
Proof.
  induction dates as [|d rest IH]; [simpl; tauto|].
  cbn [UserBookings.checkDates filter]. unfold hasConflict at 1.
  destruct (fst (checkConflicts bs roomId d s e)); [split; discriminate | exact IH].
Qed.

End ProbeFacts.

(** X19: the availability probe, in closed form.  Sent with the fields of
    a booking request, it visits the dates the user route visits for that
    request, in the same order (for a weekly request its scan of every day
    with a weekday test lands on the dates the booking route reaches a week
    at a time), and answers, for each date that meets a conflict, the
    midnight of that date. *)
Theorem probe_reports_each_conflicting_date :
  forall db bookingData roomId s e d,
    UserBookings.BookingData.room bookingData = Some roomId ->
    UserBookings.BookingData.startTime bookingData = Some s ->
    UserBookings.BookingData.endTime bookingData = Some e ->
    UserBookings.BookingData.date bookingData = Some d ->
    CheckAvailability.POST db (CheckAvailability.ofBookingData bookingData) =
      Answer (map startOfDay
                (filter (hasConflict (bookings db) roomId s e)
                        (UserBookings.requestedDates bookingData d)))
    /\ (forall endDate,
          filter (fun x => getDay x =? getDay d) (CheckAvailability.days d endDate) =
            UserBookings.occurrences 7 d endDate).
Proof.
  intros db bookingData roomId s e d Hr Hs He Hd. split.
  - apply probe_closed; assumption.
  - intros endDate. apply days_weekly.
Qed.

(** With room 7 taken on 2024-01-03, a daily probe from 2024-01-01 until
    2024-01-05 reports that day. *)
Lemma probe_reports_each_conflicting_date_witness :
  CheckAvailability.POST Scenario.busyDb
    (CheckAvailability.ofBookingData
       (Scenario.userRequest (Scenario.jan 1) 9 0 10 0 UserBookings.daily
          (Some (midnight (Scenario.jan 5)))))
  = Answer (map startOfDay
              (filter (hasConflict (bookings Scenario.busyDb) 7
                         (at_ (Scenario.jan 1) 9 0) (at_ (Scenario.jan 1) 10 0))
                 (UserBookings.requestedDates
                    (Scenario.userRequest (Scenario.jan 1) 9 0 10 0 UserBookings.daily
                       (Some (midnight (Scenario.jan 5))))
                    (midnight (Scenario.jan 1)))))
  /\ (forall endDate,
        filter (fun x => getDay x =? getDay (midnight (Scenario.jan 1)))
               (CheckAvailability.days (midnight (Scenario.jan 1)) endDate) =
          UserBookings.occurrences 7 (midnight (Scenario.jan 1)) endDate).
Proof.
  apply (probe_reports_each_conflicting_date Scenario.busyDb
           (Scenario.userRequest (Scenario.jan 1) 9 0 10 0 UserBookings.daily
              (Some (midnight (Scenario.jan 5))))
           7%nat (at_ (Scenario.jan 1) 9 0) (at_ (Scenario.jan 1) 10 0)
           (midnight (Scenario.jan 1))); reflexivity.
Defined.

(** X20: the probe and the booking route agree.  For a request that passes
    the guards of the user route, the route answers 409 exactly when the
    probe sent with the same fields reports at least one date. *)
Theorem probe_agrees_with_booking_route :
  forall db session bookingData u roomId s e d,
    UserBookings.guards session bookingData = inr (u, roomId, s, e, d) ->
    (exists msg, UserBookings.POST db session bookingData = (db, Json 409 msg))
    <->
    (exists first others,
        CheckAvailability.POST db (CheckAvailability.ofBookingData bookingData) =
          Answer (first :: others)).
Proof.
  intros db session bookingData u roomId s e d Hg.
  destruct (guards_inr _ _ _ _ _ _ _ Hg) as (_ & Hr & Hs & He & Hd & _).
  rewrite (probe_closed db bookingData roomId s e d Hr Hs He Hd).
  assert (Hprobe :
    (exists first others,
        @Answer (list Date)
          (map startOfDay
             (filter (hasConflict (bookings db) roomId s e)
                (UserBookings.requestedDates bookingData d))) =
        Answer (first :: others))
    <-> filter (hasConflict (bookings db) roomId s e)
          (UserBookings.requestedDates bookingData d) <> []).
  { split.
    - intros (f & o & [= H]) Hnil. rewrite Hnil in H. discriminate.
    - intros Hne.
      destruct (filter _ _) as [|x rest]; [contradiction|].
      eexists _, _. reflexivity. }
  rewrite Hprobe. clear Hprobe.
  unfold UserBookings.POST. rewrite Hg. unfold UserBookings.requestedDates.
  assert (Hnotify : forall db0 st rt endDate created msg,
             UserBookings.notifyAndRespond db0 st rt endDate created
             <> (db, Json 409 msg)).
  { intros db0 st rt endDate created msg H.
    apply (f_equal snd) in H. simpl in H.
    apply notifyAndRespond_status in H. lia. }
  assert (Hrep : forall rt step endDate base,
             startTime base = s -> endTime base = e ->
             (exists msg,
                 UserBookings.repeating db roomId base rt step d endDate
                 = (db, Json 409 msg))
             <-> filter (hasConflict (bookings db) roomId s e)
                   (UserBookings.occurrences step d endDate) <> []).
  { intros rt step endDate base <- <-. unfold UserBookings.repeating.
    rewrite <- checkDates_hasConflict.
    destruct (UserBookings.checkDates _ _ _ _ _) as [c|].
    - split; [discriminate|]. intros _. eexists. reflexivity.
    - match goal with
      | |- context [UserBookings.createAll ?b0 ?b1 ?b2] =>
          destruct (UserBookings.createAll b0 b1 b2) as [bs' created]
      end.
      split; [|congruence].
      intros [msg H]. exfalso. exact (Hnotify _ _ _ _ _ _ H). }
  assert (Hsingle :
    forall rt endDate status_ base,
      (exists msg,
          match fst (checkConflicts (bookings db) roomId d s e) with
          | Some _ => (db, UserBookings.slotTaken)
          | None =>
              let '(bs', booking) := UserBookings.create (bookings db) base in
              UserBookings.notifyAndRespond (set_bookings db bs') status_ rt
                endDate [booking]
          end = (db, Json 409 msg))
      <-> filter (hasConflict (bookings db) roomId s e) [d] <> []).
  { intros rt endDate status_ base. cbn [filter]. unfold hasConflict.
    destruct (fst (checkConflicts (bookings db) roomId d s e)).
    - split; [discriminate|]. intros _. eexists. reflexivity.
    - split; [|congruence]. simpl.
      intros [msg H]. exfalso. exact (Hnotify _ _ _ _ _ _ H). }
  destruct (UserBookings.BookingData.repeatType bookingData);
    destruct (UserBookings.BookingData.repeatEndDate bookingData) as [endDate|];
    try (apply Hrep; reflexivity); try apply Hsingle.
  - simpl. split; [|congruence].
    intros [msg H]. exfalso. exact (Hnotify _ _ _ _ _ _ H).
  - simpl. split; [|congruence].
    intros [msg H]. exfalso. exact (Hnotify _ _ _ _ _ _ H).
Qed.

(** With room 7 taken on 2024-01-03, a daily request from 2024-01-01
    until 2024-01-05 meets the conflict on both sides: the booking route
    answers 409 and the probe reports that day. *)
Lemma probe_agrees_with_booking_route_witness :
  ((exists msg,
       UserBookings.POST Scenario.busyDb Scenario.professorSession
         (Scenario.userRequest (Scenario.jan 1) 9 0 10 0 UserBookings.daily
            (Some (midnight (Scenario.jan 5))))
       = (Scenario.busyDb, Json 409 msg))
   <->
   (exists first others,
       CheckAvailability.POST Scenario.busyDb
         (CheckAvailability.ofBookingData
            (Scenario.userRequest (Scenario.jan 1) 9 0 10 0 UserBookings.daily
               (Some (midnight (Scenario.jan 5)))))
       = Answer (first :: others)))
  /\ UserBookings.POST Scenario.busyDb Scenario.professorSession
       (Scenario.userRequest (Scenario.jan 1) 9 0 10 0 UserBookings.daily
          (Some (midnight (Scenario.jan 5))))
     = (Scenario.busyDb, UserBookings.conflictOn Scenario.taken)
  /\ CheckAvailability.POST Scenario.busyDb
       (CheckAvailability.ofBookingData
          (Scenario.userRequest (Scenario.jan 1) 9 0 10 0 UserBookings.daily
             (Some (midnight (Scenario.jan 5)))))
     = Answer [midnight (Scenario.jan 3)].
Proof.
  split; [|split].
  - apply (probe_agrees_with_booking_route Scenario.busyDb Scenario.professorSession
             (Scenario.userRequest (Scenario.jan 1) 9 0 10 0 UserBookings.daily
                (Some (midnight (Scenario.jan 5))))
             {| id := 2; role := professor |} 7%nat
             (at_ (Scenario.jan 1) 9 0) (at_ (Scenario.jan 1) 10 0)
             (midnight (Scenario.jan 1))).
    vm_compute. reflexivity.
  - vm_compute. reflexivity.
  - vm_compute. reflexivity.
Defined.

(** * Listings: the day view of a room and the caller's bookings *)

Section SortFacts.

Variable le : Booking -> Booking -> bool.
Hypothesis le_total : forall a b, le a b = true \/ le b a = true.
Hypothesis le_trans : forall a b c, le a b = true -> le b c = true -> le a c = true.

Lemma insertBy_perm b l : Permutation (insertBy le b l) (b :: l).
Proof.
  induction l as [|x rest IH]; simpl; [apply Permutation_refl|].
  destruct (le b x); [apply Permutation_refl|].
  eapply Permutation_trans; [apply perm_skip; exact IH | apply perm_swap].
Qed.

Lemma sortBy_perm l : Permutation (sortBy le l) l.
Proof.
  induction l as [|x rest IH]; simpl; [apply Permutation_refl|].
  eapply Permutation_trans; [apply insertBy_perm | apply perm_skip; exact IH].
Qed.

Lemma insertBy_sorted b l :
  StronglySorted (fun x y => le x y = true) l ->
  StronglySorted (fun x y => le x y = true) (insertBy le b l).
Proof.
  induction 1 as [|x rest Hrest IH Hx]; simpl.
  - constructor; constructor.
  - destruct (le b x) eqn:Hbx.
    + constructor; [constructor; assumption|].
      constructor; [exact Hbx|].
      eapply Forall_impl; [|exact Hx]. intros y Hy. exact (le_trans _ _ _ Hbx Hy).
    + constructor; [exact IH|].
      apply Forall_forall. intros y Hy.
      apply (Permutation_in _ (insertBy_perm b rest)) in Hy.
      destruct Hy as [<-|Hy].
      * destruct (le_total b x) as [H|H]; [congruence | exact H].
      * rewrite Forall_forall in Hx. exact (Hx y Hy).
Qed.

Lemma sortBy_sorted l : StronglySorted (fun x y => le x y = true) (sortBy le l).
Proof.
  induction l as [|x rest IH]; simpl; [constructor | apply insertBy_sorted; exact IH].
Qed.

Lemma sortBy_In l b : In b (sortBy le l) <-> In b l.
Proof.
  split; apply Permutation_in; [apply sortBy_perm | apply Permutation_sym, sortBy_perm].
Qed.

End SortFacts.

Section OrderFacts.

Lemma byStartTime_total a b : byStartTime a b = true \/ byStartTime b a = true.
Proof. unfold byStartTime. rewrite !Z.leb_le. lia. Qed.

Lemma byStartTime_trans a b c :
  byStartTime a b = true -> byStartTime b c = true -> byStartTime a c = true.
Proof. unfold byStartTime. rewrite !Z.leb_le. lia. Qed.

Lemma byDateThenStartTime_spec a b :
  byDateThenStartTime a b = true <->
  date a < date b \/ (date a = date b /\ startTime a <= startTime b).
Proof.
  unfold byDateThenStartTime.
  rewrite orb_true_iff, andb_true_iff, Z.ltb_lt, Z.eqb_eq, Z.leb_le. tauto.
Qed.

Lemma byDateThenStartTime_total a b :
  byDateThenStartTime a b = true \/ byDateThenStartTime b a = true.
Proof. rewrite !byDateThenStartTime_spec. lia. Qed.

Lemma byDateThenStartTime_trans a b c :
  byDateThenStartTime a b = true -> byDateThenStartTime b c = true ->
  byDateThenStartTime a c = true.
Proof. rewrite !byDateThenStartTime_spec. lia. Qed.

Lemma on_the_day dateObj x :
  (startOfDay dateObj <=? x) && (x <=? endOfDay dateObj) =
    (dayNumber x =? dayNumber dateObj).
Proof.
  apply eq_true_iff_eq.
  rewrite andb_true_iff, !Z.leb_le, Z.eqb_eq. unfold endOfDay.
  split; intros H; revert H; date_arith.
Qed.

Lemma NoDoubleBooking_filter (p : Booking -> bool) bs :
  NoDoubleBooking bs -> NoDoubleBooking (filter p bs).
Proof.
  unfold NoDoubleBooking. induction 1 as [|a rest Ha Hrest IH]; simpl; [constructor|].
  destruct (p a); [|exact IH].
  constructor; [|exact IH].
  rewrite Forall_forall in *. intros b Hb. apply filter_In in Hb as [Hb _].
  exact (Ha b Hb).
Qed.

End OrderFacts.

(** X21: the day view of a room.  For a signed-in caller and a date, the
    answer is 404 only for a room number that no room has; otherwise it
    lists, in ascending order of start time, exactly the bookings of the
    room (the one with the id, or the one the number belongs to) whose date
    falls on the calendar day of the date asked for, whatever their
    status. *)
Theorem day_view_lists_the_day :
  forall rooms bs u param dateObj,
    match Rooms.bookingsOn rooms bs (Some u) param (Some dateObj) with
    | Refuse code _ =>
        code = 404
        /\ exists n, param = Rooms.ByNumber n /\ Rooms.findByNumber rooms n = None
    | Answer listed =>
        exists i,
          (param = Rooms.ById i
           \/ exists n r, param = Rooms.ByNumber n
                          /\ Rooms.findByNumber rooms n = Some r
                          /\ Rooms.roomId r = i)
          /\ StronglySorted (fun a b => byStartTime a b = true) listed
          /\ Permutation listed
               (filter (fun b => Nat.eqb (room b) i
                                 && (dayNumber (date b) =? dayNumber dateObj)) bs)
          /\ (forall b,
                 In b listed <->
                 In b bs /\ room b = i /\ dayNumber (date b) = dayNumber dateObj)
    end.
Proof.
  intros rooms bs u param dateObj. unfold Rooms.bookingsOn.
  assert (Hlist : forall i,
    StronglySorted (fun a b => byStartTime a b = true)
      (sortBy byStartTime
         (filter (fun b => Nat.eqb (room b) i && (startOfDay dateObj <=? date b)
                           && (date b <=? endOfDay dateObj)) bs))
    /\ Permutation
         (sortBy byStartTime
            (filter (fun b => Nat.eqb (room b) i && (startOfDay dateObj <=? date b)
                              && (date b <=? endOfDay dateObj)) bs))
         (filter (fun b => Nat.eqb (room b) i
                           && (dayNumber (date b) =? dayNumber dateObj)) bs)
    /\ (forall b,
           In b (sortBy byStartTime
                   (filter (fun b => Nat.eqb (room b) i && (startOfDay dateObj <=? date b)
                                     && (date b <=? endOfDay dateObj)) bs)) <->
           In b bs /\ room b = i /\ dayNumber (date b) = dayNumber dateObj)).
  { intros i.
    assert (Hext : filter (fun b => Nat.eqb (room b) i && (startOfDay dateObj <=? date b)
                                    && (date b <=? endOfDay dateObj)) bs
                   = filter (fun b => Nat.eqb (room b) i
                                      && (dayNumber (date b) =? dayNumber dateObj)) bs).
    { apply filter_ext. intros b. rewrite <- andb_assoc, on_the_day. reflexivity. }
    rewrite Hext. split; [|split].
    - apply sortBy_sorted; [apply byStartTime_total | apply byStartTime_trans].
    - apply sortBy_perm.
    - intros b. rewrite sortBy_In, filter_In, andb_true_iff, Nat.eqb_eq, Z.eqb_eq.
      tauto. }
  destruct param as [i|n].
  - exists i. split; [left; reflexivity | apply Hlist].
  - destruct (Rooms.findByNumber rooms n) as [r|] eqn:Hfind.
    + exists (Rooms.roomId r). split; [|apply Hlist].
      right. exists n, r. auto.
    + split; [reflexivity|]. exists n. auto.
Qed.

(** X22: what can block a request shows in the day view.  A booking that
    [checkConflicts] returns for a room and a date is listed by the day
    view of that room for the same date. *)
Theorem day_view_shows_the_blocker :
  forall rooms bs u roomId d s e conflict,
    fst (checkConflicts bs roomId d s e) = Some conflict ->
    exists listed,
      Rooms.bookingsOn rooms bs (Some u) (Rooms.ById roomId) (Some d) = Answer listed
      /\ In conflict listed.
Proof.
  intros rooms bs u roomId d s e conflict H.
  unfold checkConflicts in H. simpl in H.
  apply find_some in H as [Hin Hq]. apply conflictQuery_spec in Hq as (Hr & Hd & _).
  eexists. split; [reflexivity|].
  apply sortBy_In. apply filter_In. split; [exact Hin|].
  rewrite <- andb_assoc, on_the_day, Hr, Hd, Nat.eqb_refl. simpl.
  apply Z.eqb_eq. apply dayNumber_startOfDay.
Qed.

Lemma day_view_shows_the_blocker_witness :
  exists listed,
    Rooms.bookingsOn [] (bookings Scenario.busyDb) (Some {| id := 2; role := professor |})
      (Rooms.ById 7) (Some (at_ (Scenario.jan 3) 15 0)) = Answer listed
    /\ In Scenario.taken listed.
Proof.
  apply (day_view_shows_the_blocker [] (bookings Scenario.busyDb)
           {| id := 2; role := professor |} 7%nat (at_ (Scenario.jan 3) 15 0)
           (at_ 0 9 30) (at_ 0 10 30) Scenario.taken).
  vm_compute. reflexivity.
Defined.

(** X23: the caller's own bookings.  Without a session the answer is 401.
    With one, the listing is in ascending order of date and then of start
    time, and holds exactly the bookings whose user is the caller, narrowed
    to one status when the status asked for is one of pending, approved and
    rejected; any other status value is ignored.  No booking of another
    user is ever listed. *)
Theorem my_bookings_lists_only_the_callers :
  forall bs status_,
    MyBookings.GET bs None status_ = Refuse 401 [Lit "Unauthorized"]
    /\ forall u,
         exists listed,
           MyBookings.GET bs (Some u) status_ = Answer listed
           /\ StronglySorted (fun a b => byDateThenStartTime a b = true) listed
           /\ (forall b, In b listed -> user b = id u)
           /\ (forall b,
                  In b listed <->
                  In b bs /\ user b = id u
                  /\ match status_ with
                     | Some s =>
                         match MyBookings.parseStatus s with
                         | Some st => status b = st
                         | None => True
                         end
                     | None => True
                     end).
Proof.
  intros bs status_. split; [reflexivity|]. intros u.
  eexists. split; [reflexivity|].
  assert (Heqb : forall a b, MyBookings.Status_eqb a b = true <-> a = b).
  { intros [] []; simpl; split; congruence. }
  split; [|split].
  - apply sortBy_sorted;
      [apply byDateThenStartTime_total | apply byDateThenStartTime_trans].
  - intros b Hb. apply sortBy_In in Hb. apply filter_In in Hb as [_ Hb].
    apply andb_true_iff in Hb as [Hb _]. apply Nat.eqb_eq. exact Hb.
  - intros b. rewrite sortBy_In, filter_In, andb_true_iff, Nat.eqb_eq.
    destruct status_ as [s|]; [destruct (MyBookings.parseStatus s)|];
      try rewrite Heqb; intuition.
Qed.

(** X24: deleting a room.  A caller who is not an admin is answered 403,
    an unknown room 404, and nothing changes.  On success every booking of
    the room is gone, every other booking stays, in order, the number in
    the answer is the number of bookings removed, the room is taken out of
    the rooms, and a collection free of double bookings stays so. *)
Theorem room_delete_takes_its_bookings :
  forall rooms bs session param,
    match Rooms.DELETE rooms bs session param with
    | (rooms', bs', Refuse code _) =>
        rooms' = rooms /\ bs' = bs /\ (code = 403 \/ code = 404)
        /\ (notAdmin session -> code = 403)
    | (rooms', bs', Answer deleted) =>
        isAdminSession session
        /\ exists i r,
             Rooms.findRoom rooms i = Some r
             /\ rooms' = Rooms.deleteRoom rooms i
             /\ bs' = filter (fun b => negb (Nat.eqb (room b) i)) bs
             /\ (forall b, In b bs' -> room b <> i)
             /\ (deleted + List.length bs' = List.length bs)%nat
             /\ (NoDoubleBooking bs -> NoDoubleBooking bs')
    end.
Proof.
  intros rooms bs session param. unfold Rooms.DELETE.
  destruct session as [u|]; [|simpl; auto 6].
  destruct (role u) eqn:Hrole; simpl; [|repeat split; auto].
  assert (Hdel : forall i,
    match
      match Rooms.findRoom rooms i with
      | Some _ =>
          (Rooms.deleteRoom rooms i,
           filter (fun b => negb (Nat.eqb (room b) i)) bs,
           Answer (List.length bs
                   - List.length (filter (fun b => negb (Nat.eqb (room b) i)) bs))%nat)
      | None => (rooms, bs, @Rooms.roomNotFound nat)
      end
    with
    | (rooms', bs', Refuse code _) =>
        rooms' = rooms /\ bs' = bs /\ (code = 403 \/ code = 404)
        /\ (role u = professor -> code = 403)
    | (rooms', bs', Answer deleted) =>
        isAdminSession (Some u)
        /\ exists i r,
             Rooms.findRoom rooms i = Some r
             /\ rooms' = Rooms.deleteRoom rooms i
             /\ bs' = filter (fun b => negb (Nat.eqb (room b) i)) bs
             /\ (forall b, In b bs' -> room b <> i)
             /\ (deleted + List.length bs' = List.length bs)%nat
             /\ (NoDoubleBooking bs -> NoDoubleBooking bs')
    end).
  { intros i. destruct (Rooms.findRoom rooms i) as [r|] eqn:Hfind.
    - split; [exists u; auto|]. exists i, r.
      split; [exact Hfind|]. split; [reflexivity|]. split; [reflexivity|].
      split; [|split].
      + intros b Hb. apply filter_In in Hb as [_ Hb].
        apply negb_true_iff in Hb. apply Nat.eqb_neq. exact Hb.
      + pose proof (filter_length_le (fun b => negb (Nat.eqb (room b) i)) bs). lia.
      + apply NoDoubleBooking_filter.
    - simpl. repeat split; auto. congruence. }
  destruct param as [i|n]; [apply Hdel|].
  destruct (Rooms.findByNumber rooms n) as [r|]; [apply Hdel|].
  simpl. repeat split; auto. congruence.
Qed.

(** * The users route *)

Section UserStoreFacts.

Import AdminUsers.

Lemma adminCount_cons u rest :
  adminCount (u :: rest) = ((if isAdminUser u then 1 else 0) + adminCount rest)%nat.
Proof. unfold adminCount. simpl. destruct (isAdminUser u); reflexivity. Qed.

Lemma adminCount_deleteUser users i u :
  findUser users i = Some u ->
  (adminCount (deleteUser users i) + (if isAdminUser u then 1 else 0)
   = adminCount users)%nat.
Proof.
  unfold findUser. induction users as [|a rest IH]; simpl; [discriminate|].
  destruct (Nat.eqb (userId a) i).
  - intros [= <-]. rewrite adminCount_cons. lia.
  - intros H. specialize (IH H). rewrite !adminCount_cons. lia.
Qed.

Lemma adminCount_updateUser users i u role_ :
  findUser users i = Some u ->
  (adminCount (updateUser users i role_) + (if isAdminUser u then 1 else 0)
   = adminCount users
     + (match role_ with
        | Some r =>
            if String.eqb r EmptyString then (if isAdminUser u then 1 else 0)
            else if String.eqb r "admin" then 1 else 0
        | None => if isAdminUser u then 1 else 0
        end))%nat.
Proof.
  unfold findUser. induction users as [|a rest IH]; simpl; [discriminate|].
  destruct (Nat.eqb (userId a) i).
  - intros [= <-]. destruct role_ as [r|].
    + destruct (String.eqb r EmptyString); rewrite !adminCount_cons.
      * lia.
      * unfold isAdminUser at 1. simpl. lia.
    + rewrite !adminCount_cons. lia.
  - intros H. specialize (IH H). rewrite !adminCount_cons. lia.
Qed.

End UserStoreFacts.

(** X25: the users route keeps an administrator.  If the users collection
    has an admin, it still has one after any [PATCH] and after any
    [DELETE] of the admin users route, whoever calls and whatever is sent. *)
Theorem users_route_keeps_an_admin :
  forall users bs session id_ role_,
    (1 <= AdminUsers.adminCount users)%nat ->
    (1 <= AdminUsers.adminCount (fst (AdminUsers.PATCH users session id_ role_)))%nat
    /\ (1 <= AdminUsers.adminCount
               (fst (fst (AdminUsers.DELETE users bs session id_))))%nat.
Proof.
  intros users bs session id_ role_ Hone. split.
  - unfold AdminUsers.PATCH.
    destruct session as [su|]; [|exact Hone].
    destruct (negb (isAdminRole (role su))); [exact Hone|].
    destruct id_ as [i|]; [|exact Hone].
    destruct (AdminUsers.findUser users i) as [u|] eqn:Hfind; [|exact Hone].
    pose proof (adminCount_updateUser users i u role_ Hfind) as Hcount.
    destruct (AdminUsers.isAdminUser u) eqn:Hadmin; simpl.
    + destruct role_ as [r|]; simpl.
      * destruct (String.eqb r EmptyString) eqn:Hempty.
        { apply String.eqb_eq in Hempty. subst r. simpl.
          destruct (Nat.leb (AdminUsers.adminCount users) 1) eqn:Hle; simpl;
            [exact Hone|].
          lia. }
        destruct (String.eqb r "admin") eqn:Hr; simpl; [simpl; lia|].
        destruct (Nat.leb (AdminUsers.adminCount users) 1) eqn:Hle; simpl; [exact Hone|].
        apply Nat.leb_gt in Hle. lia.
      * destruct (Nat.leb (AdminUsers.adminCount users) 1) eqn:Hle; simpl; [exact Hone|].
        lia.
    + destruct role_ as [r|];
        [destruct (String.eqb r EmptyString); [|destruct (String.eqb r "admin")]|];
        simpl; lia.
  - unfold AdminUsers.DELETE.
    destruct session as [su|]; [|exact Hone].
    destruct (negb (isAdminRole (role su))); [exact Hone|].
    destruct id_ as [i|]; [|exact Hone].
    destruct (Nat.eqb i (id su)); [exact Hone|].
    destruct (AdminUsers.findUser users i) as [u|] eqn:Hfind; [|exact Hone].
    pose proof (adminCount_deleteUser users i u Hfind) as Hcount.
    destruct (AdminUsers.isAdminUser u) eqn:Hadmin; simpl.
    + destruct (Nat.leb (AdminUsers.adminCount users) 1) eqn:Hle; simpl; [exact Hone|].
      apply Nat.leb_gt in Hle. lia.
    + lia.
Qed.

Lemma users_route_keeps_an_admin_witness :
  (1 <= AdminUsers.adminCount
          (fst (AdminUsers.PATCH
                  [AdminUsers.mkUser 1 "admin"; AdminUsers.mkUser 2 "professor"]
                  Scenario.adminSession (Some 1%nat) (Some "professor"%string))))%nat
  /\ (1 <= AdminUsers.adminCount
             (fst (fst (AdminUsers.DELETE
                          [AdminUsers.mkUser 1 "admin"; AdminUsers.mkUser 2 "professor"]
                          (bookings Scenario.busyDb)
                          Scenario.adminSession (Some 1%nat)))))%nat.
Proof.
  apply (users_route_keeps_an_admin
           [AdminUsers.mkUser 1 "admin"; AdminUsers.mkUser 2 "professor"]
           (bookings Scenario.busyDb) Scenario.adminSession (Some 1%nat)
           (Some "professor"%string)).
  vm_compute. lia.
Defined.

(** X26: deleting a user.  Under a refusal nothing changes, and an admin
    who names their own id is refused with 400.  On success the caller is
    an admin, the id is another user's, that user is taken out, every
    booking of that user is gone, every other booking stays, in order, and
    a collection free of double bookings stays so. *)
Theorem user_delete_takes_their_bookings :
  forall users bs session id_,
    match AdminUsers.DELETE users bs session id_ with
    | (users', bs', Refuse code _) =>
        users' = users /\ bs' = bs
        /\ (forall su, session = Some su -> role su = admin ->
            id_ = Some (id su) -> code = 400)
    | (users', bs', Answer _) =>
        exists su i u,
          session = Some su /\ role su = admin
          /\ id_ = Some i /\ i <> id su
          /\ AdminUsers.findUser users i = Some u
          /\ users' = AdminUsers.deleteUser users i
          /\ bs' = filter (fun b => negb (Nat.eqb (user b) i)) bs
          /\ (forall b, In b bs' -> user b <> i)
          /\ (NoDoubleBooking bs -> NoDoubleBooking bs')
    end.
Proof.
  intros users bs session id_. unfold AdminUsers.DELETE.
  destruct session as [su|]; [|simpl; repeat split; auto; discriminate].
  destruct (role su) eqn:Hrole; simpl;
    [|repeat split; auto; intros su' [= <-]; congruence].
  destruct id_ as [i|]; [|simpl; repeat split; auto; discriminate].
  destruct (Nat.eqb i (id su)) eqn:Hself; [simpl; repeat split; auto|].
  apply Nat.eqb_neq in Hself.
  destruct (AdminUsers.findUser users i) as [u|] eqn:Hfind;
    [|simpl; repeat split; auto; intros su' [= <-] _ [= ->]; contradiction].
  destruct (AdminUsers.isAdminUser u && Nat.leb (AdminUsers.adminCount users) 1);
    [simpl; repeat split; auto; intros su' [= <-] _ [= ->]; contradiction|].
  exists su, i, u.
  split; [reflexivity|]. split; [exact Hrole|]. split; [reflexivity|].
  split; [exact Hself|]. split; [exact Hfind|]. split; [reflexivity|].
  split; [reflexivity|]. split.
  - intros b Hb. apply filter_In in Hb as [_ Hb].
    apply negb_true_iff in Hb. apply Nat.eqb_neq. exact Hb.
  - apply NoDoubleBooking_filter.
Qed.

(** X27: the last administrator cannot be edited without resending the
    role.  When the only admin of the collection is patched by an admin
    with any role other than admin, or with no role in the body at all, the
    answer is 400 "Cannot change role of the last administrator" and the
    users are unchanged; with the role admin resent, the patch goes
    through. *)
Theorem last_admin_patch_needs_the_role :
  forall users session i u role_,
    isAdminSession session ->
    AdminUsers.findUser users i = Some u ->
    AdminUsers.isAdminUser u = true ->
    AdminUsers.adminCount users = 1%nat ->
    (role_ <> Some "admin"%string ->
     AdminUsers.PATCH users session (Some i) role_ =
       (users, Refuse 400 [Lit "Cannot change role of the last administrator"]))
    /\ AdminUsers.PATCH users session (Some i) (Some "admin"%string) =
         (AdminUsers.updateUser users i (Some "admin"%string), Answer tt).
Proof.
  intros users session i u role_ (su & -> & Hrole) Hfind Hadmin Hcount.
  unfold AdminUsers.PATCH. rewrite Hrole, Hfind, Hadmin, Hcount. simpl. split.
  - intros Hne. destruct role_ as [r|]; [|reflexivity].
    destruct (String.eqb r "admin") eqn:Hr; [|reflexivity].
    apply String.eqb_eq in Hr. congruence.
  - reflexivity.
Qed.

Lemma last_admin_patch_needs_the_role_witness :
  (None <> Some "admin"%string ->
   AdminUsers.PATCH [AdminUsers.mkUser 1 "admin"; AdminUsers.mkUser 2 "professor"]
     Scenario.adminSession (Some 1%nat) None =
     ([AdminUsers.mkUser 1 "admin"; AdminUsers.mkUser 2 "professor"],
      Refuse 400 [Lit "Cannot change role of the last administrator"]))
  /\ AdminUsers.PATCH [AdminUsers.mkUser 1 "admin"; AdminUsers.mkUser 2 "professor"]
       Scenario.adminSession (Some 1%nat) (Some "admin"%string) =
       (AdminUsers.updateUser
          [AdminUsers.mkUser 1 "admin"; AdminUsers.mkUser 2 "professor"] 1
          (Some "admin"%string), Answer tt).
Proof.
  apply (last_admin_patch_needs_the_role
           [AdminUsers.mkUser 1 "admin"; AdminUsers.mkUser 2 "professor"]
           Scenario.adminSession 1%nat (AdminUsers.mkUser 1 "admin") None).
  - exists {| id := 1; role := admin |}. split; reflexivity.
  - reflexivity.
  - reflexivity.
  - reflexivity.
Defined.
